(** * VicEduTutor: the hybrid retriever and the relevance gate of [app.py]

    A shallow embedding of [query_graph_rag] (app.py, lines 34-73) and of
    [is_query_relevant] with its keyword table (lines 236-244), followed by
    the properties the specification states about them.  Around them, the
    rest of the page: the area selector (lines 28 and 210),
    [get_ollama_models] (lines 76-84), the story [create_pdf] builds (lines
    98-178) and what the page does when the button is pressed (lines
    227-290), with the properties the code shows.

    Conventions.
    - A Python [str] is a [string]: the bytes of its UTF-8 encoding.  On
      well-formed UTF-8, equality, concatenation and the [in] operator agree
      with their code-point versions.  Where Python works on code points
      ([str.lower()], [str.strip()]) the bytes are read as code points; a byte
      that is part of no well-formed sequence is kept as it is.
    - A Python [dict] with string keys is a [gmap string V]; a Python [list]
      is a [list].
    - The sentence-transformer model and the FAISS index are collaborators
      the repository only calls; they are fields of a [world] record, and
      every call may raise.
    - The Ollama client and the PDF library are collaborators too, fields
      of an [app_world] record: the constructor [Paragraph(text, style)],
      which parses its text, and [doc.build] may raise.
    - Calls to collaborators and to [st.error] are logged in a trace, so
      that the absence of a search and the number of diagnostics are
      statements about a value. *)

From Stdlib Require Import ZArith String Ascii List Bool Sorted Lia.
From stdpp Require Import base option list strings gmap pretty.
From stdpp Require Import sorting.

Local Open Scope string_scope.
Local Open Scope Z_scope.

(** ** Python primitives used by the program *)

(** [sub in s] on strings: [sub] occurs in [s] at some offset. *)
Fixpoint str_contains (s sub : string) : bool :=
  String.prefix sub s ||
  match s with
  | EmptyString => false
  | String _ s' => str_contains s' sub
  end.

(** [range(a, b)]. *)
Definition range (a b : Z) : list Z := seqZ a (b - a).

(** [enumerate(l)]. *)
Definition enumerate {A} (l : list A) : list (nat * A) := imap pair l.

(** A dict display or comprehension: items are stored left to right, a later
    item replaces an earlier one with the same key. *)
Definition dict_of_items {V} (items : list (string * V)) : gmap string V :=
  foldl (λ d kv, <[kv.1 := kv.2]> d) ∅ items.

(** [a | b] on dicts: the entries of [b] win. *)
Definition dict_or {V} (a b : gmap string V) : gmap string V := b ∪ a.

(** [d.get(k, default)]. *)
Definition dict_get {V} (d : gmap string V) (k : string) (dflt : V) : V :=
  default dflt (d !! k).

(** [l[i]] on a list, with Python's negative offsets; [None] stands for
    [IndexError]. *)
Definition list_getitem {A} (l : list A) (i : Z) : option A :=
  if 0 <=? i then l !! Z.to_nat i
  else if - Z.of_nat (length l) <=? i then l !! Z.to_nat (Z.of_nat (length l) + i)
  else None.

(** Exceptions, all of class [Exception].  [Error] is whatever a
    collaborator raises, with its [str()]. *)
Inductive exn :=
  | KeyError (key : string)
  | IndexError
  | Error (msg : string).

Definition exn_str (e : exn) : string :=
  match e with
  | KeyError key => "'" +:+ key +:+ "'"
  | IndexError => "list index out of range"
  | Error msg => msg
  end.

(** ** Code points and [str.lower()]

    [str.lower()] works on code points: it maps each through the lower-case
    table of the Unicode Character Database, U+0130 to two code points, and
    the capital sigma to one of the two small sigmas according to what
    stands around it (CPython's [do_lower] and [handle_capital_sigma]). *)

(** The value of a byte, and the byte of a value below 256. *)
Definition byte_value (c : ascii) : Z := Z.of_N (N_of_ascii c).

Definition byte_char (b : Z) : ascii := ascii_of_N (Z.to_N b).

Definition is_continuation (b : Z) : bool := (128 <=? b) && (b <=? 191).

(** The second byte of a sequence of three or four bytes: the ranges that
    leave out the overlong forms, the surrogates and what lies beyond
    U+10FFFF. *)
Definition second_byte_ok (b1 b2 : Z) : bool :=
  if b1 =? 224 then (160 <=? b2) && (b2 <=? 191)
  else if b1 =? 237 then (128 <=? b2) && (b2 <=? 159)
  else if b1 =? 240 then (144 <=? b2) && (b2 <=? 191)
  else if b1 =? 244 then (128 <=? b2) && (b2 <=? 143)
  else is_continuation b2.

(** The code point of a well-formed sequence of two, three or four bytes. *)
Definition two_bytes (b1 b2 : Z) : option Z :=
  if (194 <=? b1) && (b1 <=? 223) && is_continuation b2
  then Some ((b1 - 192) * 64 + (b2 - 128))
  else None.

Definition three_bytes (b1 b2 b3 : Z) : option Z :=
  if (224 <=? b1) && (b1 <=? 239) && second_byte_ok b1 b2 && is_continuation b3
  then Some ((b1 - 224) * 4096 + (b2 - 128) * 64 + (b3 - 128))
  else None.

Definition four_bytes (b1 b2 b3 b4 : Z) : option Z :=
  if (240 <=? b1) && (b1 <=? 244) && second_byte_ok b1 b2
     && is_continuation b3 && is_continuation b4
  then Some ((b1 - 240) * 262144 + (b2 - 128) * 4096 + (b3 - 128) * 64 + (b4 - 128))
  else None.

(** A byte that is part of no well-formed sequence stands for itself, as the
    code point U+DC00 plus its value (Python's [surrogateescape]). *)
Definition escaped_byte (b : Z) : Z := 56320 + b.

(** The code points of a [str], from its bytes. *)
Fixpoint decode_utf8 (s : string) : list Z :=
  match s with
  | EmptyString => []
  | String c1 s1 =>
      if byte_value c1 <? 128 then byte_value c1 :: decode_utf8 s1
      else
        match s1 with
        | EmptyString => [escaped_byte (byte_value c1)]
        | String c2 s2 =>
            match two_bytes (byte_value c1) (byte_value c2) with
            | Some code => code :: decode_utf8 s2
            | None =>
                match s2 with
                | EmptyString => escaped_byte (byte_value c1) :: decode_utf8 s1
                | String c3 s3 =>
                    match three_bytes (byte_value c1) (byte_value c2) (byte_value c3) with
                    | Some code => code :: decode_utf8 s3
                    | None =>
                        match s3 with
                        | EmptyString => escaped_byte (byte_value c1) :: decode_utf8 s1
                        | String c4 s4 =>
                            match four_bytes (byte_value c1) (byte_value c2)
                                             (byte_value c3) (byte_value c4) with
                            | Some code => code :: decode_utf8 s4
                            | None => escaped_byte (byte_value c1) :: decode_utf8 s1
                            end
                        end
                    end
                end
            end
        end
  end.

(** The bytes of a code point; an escaped byte gives the byte back.  A number
    that is no code point has no bytes. *)
Definition encode_code_point (code : Z) : string :=
  if code <? 0 then ""
  else if code <? 128 then String (byte_char code) ""
  else if code <? 2048 then
    String (byte_char (192 + code / 64)) (String (byte_char (128 + code mod 64)) "")
  else if (56448 <=? code) && (code <=? 56575) then String (byte_char (code - 56320)) ""
  else if code <? 65536 then
    String (byte_char (224 + code / 4096))
      (String (byte_char (128 + code / 64 mod 64))
         (String (byte_char (128 + code mod 64)) ""))
  else if code <? 1114112 then
    String (byte_char (240 + code / 262144))
      (String (byte_char (128 + code / 4096 mod 64))
         (String (byte_char (128 + code / 64 mod 64))
            (String (byte_char (128 + code mod 64)) "")))
  else "".

Fixpoint encode_utf8 (codes : list Z) : string :=
  match codes with
  | [] => ""
  | code :: rest => encode_code_point code +:+ encode_utf8 rest
  end.

(** A scalar value: a code point that is no surrogate. *)
Definition is_scalar (c : Z) : bool :=
  (0 <=? c) && (c <? 55296) || (57344 <=? c) && (c <? 1114112).

(** The simple lower-case mappings of the Unicode Character Database,
    version 14.0 (the one of CPython 3.11), in rows [(first, last, step,
    delta)]: the code points [first], [first + step], ... up to [last] map to
    themselves plus [delta]. *)
Definition lowercase_table : list (Z * Z * Z * Z) :=
  [
    (65, 90, 1, 32); (192, 214, 1, 32); (216, 222, 1, 32); (256, 302, 2, 1);
    (306, 310, 2, 1); (313, 327, 2, 1); (330, 374, 2, 1); (376, 376, 1, -121);
    (377, 381, 2, 1); (385, 385, 1, 210); (386, 388, 2, 1);
    (390, 390, 1, 206); (391, 391, 1, 1); (393, 394, 1, 205);
    (395, 395, 1, 1); (398, 398, 1, 79); (399, 399, 1, 202);
    (400, 400, 1, 203); (401, 401, 1, 1); (403, 403, 1, 205);
    (404, 404, 1, 207); (406, 406, 1, 211); (407, 407, 1, 209);
    (408, 408, 1, 1); (412, 412, 1, 211); (413, 413, 1, 213);
    (415, 415, 1, 214); (416, 420, 2, 1); (422, 422, 1, 218);
    (423, 423, 1, 1); (425, 425, 1, 218); (428, 428, 1, 1);
    (430, 430, 1, 218); (431, 431, 1, 1); (433, 434, 1, 217);
    (435, 437, 2, 1); (439, 439, 1, 219); (440, 440, 1, 1); (444, 444, 1, 1);
    (452, 452, 1, 2); (453, 453, 1, 1); (455, 455, 1, 2); (456, 456, 1, 1);
    (458, 458, 1, 2); (459, 475, 2, 1); (478, 494, 2, 1); (497, 497, 1, 2);
    (498, 500, 2, 1); (502, 502, 1, -97); (503, 503, 1, -56);
    (504, 542, 2, 1); (544, 544, 1, -130); (546, 562, 2, 1);
    (570, 570, 1, 10795); (571, 571, 1, 1); (573, 573, 1, -163);
    (574, 574, 1, 10792); (577, 577, 1, 1); (579, 579, 1, -195);
    (580, 580, 1, 69); (581, 581, 1, 71); (582, 590, 2, 1); (880, 882, 2, 1);
    (886, 886, 1, 1); (895, 895, 1, 116); (902, 902, 1, 38);
    (904, 906, 1, 37); (908, 908, 1, 64); (910, 911, 1, 63);
    (913, 929, 1, 32); (931, 939, 1, 32); (975, 975, 1, 8); (984, 1006, 2, 1);
    (1012, 1012, 1, -60); (1015, 1015, 1, 1); (1017, 1017, 1, -7);
    (1018, 1018, 1, 1); (1021, 1023, 1, -130); (1024, 1039, 1, 80);
    (1040, 1071, 1, 32); (1120, 1152, 2, 1); (1162, 1214, 2, 1);
    (1216, 1216, 1, 15); (1217, 1229, 2, 1); (1232, 1326, 2, 1);
    (1329, 1366, 1, 48); (4256, 4293, 1, 7264); (4295, 4295, 1, 7264);
    (4301, 4301, 1, 7264); (5024, 5103, 1, 38864); (5104, 5109, 1, 8);
    (7312, 7354, 1, -3008); (7357, 7359, 1, -3008); (7680, 7828, 2, 1);
    (7838, 7838, 1, -7615); (7840, 7934, 2, 1); (7944, 7951, 1, -8);
    (7960, 7965, 1, -8); (7976, 7983, 1, -8); (7992, 7999, 1, -8);
    (8008, 8013, 1, -8); (8025, 8031, 2, -8); (8040, 8047, 1, -8);
    (8072, 8079, 1, -8); (8088, 8095, 1, -8); (8104, 8111, 1, -8);
    (8120, 8121, 1, -8); (8122, 8123, 1, -74); (8124, 8124, 1, -9);
    (8136, 8139, 1, -86); (8140, 8140, 1, -9); (8152, 8153, 1, -8);
    (8154, 8155, 1, -100); (8168, 8169, 1, -8); (8170, 8171, 1, -112);
    (8172, 8172, 1, -7); (8184, 8185, 1, -128); (8186, 8187, 1, -126);
    (8188, 8188, 1, -9); (8486, 8486, 1, -7517); (8490, 8490, 1, -8383);
    (8491, 8491, 1, -8262); (8498, 8498, 1, 28); (8544, 8559, 1, 16);
    (8579, 8579, 1, 1); (9398, 9423, 1, 26); (11264, 11311, 1, 48);
    (11360, 11360, 1, 1); (11362, 11362, 1, -10743); (11363, 11363, 1, -3814);
    (11364, 11364, 1, -10727); (11367, 11371, 2, 1);
    (11373, 11373, 1, -10780); (11374, 11374, 1, -10749);
    (11375, 11375, 1, -10783); (11376, 11376, 1, -10782);
    (11378, 11378, 1, 1); (11381, 11381, 1, 1); (11390, 11391, 1, -10815);
    (11392, 11490, 2, 1); (11499, 11501, 2, 1); (11506, 11506, 1, 1);
    (42560, 42604, 2, 1); (42624, 42650, 2, 1); (42786, 42798, 2, 1);
    (42802, 42862, 2, 1); (42873, 42875, 2, 1); (42877, 42877, 1, -35332);
    (42878, 42886, 2, 1); (42891, 42891, 1, 1); (42893, 42893, 1, -42280);
    (42896, 42898, 2, 1); (42902, 42920, 2, 1); (42922, 42922, 1, -42308);
    (42923, 42923, 1, -42319); (42924, 42924, 1, -42315);
    (42925, 42925, 1, -42305); (42926, 42926, 1, -42308);
    (42928, 42928, 1, -42258); (42929, 42929, 1, -42282);
    (42930, 42930, 1, -42261); (42931, 42931, 1, 928); (42932, 42946, 2, 1);
    (42948, 42948, 1, -48); (42949, 42949, 1, -42307);
    (42950, 42950, 1, -35384); (42951, 42953, 2, 1); (42960, 42960, 1, 1);
    (42966, 42968, 2, 1); (42997, 42997, 1, 1); (65313, 65338, 1, 32);
    (66560, 66599, 1, 40); (66736, 66771, 1, 40); (66928, 66938, 1, 39);
    (66940, 66954, 1, 39); (66956, 66962, 1, 39); (66964, 66965, 1, 39);
    (68736, 68786, 1, 64); (71840, 71871, 1, 32); (93760, 93791, 1, 32);
    (125184, 125217, 1, 34) ].

(** The code points with the property Cased, as ranges [(first, last)]. *)
Definition cased_ranges : list (Z * Z) :=
  [
    (65, 90); (97, 122); (170, 170); (181, 181); (186, 186); (192, 214);
    (216, 246); (248, 442); (444, 447); (452, 659); (661, 696); (704, 705);
    (736, 740); (837, 837); (880, 883); (886, 887); (890, 893); (895, 895);
    (902, 902); (904, 906); (908, 908); (910, 929); (931, 1013); (1015, 1153);
    (1162, 1327); (1329, 1366); (1376, 1416); (4256, 4293); (4295, 4295);
    (4301, 4301); (4304, 4346); (4349, 4351); (5024, 5109); (5112, 5117);
    (7296, 7304); (7312, 7354); (7357, 7359); (7424, 7615); (7680, 7957);
    (7960, 7965); (7968, 8005); (8008, 8013); (8016, 8023); (8025, 8025);
    (8027, 8027); (8029, 8029); (8031, 8061); (8064, 8116); (8118, 8124);
    (8126, 8126); (8130, 8132); (8134, 8140); (8144, 8147); (8150, 8155);
    (8160, 8172); (8178, 8180); (8182, 8188); (8305, 8305); (8319, 8319);
    (8336, 8348); (8450, 8450); (8455, 8455); (8458, 8467); (8469, 8469);
    (8473, 8477); (8484, 8484); (8486, 8486); (8488, 8488); (8490, 8493);
    (8495, 8500); (8505, 8505); (8508, 8511); (8517, 8521); (8526, 8526);
    (8544, 8575); (8579, 8580); (9398, 9449); (11264, 11492); (11499, 11502);
    (11506, 11507); (11520, 11557); (11559, 11559); (11565, 11565);
    (42560, 42605); (42624, 42653); (42786, 42887); (42891, 42894);
    (42896, 42954); (42960, 42961); (42963, 42963); (42965, 42969);
    (42997, 42998); (43000, 43002); (43824, 43866); (43868, 43880);
    (43888, 43967); (64256, 64262); (64275, 64279); (65313, 65338);
    (65345, 65370); (66560, 66639); (66736, 66771); (66776, 66811);
    (66928, 66938); (66940, 66954); (66956, 66962); (66964, 66965);
    (66967, 66977); (66979, 66993); (66995, 67001); (67003, 67004);
    (67456, 67456); (67459, 67461); (67463, 67504); (67506, 67514);
    (68736, 68786); (68800, 68850); (71840, 71903); (93760, 93823);
    (119808, 119892); (119894, 119964); (119966, 119967); (119970, 119970);
    (119973, 119974); (119977, 119980); (119982, 119993); (119995, 119995);
    (119997, 120003); (120005, 120069); (120071, 120074); (120077, 120084);
    (120086, 120092); (120094, 120121); (120123, 120126); (120128, 120132);
    (120134, 120134); (120138, 120144); (120146, 120485); (120488, 120512);
    (120514, 120538); (120540, 120570); (120572, 120596); (120598, 120628);
    (120630, 120654); (120656, 120686); (120688, 120712); (120714, 120744);
    (120746, 120770); (120772, 120779); (122624, 122633); (122635, 122654);
    (125184, 125251); (127280, 127305); (127312, 127337); (127344, 127369) ].

(** The code points with the property Case_Ignorable. *)
Definition case_ignorable_ranges : list (Z * Z) :=
  [
    (39, 39); (46, 46); (58, 58); (94, 94); (96, 96); (168, 168); (173, 173);
    (175, 175); (180, 180); (183, 184); (688, 879); (884, 885); (890, 890);
    (900, 901); (903, 903); (1155, 1161); (1369, 1369); (1375, 1375);
    (1425, 1469); (1471, 1471); (1473, 1474); (1476, 1477); (1479, 1479);
    (1524, 1524); (1536, 1541); (1552, 1562); (1564, 1564); (1600, 1600);
    (1611, 1631); (1648, 1648); (1750, 1757); (1759, 1768); (1770, 1773);
    (1807, 1807); (1809, 1809); (1840, 1866); (1958, 1968); (2027, 2037);
    (2042, 2042); (2045, 2045); (2070, 2093); (2137, 2139); (2184, 2184);
    (2192, 2193); (2200, 2207); (2249, 2306); (2362, 2362); (2364, 2364);
    (2369, 2376); (2381, 2381); (2385, 2391); (2402, 2403); (2417, 2417);
    (2433, 2433); (2492, 2492); (2497, 2500); (2509, 2509); (2530, 2531);
    (2558, 2558); (2561, 2562); (2620, 2620); (2625, 2626); (2631, 2632);
    (2635, 2637); (2641, 2641); (2672, 2673); (2677, 2677); (2689, 2690);
    (2748, 2748); (2753, 2757); (2759, 2760); (2765, 2765); (2786, 2787);
    (2810, 2815); (2817, 2817); (2876, 2876); (2879, 2879); (2881, 2884);
    (2893, 2893); (2901, 2902); (2914, 2915); (2946, 2946); (3008, 3008);
    (3021, 3021); (3072, 3072); (3076, 3076); (3132, 3132); (3134, 3136);
    (3142, 3144); (3146, 3149); (3157, 3158); (3170, 3171); (3201, 3201);
    (3260, 3260); (3263, 3263); (3270, 3270); (3276, 3277); (3298, 3299);
    (3328, 3329); (3387, 3388); (3393, 3396); (3405, 3405); (3426, 3427);
    (3457, 3457); (3530, 3530); (3538, 3540); (3542, 3542); (3633, 3633);
    (3636, 3642); (3654, 3662); (3761, 3761); (3764, 3772); (3782, 3782);
    (3784, 3789); (3864, 3865); (3893, 3893); (3895, 3895); (3897, 3897);
    (3953, 3966); (3968, 3972); (3974, 3975); (3981, 3991); (3993, 4028);
    (4038, 4038); (4141, 4144); (4146, 4151); (4153, 4154); (4157, 4158);
    (4184, 4185); (4190, 4192); (4209, 4212); (4226, 4226); (4229, 4230);
    (4237, 4237); (4253, 4253); (4348, 4348); (4957, 4959); (5906, 5908);
    (5938, 5939); (5970, 5971); (6002, 6003); (6068, 6069); (6071, 6077);
    (6086, 6086); (6089, 6099); (6103, 6103); (6109, 6109); (6155, 6159);
    (6211, 6211); (6277, 6278); (6313, 6313); (6432, 6434); (6439, 6440);
    (6450, 6450); (6457, 6459); (6679, 6680); (6683, 6683); (6742, 6742);
    (6744, 6750); (6752, 6752); (6754, 6754); (6757, 6764); (6771, 6780);
    (6783, 6783); (6823, 6823); (6832, 6862); (6912, 6915); (6964, 6964);
    (6966, 6970); (6972, 6972); (6978, 6978); (7019, 7027); (7040, 7041);
    (7074, 7077); (7080, 7081); (7083, 7085); (7142, 7142); (7144, 7145);
    (7149, 7149); (7151, 7153); (7212, 7219); (7222, 7223); (7288, 7293);
    (7376, 7378); (7380, 7392); (7394, 7400); (7405, 7405); (7412, 7412);
    (7416, 7417); (7468, 7530); (7544, 7544); (7579, 7679); (8125, 8125);
    (8127, 8129); (8141, 8143); (8157, 8159); (8173, 8175); (8189, 8190);
    (8203, 8207); (8216, 8217); (8228, 8228); (8231, 8231); (8234, 8238);
    (8288, 8292); (8294, 8303); (8305, 8305); (8319, 8319); (8336, 8348);
    (8400, 8432); (11388, 11389); (11503, 11505); (11631, 11631);
    (11647, 11647); (11744, 11775); (11823, 11823); (12293, 12293);
    (12330, 12333); (12337, 12341); (12347, 12347); (12441, 12446);
    (12540, 12542); (40981, 40981); (42232, 42237); (42508, 42508);
    (42607, 42610); (42612, 42621); (42623, 42623); (42652, 42655);
    (42736, 42737); (42752, 42785); (42864, 42864); (42888, 42890);
    (42994, 42996); (43000, 43001); (43010, 43010); (43014, 43014);
    (43019, 43019); (43045, 43046); (43052, 43052); (43204, 43205);
    (43232, 43249); (43263, 43263); (43302, 43309); (43335, 43345);
    (43392, 43394); (43443, 43443); (43446, 43449); (43452, 43453);
    (43471, 43471); (43493, 43494); (43561, 43566); (43569, 43570);
    (43573, 43574); (43587, 43587); (43596, 43596); (43632, 43632);
    (43644, 43644); (43696, 43696); (43698, 43700); (43703, 43704);
    (43710, 43711); (43713, 43713); (43741, 43741); (43756, 43757);
    (43763, 43764); (43766, 43766); (43867, 43871); (43881, 43883);
    (44005, 44005); (44008, 44008); (44013, 44013); (64286, 64286);
    (64434, 64450); (65024, 65039); (65043, 65043); (65056, 65071);
    (65106, 65106); (65109, 65109); (65279, 65279); (65287, 65287);
    (65294, 65294); (65306, 65306); (65342, 65342); (65344, 65344);
    (65392, 65392); (65438, 65439); (65507, 65507); (65529, 65531);
    (66045, 66045); (66272, 66272); (66422, 66426); (67456, 67461);
    (67463, 67504); (67506, 67514); (68097, 68099); (68101, 68102);
    (68108, 68111); (68152, 68154); (68159, 68159); (68325, 68326);
    (68900, 68903); (69291, 69292); (69446, 69456); (69506, 69509);
    (69633, 69633); (69688, 69702); (69744, 69744); (69747, 69748);
    (69759, 69761); (69811, 69814); (69817, 69818); (69821, 69821);
    (69826, 69826); (69837, 69837); (69888, 69890); (69927, 69931);
    (69933, 69940); (70003, 70003); (70016, 70017); (70070, 70078);
    (70089, 70092); (70095, 70095); (70191, 70193); (70196, 70196);
    (70198, 70199); (70206, 70206); (70367, 70367); (70371, 70378);
    (70400, 70401); (70459, 70460); (70464, 70464); (70502, 70508);
    (70512, 70516); (70712, 70719); (70722, 70724); (70726, 70726);
    (70750, 70750); (70835, 70840); (70842, 70842); (70847, 70848);
    (70850, 70851); (71090, 71093); (71100, 71101); (71103, 71104);
    (71132, 71133); (71219, 71226); (71229, 71229); (71231, 71232);
    (71339, 71339); (71341, 71341); (71344, 71349); (71351, 71351);
    (71453, 71455); (71458, 71461); (71463, 71467); (71727, 71735);
    (71737, 71738); (71995, 71996); (71998, 71998); (72003, 72003);
    (72148, 72151); (72154, 72155); (72160, 72160); (72193, 72202);
    (72243, 72248); (72251, 72254); (72263, 72263); (72273, 72278);
    (72281, 72283); (72330, 72342); (72344, 72345); (72752, 72758);
    (72760, 72765); (72767, 72767); (72850, 72871); (72874, 72880);
    (72882, 72883); (72885, 72886); (73009, 73014); (73018, 73018);
    (73020, 73021); (73023, 73029); (73031, 73031); (73104, 73105);
    (73109, 73109); (73111, 73111); (73459, 73460); (78896, 78904);
    (92912, 92916); (92976, 92982); (92992, 92995); (94031, 94031);
    (94095, 94111); (94176, 94177); (94179, 94180); (110576, 110579);
    (110581, 110587); (110589, 110590); (113821, 113822); (113824, 113827);
    (118528, 118573); (118576, 118598); (119143, 119145); (119155, 119170);
    (119173, 119179); (119210, 119213); (119362, 119364); (121344, 121398);
    (121403, 121452); (121461, 121461); (121476, 121476); (121499, 121503);
    (121505, 121519); (122880, 122886); (122888, 122904); (122907, 122913);
    (122915, 122916); (122918, 122922); (123184, 123197); (123566, 123566);
    (123628, 123631); (125136, 125142); (125252, 125259); (127995, 127999);
    (917505, 917505); (917536, 917631); (917760, 917999) ].

(** The lower-case mapping of one code point: [c + delta] for the first row
    [(first, last, step, delta)] with [c] among [first], [first + step], ...
    up to [last]; [c] itself if there is none. *)
Fixpoint to_lower_in (table : list (Z * Z * Z * Z)) (c : Z) : Z :=
  match table with
  | [] => c
  | (first, last, step, delta) :: rows =>
      if (first <=? c) && (c <=? last) && ((c - first) mod step =? 0) then c + delta
      else to_lower_in rows c
  end.

Definition to_lower (c : Z) : Z := to_lower_in lowercase_table c.

(** The full mapping: U+0130 alone lower-cases to two code points. *)
Definition to_lower_full (c : Z) : list Z :=
  if c =? 304 then [105; 775] else [to_lower c].

Definition in_ranges (ranges : list (Z * Z)) (c : Z) : bool :=
  existsb (λ r, (r.1 <=? c) && (c <=? r.2)) ranges.

Definition is_cased (c : Z) : bool := in_ranges cased_ranges c.

Definition is_case_ignorable (c : Z) : bool := in_ranges case_ignorable_ranges c.

(** The first code point of [codes] that is not case-ignorable is cased. *)
Fixpoint cased_comes_first (codes : list Z) : bool :=
  match codes with
  | [] => false
  | c :: rest => if is_case_ignorable c then cased_comes_first rest else is_cased c
  end.

(** The capital sigma between [before] (nearest code point first) and
    [after] ends a word: a cased code point precedes it and none follows,
    case-ignorable ones skipped on both sides. *)
Definition final_sigma (before after : list Z) : bool :=
  cased_comes_first before && negb (cased_comes_first after).

(** The lower-casing of the code point [c] between [before] and [after]. *)
Definition lower_one (before : list Z) (c : Z) (after : list Z) : list Z :=
  if c =? 931 then [if final_sigma before after then 962 else 963] else to_lower_full c.

(** [str.lower()] on code points; [before] holds the code points already
    passed, nearest first. *)
Fixpoint lower_code_points (before codes : list Z) : list Z :=
  match codes with
  | [] => []
  | c :: after => (lower_one before c after ++ lower_code_points (c :: before) after)%list
  end.

(** [s.lower()]. *)
Definition lower (s : string) : string :=
  encode_utf8 (lower_code_points [] (decode_utf8 s)).

(** ** Data model *)

Module Metadata.
Record t := mk { learning_area : string; level : string }.
End Metadata.

Module Chunk.
Record t {ident : Type} := mk { id : ident; text : string; metadata : Metadata.t }.
Arguments t : clear implicits.
End Chunk.

(** One element of the list [query_graph_rag] returns:
    [{"chunk_id": ..., "text": ...}]. *)
Module Excerpt.
Record t {ident : Type} := mk { chunk_id : ident; text : string }.
Arguments t : clear implicits.
End Excerpt.

(** Line 31: the labels the level selector offers. *)
Definition levels : list string :=
  ["Foundation"] ++ map (λ i, "Year " +:+ pretty i) (range 1 11).

(** Modelled from the spec: the key expression of the dict comprehension of
    line 42.  In the file the text between the word Year of the key and the
    word Level of the value is damaged; the first dict (Foundation to
    Foundation), the value [f"Level {i}"] and [range(1, 11)] are as in the
    file.  The key [f"Year {i}"] is the label of the specification's Level
    Map; it is also the label line 31 builds in [levels], which line 43
    looks up in this dict. *)
Definition level_map : gmap string string :=
  dict_or {["Foundation" := "Foundation"]}
          (dict_of_items
             (map (λ i, ("Year " +:+ pretty i, "Level " +:+ pretty i)) (range 1 11))).

(** The inverse table of a dict: every value bound to its key. *)
Definition dict_inverse (d : gmap string string) : gmap string string :=
  dict_of_items (map (λ kv, (kv.2, kv.1)) (map_to_list d)).

(** Lines 47-48: the condition of the comprehension. *)
Definition chunk_matches {ident} (selected_area selected_level_internal : string)
    (chunk : Chunk.t ident) : bool :=
  String.eqb (Metadata.learning_area (Chunk.metadata chunk)) selected_area
  && (str_contains (Metadata.level (Chunk.metadata chunk)) selected_level_internal
      || String.eqb (Metadata.level (Chunk.metadata chunk)) "Unknown").

(** Lines 45-49. *)
Definition filtered_chunks {ident} (metadata_store : list (Chunk.t ident))
    (selected_area selected_level_internal : string) : list (nat * Chunk.t ident) :=
  List.filter (λ p, chunk_matches selected_area selected_level_internal p.2)
              (enumerate metadata_store).

(** ** The relevance gate (lines 236-244) *)

Definition subject_keywords : gmap string (list string) :=
  dict_of_items
    [ ("English", ["reading"; "writing"; "story"; "words"; "sentence"; "book"; "letter"]);
      ("Mathematics", ["number"; "count"; "add"; "subtract"; "multiply"; "divide"; "shape"]);
      ("Science", ["plant"; "animal"; "weather"; "space"; "rock"; "water"; "light"; "sound"]) ].

Definition is_query_relevant (query subject : string) : bool :=
  let query_lower := lower query in
  existsb (λ keyword, str_contains query_lower keyword)
          (dict_get subject_keywords subject []).

(** ** Effects: a trace of collaborator calls, and exceptions *)

(** What the program does to the outside, in the order it does it. *)
Inductive event {embedding : Type} :=
  | EvLoadModel (name : string)
  | EvEncode (text : string)
  | EvSearch (query_embedding : embedding) (k : Z)
  | EvStError (msg : string).
Arguments event : clear implicits.

(** A computation: the events it produced, and either the exception it
    raised or its value. *)
Definition run (E A : Type) : Type := (list E * (exn + A))%type.

#[global] Instance run_ret {E} : MRet (run E) := λ A a, ([], inr a).

#[global] Instance run_bind {E} : MBind (run E) := λ A B f m,
  match m.2 with
  | inl e => (m.1, inl e)
  | inr a => ((m.1 ++ (f a).1)%list, (f a).2)
  end.

Definition raise {E A} (e : exn) : run E A := ([], inl e).

(** A call to a collaborator: logged, then its outcome. *)
Definition call {E A} (ev : E) (outcome : exn + A) : run E A := ([ev], outcome).

(** The body of a [try:] whose handler is [except Exception as e]: the
    exception, if any, becomes a value for the handler. *)
Definition attempt {E A} (body : run E A) : run E (exn + A) := (body.1, inr body.2).

(** ** The collaborators *)

(** The two arrays [index.search] returns, for the one query row the program
    passes: [distances[0]] and [indices[0]].  FAISS labels are signed. *)
Record search_result {distance : Type} :=
  { distances : list distance; indices : list Z }.
Arguments search_result : clear implicits.

(** The object [SentenceTransformer(...)] returns; [encode] stands for
    [model.encode(text).astype('float32')] (and the reshape of the query). *)
Record model {embedding : Type} := { encode : string → exn + embedding }.
Arguments model : clear implicits.

(** [SentenceTransformer name] is lines 36-37, the import and the
    constructor; [index_search q k] is [index.search(q, k)] of line 59 on the
    index loaded at start-up. *)
Record world {embedding distance : Type} :=
  { SentenceTransformer : string → exn + model embedding;
    index_search : embedding → Z → exn + search_result distance }.
Arguments world : clear implicits.

(** ** The hybrid retriever (lines 34-73) *)

Definition st_error {embedding} (msg : string) : run (event embedding) unit :=
  call (EvStError msg) (inr tt).

Definition model_encode {embedding} (m : model embedding) (text : string)
    : run (event embedding) embedding :=
  call (EvEncode text) (encode m text).

(** Lines 64-71: the loop over [indices[0]]. *)
Fixpoint reconcile {ident embedding} (filtered : list (nat * Chunk.t ident))
    (indices : list Z) (results : list (Excerpt.t ident))
    : run (event embedding) (list (Excerpt.t ident)) :=
  match indices with
  | [] => mret results
  | idx :: rest =>
      if idx <? Z.of_nat (length filtered) then
        match list_getitem filtered idx with
        | None => raise IndexError
        | Some (chunk_idx, chunk) =>
            reconcile filtered rest
              (results ++ [Excerpt.mk _ (Chunk.id chunk) (Chunk.text chunk)])%list
        end
      else reconcile filtered rest results
  end.

Definition query_graph_rag {ident embedding distance}
    (w : world embedding distance) (metadata_store : list (Chunk.t ident))
    (query selected_area selected_level : string) (top_k : Z)
    : run (event embedding) (list (Excerpt.t ident)) :=
  loaded ← attempt (call (EvLoadModel "all-MiniLM-L6-v2")
                         (SentenceTransformer w "all-MiniLM-L6-v2"));
  match loaded with
  | inl e =>
      st_error ("Oops! Something went wrong with the learning tool: " +:+ exn_str e);;
      mret []
  | inr model =>
      selected_level_internal ←
        match level_map !! selected_level with
        | Some tag => mret tag
        | None => raise (KeyError selected_level)
        end;
      let filtered := filtered_chunks metadata_store selected_area selected_level_internal in
      match filtered with
      | [] => mret []
      | _ :: _ =>
          let filtered_indices := map fst filtered in
          let filtered_texts := map (λ p, Chunk.text p.2) filtered in
          searched ← attempt (
            filtered_embeddings ← mapM (model_encode model) filtered_texts;
            query_embedding ← model_encode model query;
            call (EvSearch query_embedding top_k) (index_search w query_embedding top_k));
          match searched with
          | inl e =>
              st_error ("Uh-oh! Trouble with the magic words: " +:+ exn_str e);;
              mret []
          | inr found => reconcile filtered (indices found) []
          end
      end
  end.

(** The variant the specification compares with: the same function without
    the embedding of the filtered subset's texts (line 57). *)
Definition query_graph_rag_no_subset_embedding {ident embedding distance}
    (w : world embedding distance) (metadata_store : list (Chunk.t ident))
    (query selected_area selected_level : string) (top_k : Z)
    : run (event embedding) (list (Excerpt.t ident)) :=
  loaded ← attempt (call (EvLoadModel "all-MiniLM-L6-v2")
                         (SentenceTransformer w "all-MiniLM-L6-v2"));
  match loaded with
  | inl e =>
      st_error ("Oops! Something went wrong with the learning tool: " +:+ exn_str e);;
      mret []
  | inr model =>
      selected_level_internal ←
        match level_map !! selected_level with
        | Some tag => mret tag
        | None => raise (KeyError selected_level)
        end;
      let filtered := filtered_chunks metadata_store selected_area selected_level_internal in
      match filtered with
      | [] => mret []
      | _ :: _ =>
          searched ← attempt (
            query_embedding ← model_encode model query;
            call (EvSearch query_embedding top_k) (index_search w query_embedding top_k));
          match searched with
          | inl e =>
              st_error ("Uh-oh! Trouble with the magic words: " +:+ exn_str e);;
              mret []
          | inr found => reconcile filtered (indices found) []
          end
      end
  end.

(** ** Reading a run *)

Definition is_search {embedding} (ev : event embedding) : bool :=
  match ev with EvSearch _ _ => true | _ => false end.

Definition is_encode {embedding} (ev : event embedding) : bool :=
  match ev with EvEncode _ => true | _ => false end.

Definition is_load {embedding} (ev : event embedding) : bool :=
  match ev with EvLoadModel _ => true | _ => false end.

(** The messages shown to the user through [st.error], in order. *)
Definition diagnostics {embedding} (trace : list (event embedding)) : list string :=
  omap (λ ev, match ev with EvStError msg => Some msg | _ => None end) trace.

Definition count_events {embedding} (p : event embedding → bool)
    (trace : list (event embedding)) : nat :=
  length (List.filter p trace).

(** [sub] occurs in [s]: the meaning of substring containment. *)
Definition occurs_in (sub s : string) : Prop :=
  ∃ before after, s = before +:+ sub +:+ after.

(** The internal tags of the specification's Level Map. *)
Definition internal_tags : list string :=
  ["Foundation"] ++ map (λ i, "Level " +:+ pretty i) (range 1 11).

(** The excerpt the loop appends for a chunk (lines 68-71). *)
Definition excerpt_of {ident} (chunk : Chunk.t ident) : Excerpt.t ident :=
  Excerpt.mk _ (Chunk.id chunk) (Chunk.text chunk).

(** The result slots of the index whose label passes the test of line 66,
    counted from [start], in the order the index returned them. *)
Fixpoint emitted_slots (start : nat) (size : Z) (labels : list Z) : list nat :=
  match labels with
  | [] => []
  | idx :: rest =>
      if idx <? size then start :: emitted_slots (S start) size rest
      else emitted_slots (S start) size rest
  end.

(** Slot [j] of the index's answer produced excerpt [r]. *)
Definition emits {ident} (filtered : list (nat * Chunk.t ident)) (labels : list Z)
    (j : nat) (r : Excerpt.t ident) : Prop :=
  ∃ idx p, labels !! j = Some idx ∧ idx < Z.of_nat (length filtered)
           ∧ list_getitem filtered idx = Some p ∧ r = excerpt_of p.2.

(** Lines 57-59 fail: some filtered text, the query, or the search raises. *)
Definition second_try_fails {ident embedding distance}
    (w : world embedding distance) (m : model embedding)
    (filtered : list (nat * Chunk.t ident)) (query : string) (top_k : Z) : Prop :=
  (∃ p e, p ∈ filtered ∧ encode m (Chunk.text p.2) = inl e)
  ∨ (∃ e, encode m query = inl e)
  ∨ (∃ q e, encode m query = inr q ∧ index_search w q top_k = inl e).

(** A collaborator the retriever calls fails: the model cannot be loaded, or
    the second [try] fails on a non-empty Filtered View. *)
Definition collaborator_fails {ident embedding distance}
    (w : world embedding distance) (metadata_store : list (Chunk.t ident))
    (query selected_area selected_level : string) (top_k : Z) : Prop :=
  (∃ e, SentenceTransformer w "all-MiniLM-L6-v2" = inl e)
  ∨ (∃ m tag, SentenceTransformer w "all-MiniLM-L6-v2" = inr m
              ∧ level_map !! selected_level = Some tag
              ∧ filtered_chunks metadata_store selected_area tag ≠ []
              ∧ second_try_fails w m (filtered_chunks metadata_store selected_area tag)
                                 query top_k).

(** The call of lines 57-59 that the event [ev] records raised [e]. *)
Definition call_raises {embedding distance} (w : world embedding distance)
    (m : model embedding) (ev : event embedding) (e : exn) : Prop :=
  match ev with
  | EvEncode text => encode m text = inl e
  | EvSearch query_embedding k => index_search w query_embedding k = inl e
  | _ => False
  end.

(** The calls of lines 57-59 when none raises: one embedding per text of the
    view, the embedding of the query, one search. *)
Definition second_try_calls {embedding} (m : model embedding)
    (filtered_texts : list string) (query : string) (top_k : Z)
    : list (event embedding) :=
  (map EvEncode filtered_texts
   ++ EvEncode query
   :: match encode m query with
      | inr query_embedding => [EvSearch query_embedding top_k]
      | inl _ => []
      end)%list.

(** The body of the second [try] (lines 57-59), named for the statements
    about it: [query_graph_rag] runs exactly this under [attempt]. *)
Definition second_try {embedding distance} (w : world embedding distance)
    (m : model embedding) (filtered_texts : list string) (query : string) (top_k : Z)
    : run (event embedding) (search_result distance) :=
  filtered_embeddings ← mapM (model_encode m) filtered_texts;
  query_embedding ← model_encode m query;
  call (EvSearch query_embedding top_k) (index_search w query_embedding top_k).

(** The same body without the embedding of the filtered texts. *)
Definition second_try_query_only {embedding distance} (w : world embedding distance)
    (m : model embedding) (query : string) (top_k : Z)
    : run (event embedding) (search_result distance) :=
  query_embedding ← model_encode m query;
  call (EvSearch query_embedding top_k) (index_search w query_embedding top_k).

(** ** Concrete corpora and collaborators *)

Definition plants : Chunk.t string :=
  Chunk.mk _ "sci-2-01" "Plants need water" (Metadata.mk "Science" "Level 2").

Definition addition : Chunk.t string :=
  Chunk.mk _ "mat-2-01" "Addition basics" (Metadata.mk "Mathematics" "Level 2").

Definition forces : Chunk.t string :=
  Chunk.mk _ "sci-10-01" "Forces and motion" (Metadata.mk "Science" "Level 10").

Definition seasons : Chunk.t string :=
  Chunk.mk _ "sci-2-02" "Seasons change" (Metadata.mk "Science" "Level 2").

(** Scenario 1 of the specification. *)
Definition scenario1_store : list (Chunk.t string) := [plants; addition].

(** A model whose embedding of a text is its length. *)
Definition length_model : model nat :=
  {| encode := λ text, inr (String.length text) |}.

(** A model that raises on texts longer than ten bytes. *)
Definition short_text_model : model nat :=
  {| encode := λ text,
       if (10 <? String.length text)%nat then inl (Error "out of memory")
       else inr (String.length text) |}.

(** An index that answers every search with the given rows. *)
Definition fixed_index (m : model nat) (dists : list nat) (labels : list Z)
    : world nat nat :=
  {| SentenceTransformer := λ _, inr m;
     index_search := λ _ _, inr {| distances := dists; indices := labels |} |}.

(** An index over a single stored vector, asked for three neighbours: FAISS
    pads the labels it cannot fill with [-1]. *)
Definition one_vector_world : world nat nat :=
  fixed_index length_model [4; 1000; 1000]%nat [0; -1; -1].

Definition no_model_world : world nat nat :=
  {| SentenceTransformer := λ _, inl (Error "No module named 'sentence_transformers'");
     index_search := λ _ _, inr {| distances := []; indices := [] |} |}.

Definition broken_index_world : world nat nat :=
  {| SentenceTransformer := λ _, inr length_model;
     index_search := λ _ _, inl (Error "index is not trained") |}.

(** A world whose model raises on the one filtered text but embeds the
    query, and whose index holds the one vector. *)
Definition short_text_world : world nat nat :=
  fixed_index short_text_model [4]%nat [0].

(** A corpus of three chunks with its index: the view for Science at Year 2
    holds the chunks at positions 0 and 2. *)
Definition three_chunk_store : list (Chunk.t string) := [plants; addition; seasons].

Definition three_chunk_world : world nat nat :=
  fixed_index length_model [2; 5; 9]%nat [1; 0; 2].

(** ** The area selector (lines 28 and 210) *)

(** Python's order on [str] compares code points; on UTF-8 that is the
    lexicographic order of the bytes. *)
Definition str_le (a b : string) : Prop := String.leb a b = true.

#[global] Instance str_le_dec (a b : string) : Decision (str_le a b) :=
  decide (String.leb a b = true).

(** [sorted(set(items))].  The iteration order of a Python set is not
    specified; the sorted list of its elements does not depend on it, so the
    set is listed in order of first occurrence. *)
Definition sorted_set (items : list string) : list string :=
  merge_sort str_le (remove_dups items).

(** Line 28. *)
Definition learning_areas {ident} (metadata_store : list (Chunk.t ident)) : list string :=
  sorted_set (map (λ chunk, Metadata.learning_area (Chunk.metadata chunk)) metadata_store).

(** [l.index(x)]: the first position of [x]; [None] stands for [ValueError]. *)
Definition list_index (l : list string) (x : string) : option nat :=
  fst <$> list_find (λ y, y = x) l.

(** Line 210: the default position of the subject selector. *)
Definition default_area_index {ident} (metadata_store : list (Chunk.t ident)) : option nat :=
  list_index (learning_areas metadata_store) "Science".

(** ** More of Python's [str] *)

Definition newline : ascii := ascii_of_N 10.

(** [s.split('\n')]. *)
Fixpoint split_lines (s : string) : list string :=
  match s with
  | EmptyString => [EmptyString]
  | String c s' =>
      if Ascii.eqb c newline then EmptyString :: split_lines s'
      else match split_lines s' with
           | [] => [String c EmptyString]
           | line :: lines => String c line :: lines
           end
  end.

(** [sep.join(items)]. *)
Fixpoint join (sep : string) (items : list string) : string :=
  match items with
  | [] => EmptyString
  | [item] => item
  | item :: rest => item +:+ sep +:+ join sep rest
  end.

Fixpoint string_rev (s : string) : string :=
  match s with
  | EmptyString => EmptyString
  | String c s' => string_rev s' +:+ String c EmptyString
  end.

(** The ASCII code points for which [str.isspace()] holds: tab to carriage
    return, the four separators 28 to 31, and the space. *)
Definition ascii_space (c : ascii) : bool :=
  let n := N_of_ascii c in
  ((9 <=? n) && (n <=? 13) || (28 <=? n) && (n <=? 32))%N.

(** The other white-space code points, by the last byte of their UTF-8
    encoding: after the lead byte 194, U+0085 and U+00A0. *)
Definition space_after_194 (n : N) : bool := ((n =? 133) || (n =? 160))%N.

(** After the bytes 226 128: U+2000 to U+200A, U+2028, U+2029, U+202F. *)
Definition space_after_226_128 (n : N) : bool :=
  ((128 <=? n) && (n <=? 138) || (n =? 168) || (n =? 169) || (n =? 175))%N.

(** [s.lstrip()]: the leading white-space code points are dropped.  Besides
    the ones above these are U+1680 (225 154 128), U+205F (226 129 159) and
    U+3000 (227 128 128). *)
Fixpoint lstrip (s : string) : string :=
  match s with
  | EmptyString => EmptyString
  | String c1 s1 =>
      if ascii_space c1 then lstrip s1
      else
        match s1 with
        | EmptyString => s
        | String c2 s2 =>
            let n1 := N_of_ascii c1 in
            let n2 := N_of_ascii c2 in
            if ((n1 =? 194) && space_after_194 n2)%N then lstrip s2
            else
              match s2 with
              | EmptyString => s
              | String c3 s3 =>
                  let n3 := N_of_ascii c3 in
                  if ((n1 =? 225) && (n2 =? 154) && (n3 =? 128)
                      || (n1 =? 226) && (n2 =? 128) && space_after_226_128 n3
                      || (n1 =? 226) && (n2 =? 129) && (n3 =? 159)
                      || (n1 =? 227) && (n2 =? 128) && (n3 =? 128))%N
                  then lstrip s3
                  else s
              end
        end
  end.

(** The same on the reversed string: the bytes of a code point come last
    byte first. *)
Fixpoint lstrip_reversed (s : string) : string :=
  match s with
  | EmptyString => EmptyString
  | String c1 s1 =>
      if ascii_space c1 then lstrip_reversed s1
      else
        match s1 with
        | EmptyString => s
        | String c2 s2 =>
            let n1 := N_of_ascii c1 in
            let n2 := N_of_ascii c2 in
            if ((n2 =? 194) && space_after_194 n1)%N then lstrip_reversed s2
            else
              match s2 with
              | EmptyString => s
              | String c3 s3 =>
                  let n3 := N_of_ascii c3 in
                  if ((n3 =? 225) && (n2 =? 154) && (n1 =? 128)
                      || (n3 =? 226) && (n2 =? 128) && space_after_226_128 n1
                      || (n3 =? 226) && (n2 =? 129) && (n1 =? 159)
                      || (n3 =? 227) && (n2 =? 128) && (n1 =? 128))%N
                  then lstrip_reversed s3
                  else s
              end
        end
  end.

(** [s.rstrip()] and [s.strip()]. *)
Definition rstrip (s : string) : string := string_rev (lstrip_reversed (string_rev s)).

Definition strip (s : string) : string := rstrip (lstrip s).

(** [s.startswith(p)] and [s.endswith(p)]. *)
Definition startswith (s p : string) : bool := String.prefix p s.

Definition endswith (s p : string) : bool := String.prefix (string_rev p) (string_rev s).

Fixpoint string_drop (n : nat) (s : string) : string :=
  match n, s with
  | O, _ => s
  | S n', EmptyString => EmptyString
  | S n', String _ s' => string_drop n' s'
  end.

(** [s.replace(old, new)] for a non-empty [old]: the occurrences of [old] are
    replaced from the left, none overlapping another.  [fuel] bounds the
    number of steps; the length of [s] is enough. *)
Fixpoint str_replace_from (fuel : nat) (old new s : string) : string :=
  match fuel with
  | O => s
  | S fuel' =>
      match s with
      | EmptyString => EmptyString
      | String c s' =>
          if String.prefix old s
          then new +:+ str_replace_from fuel' old new (string_drop (String.length old) s)
          else String c (str_replace_from fuel' old new s')
      end
  end.

Definition str_replace (s old new : string) : string :=
  str_replace_from (String.length s) old new s.

(** [re.sub(r'### (.+)', r'\1', s)].  A match is the four bytes of the
    prefix followed by one code point or more other than the newline, as many
    as there are; it is replaced by what follows the prefix.  [in_group] says
    that the scan is inside such a run. *)
Fixpoint re_sub_heading_scan (in_group : bool) (s : string) : string :=
  match s with
  | EmptyString => EmptyString
  | String c s' =>
      if in_group then String c (re_sub_heading_scan (negb (Ascii.eqb c newline)) s')
      else
        match s with
        | String "#" (String "#" (String "#" (String " " (String x rest)))) =>
            if Ascii.eqb x newline then String c (re_sub_heading_scan false s')
            else String x (re_sub_heading_scan true rest)
        | _ => String c (re_sub_heading_scan false s')
        end
  end.

Definition re_sub_heading (s : string) : string := re_sub_heading_scan false s.

(** ** The PDF story (lines 98-178) *)

(** The four paragraph styles of lines 104-138, named by the variable that
    holds them.  Their attributes are constants handed to the PDF library. *)
Inductive paragraph_style := note_style | title_style | body_style | footer_style.

(** The flowables the function appends to [story]: a paragraph that was
    constructed from its text and style, or a spacer. *)
Inductive flowable :=
  | Paragraph (text : string) (style : paragraph_style)
  | Spacer (width height : Z).

(** The byte [c] occurs in [s]. *)
Fixpoint has_byte (c : ascii) (s : string) : bool :=
  match s with
  | EmptyString => false
  | String x s' => Ascii.eqb x c || has_byte c s'
  end.

(** A line the loop of [create_pdf] treats as text: once stripped it is no
    heading, no rule and no footer. *)
Definition is_plain_line (raw : string) : bool :=
  let line := strip raw in
  negb (startswith line "### ") && negb (String.eqb line "---")
  && negb (startswith line "**" && endswith line "**").

(** Line 143: the text of the note at the top of every story. *)
Definition curriculum_note_text : string :=
  "This content is based on the Victorian Curriculum F–10 Version 2.0.".

Definition curriculum_note : flowable := Paragraph curriculum_note_text note_style.

(** ** The page around the retriever (lines 76-84 and 227-290) *)

Definition nl : string := String newline "".

(** Line 247: the prompt for a query the gate accepts. *)
Definition grounded_prompt (selected_area selected_level query context : string) : string :=
  join ""
    ["You are a professional tutor teaching ";
     selected_area;
     " at ";
     selected_level;
     ". The student asked: '";
     query;
     "'. Using this curriculum data as a guide, create an educational ";
     "lesson aligned with the Victorian Curriculum F–10 Version 2.0. ";
     "Keep it 1-2 pages (300-500 words) on a single page. Start with ";
     "foundational concepts, progress to ";
     selected_level;
     " skills, and include clear examples. Use emojis like 📖, ✅, 🔍, ";
     "✍️, 📝 for Foundation to Year 6, or fewer for higher levels:";
     nl;
     nl;
     context].

(** Lines 249-260: the example sentences of each level. *)
Definition examples_table : gmap string (list string) :=
  dict_of_items
    [ ("Foundation",
       ["The sun is big and yellow!";
        "A bunny hops quickly.";
        "Flowers grow in soil!"]);
      ("Year 1",
       ["The moon shines at night.";
        "Fish swim in water.";
        "Trees grow tall!"]);
      ("Year 2",
       ["Stars shine in the sky!";
        "Frogs live near ponds.";
        "The sun helps plants grow!"]);
      ("Year 3",
       ["Rivers flow to the sea.";
        "Birds use wings to fly.";
        "Magnets attract metal!"]);
      ("Year 4",
       ["Volcanoes release lava!";
        "Fish live in oceans.";
        "Shadows change with the sun!"]);
      ("Year 5",
       ["Planets orbit the sun!";
        "Wind carries seeds.";
        "Light creates rainbows!"]);
      ("Year 6",
       ["Earth’s plates cause quakes!";
        "Clouds form rain.";
        "Electricity powers lights!"]);
      ("Year 7",
       ["Cells are life’s building blocks!";
        "Rocks reveal Earth’s past.";
        "Gravity keeps us grounded!"]);
      ("Year 8",
       ["Atoms form everything!";
        "Heat turns water to steam.";
        "Sound travels in waves!"]);
      ("Year 9",
       ["Stars explode in space!";
        "Chemicals react together.";
        "Forces affect motion!"]);
      ("Year 10",
       ["Genes control traits!";
        "Earth orbits the sun.";
        "Energy flows in circuits!"]) ].

(** Line 261: [.get(selected_level, [...])]. *)
Definition examples_for (selected_level : string) : list string :=
  dict_get examples_table selected_level ["Here’s an example sentence for you!"].

(** Line 262: the prompt for a query the gate rejects. *)
Definition redirect_prompt (selected_area selected_level query : string) : string :=
  join ""
    ["You are a professional tutor teaching ";
     selected_area;
     " at ";
     selected_level;
     ". The student asked: '";
     query;
     "'. This query doesn’t align with ";
     selected_area;
     "—it seems technical! Create an educational lesson aligned with ";
     "the Victorian Curriculum F–10 Version 2.0, 1-2 pages (300-500 ";
     "words) on a single page. Note it’s not part of ";
     selected_area;
     ", then use these examples for ";
     selected_level;
     " and expand with clear, relevant content. Use emojis like 📖, ✅, ";
     "🔍, ✍️, 📝 for Foundation to Year 6, or fewer for higher levels:";
     nl;
     nl;
     join ", " (examples_for selected_level)].

(** Line 266. *)
Definition story_prompt (selected_level context : string) : string :=
  join ""
    ["You are a professional tutor for ";
     selected_level;
     ". Create a narrative activity aligned with the Victorian ";
     "Curriculum F–10 Version 2.0 that students at ";
     selected_level;
     " can read. Keep it 1-2 pages (300-500 words) on a single page. ";
     "Include a short story with a setting, a challenge, and a ";
     "resolution, using appropriate vocabulary. Use emojis like 📖, ✅, ";
     "🔍, ✍️, 📝, 🌳, 🐾 for Foundation to Year 6, or fewer for higher ";
     "levels:";
     nl;
     nl;
     context].

(** Line 268. *)
Definition maths_prompt (selected_level context : string) : string :=
  join ""
    ["You are a professional tutor for ";
     selected_level;
     ". Create a 'Treasure Hunt Maths Activity' aligned with the ";
     "Victorian Curriculum F–10 Version 2.0 that matches ";
     selected_level;
     " mathematics skills. Keep it 1-2 pages (300-500 words) on a ";
     "single page. Include 5 sums with answers (using addition, ";
     "subtraction, or multiplication), a brief narrative about a ";
     "'Maths Explorer' solving them, and clear explanations. Use ";
     "emojis like 📏, ➕, 🔢, ✏️, 🧮, 🍎, ⭐ for Foundation to Year 6, or ";
     "fewer for higher levels:";
     nl;
     nl;
     context].

(** Line 270. *)
Definition science_prompt (selected_level context : string) : string :=
  join ""
    ["You are a professional tutor for ";
     selected_level;
     ". Create a science activity aligned with the Victorian ";
     "Curriculum F–10 Version 2.0 that matches ";
     selected_level;
     " skills. Keep it 1-2 pages (300-500 words) on a single page. ";
     "Include 5 questions with answers, a brief narrative about a ";
     "student investigating them, and clear explanations. Use emojis ";
     "like 🔬, 🌍, 💡, 🌱, ☀️, 🐾, ⚗️ for Foundation to Year 6, or fewer ";
     "for higher levels:";
     nl;
     nl;
     context].

(** Line 264. *)
Definition fixed_context (question_type selected_level : string) : string :=
  join ""
    ["Create a ";
     lower question_type;
     " activity for ";
     selected_level].

(** Line 223: the query of an activity other than Custom. *)
Definition default_query (question_type selected_level : string) : string :=
  join ""
    ["Generate a ";
     lower question_type;
     " activity for ";
     selected_level].

(** Line 278. *)
Definition activity_heading (question_type selected_level : string) : string :=
  join ""
    ["### ";
     question_type;
     " Activity for ";
     selected_level].

(** Line 288. *)
Definition pdf_file_name (question_type selected_level : string) : string :=
  join ""
    [lower question_type;
     "_";
     str_replace selected_level " " "_";
     ".pdf"].

(** Line 234. *)
Definition retrieval_context {ident} (results : list (Excerpt.t ident)) : string :=
  match results with
  | [] => "No curriculum data found, but I’ll provide a response!"
  | _ :: _ => join (nl +:+ nl) (map (λ r, "Excerpt: " +:+ Excerpt.text r) results)
  end.

(** What the page does, beyond the events of the retriever. *)
Inductive page_event {embedding pdf : Type} :=
  | EvRetrieval (ev : event embedding)
  | EvOllamaList (host : string)
  | EvOllamaGenerate (model prompt : string)
  | EvError (msg : string)
  | EvWarning (msg : string)
  | EvSpinner (msg : string)
  | EvMarkdown (body : string)
  | EvWrite (body : string)
  | EvDocBuild (story : list flowable)
  | EvDownloadButton (label : string) (data : pdf) (file_name mime : string).
Arguments page_event : clear implicits.

(** The collaborators of the page: the retriever's own, the environment,
    the Ollama client ([list()] answers with a dict whose entries are read
    through their [model] attribute, [generate()] with a dict), and the PDF
    library.  The library parses the text of a paragraph as markup when
    [Paragraph(text, style)] is constructed, and raises on text it cannot
    parse: [paragraph_raises text style] is the exception of that call, if
    it raises.  [doc_build] is [doc.build], which yields the bytes of the
    buffer. *)
Record app_world {embedding distance pdf : Type} :=
  { rag : world embedding distance;
    getenv : string → option string;
    ollama_list : string → exn + gmap string (list (exn + string));
    ollama_generate : string → string → exn + gmap string string;
    paragraph_raises : string → paragraph_style → option exn;
    doc_build : list flowable → exn + pdf }.
Arguments app_world : clear implicits.

(** A call of the retriever from the page. *)
Definition lift_retrieval {embedding pdf A} (m : run (event embedding) A)
    : run (page_event embedding pdf) A :=
  (map EvRetrieval m.1, m.2).

(** An expression that may raise and touches nothing outside. *)
Definition evaluate {E A} (outcome : exn + A) : run E A := ([], outcome).

(** Lines 76-84. *)
Definition get_ollama_models {embedding distance pdf}
    (w : app_world embedding distance pdf)
    : run (page_event embedding pdf) (list string) :=
  listed ← attempt (
    let ollama_host := default "localhost:11434" (getenv w "OLLAMA_HOST") in
    response ← call (EvOllamaList ollama_host) (ollama_list w ollama_host);
    models ← mapM evaluate (dict_get response "models" []);
    mret (match models with [] => ["llama3"] | _ :: _ => models end));
  match listed with
  | inr models => mret models
  | inl e =>
      call (EvError ("Failed to connect to the tutor robot: " +:+ exn_str e)) (inr tt);;
      mret ["llama3"]
  end.

(** [Paragraph(text, style)]. *)
Definition new_paragraph {embedding distance pdf} (w : app_world embedding distance pdf)
    (text : string) (style : paragraph_style) : run (page_event embedding pdf) flowable :=
  evaluate (match paragraph_raises w text style with
            | Some e => inl e
            | None => inr (Paragraph text style)
            end).

(** Lines 153-155 and their copies: the pending section, if any, becomes one
    body paragraph. *)
Definition flush_section {embedding distance pdf} (w : app_world embedding distance pdf)
    (story : list flowable) (current_section : list string)
    : run (page_event embedding pdf) (list flowable) :=
  match current_section with
  | [] => mret story
  | _ :: _ =>
      body ← new_paragraph w (join "<br/>" current_section) body_style;
      mret (story ++ [body])%list
  end.

(** Lines 151-171: one turn of the loop, on [story] and [current_section]. *)
Definition story_step {embedding distance pdf} (w : app_world embedding distance pdf)
    (state : list flowable * list string) (raw : string)
    : run (page_event embedding pdf) (list flowable * list string) :=
  let '(story, current_section) := state in
  let line := strip raw in
  if startswith line "### " then
    story ← flush_section w story current_section;
    let title := re_sub_heading line in
    heading ← new_paragraph w title title_style;
    mret ((story ++ [heading; Spacer 1 12])%list, [])
  else if String.eqb line "---" then
    story ← flush_section w story current_section;
    mret ((story ++ [Spacer 1 12])%list, [])
  else if startswith line "**" && endswith line "**" then
    story ← flush_section w story current_section;
    let footer := str_replace line "**" "" in
    closing ← new_paragraph w footer footer_style;
    mret ((story ++ [closing])%list, [])
  else if negb (String.eqb line "") then mret (story, (current_section ++ [line])%list)
  else mret (story, current_section).

(** Lines 150-171: the loop over the lines. *)
Fixpoint story_loop {embedding distance pdf} (w : app_world embedding distance pdf)
    (state : list flowable * list string) (lines : list string)
    : run (page_event embedding pdf) (list flowable * list string) :=
  match lines with
  | [] => mret state
  | raw :: rest => state ← story_step w state raw; story_loop w state rest
  end.

(** Lines 140-174: the list handed to [doc.build], if every paragraph could
    be constructed. *)
Definition create_pdf_story {embedding distance pdf} (w : app_world embedding distance pdf)
    (content : string) : run (page_event embedding pdf) (list flowable) :=
  note ← new_paragraph w curriculum_note_text note_style;
  state ← story_loop w ([note; Spacer 1 12], []) (split_lines content);
  flush_section w state.1 state.2.

(** Lines 98-178: the story is built and handed to [doc.build]. *)
Definition create_pdf {embedding distance pdf} (w : app_world embedding distance pdf)
    (content : string) : run (page_event embedding pdf) pdf :=
  story ← create_pdf_story w content;
  call (EvDocBuild story) (doc_build w story).

(** A computation that touches nothing outside and raises, if it raises, what
    the construction of some paragraph raised. *)
Definition builds_paragraphs {embedding distance pdf A}
    (w : app_world embedding distance pdf) (m : run (page_event embedding pdf) A) : Prop :=
  m.1 = [] ∧ ∀ e, m.2 = inl e → ∃ text style, paragraph_raises w text style = Some e.

(** Lines 228-290: what the page does once the button is pressed.
    [selected_area] is read for the Custom activity only.  A [prompt] that no
    branch has bound is [None]; reading it raises [NameError]. *)
Definition generate_activity {ident embedding distance pdf}
    (w : app_world embedding distance pdf) (metadata_store : list (Chunk.t ident))
    (question_type selected_level selected_area selected_model query : string)
    : run (page_event embedding pdf) unit :=
  if String.eqb question_type "Custom" && String.eqb query "" then
    call (EvWarning "Please enter a query first.") (inr tt)
  else
    call (EvSpinner "Generating your activity...") (inr tt);;
    prompt ←
      (if String.eqb question_type "Custom" then
         results ← lift_retrieval
                     (query_graph_rag (rag w) metadata_store query
                                      selected_area selected_level 3);
         let context := retrieval_context results in
         if is_query_relevant query selected_area
         then mret (Some (grounded_prompt selected_area selected_level query context))
         else mret (Some (redirect_prompt selected_area selected_level query))
       else
         let context := fixed_context question_type selected_level in
         if String.eqb question_type "Story"
         then mret (Some (story_prompt selected_level context))
         else if String.eqb question_type "Maths"
         then mret (Some (maths_prompt selected_level context))
         else if String.eqb question_type "Science"
         then mret (Some (science_prompt selected_level context))
         else mret None);
    generated ← attempt (
      prompt ← evaluate (match prompt with
                         | Some p => inr p
                         | None => inl (Error "name 'prompt' is not defined")
                         end);
      answer ← call (EvOllamaGenerate selected_model prompt)
                    (ollama_generate w selected_model prompt);
      evaluate (match answer !! "response" with
                | Some text => inr text
                | None => inl (KeyError "response")
                end));
    response ←
      match generated with
      | inr response => mret response
      | inl e =>
          call (EvError ("Error generating activity: " +:+ exn_str e)) (inr tt);;
          mret "Unable to generate the activity. Please check the model connection."
      end;
    call (EvMarkdown (activity_heading question_type selected_level)) (inr tt);;
    call (EvWrite response) (inr tt);;
    call (EvMarkdown "---") (inr tt);;
    call (EvWrite "**Complete your activity!**") (inr tt);;
    pdf_buffer ← create_pdf w response;
    call (EvDownloadButton "Download as PDF" pdf_buffer
                           (pdf_file_name question_type selected_level)
                           "application/pdf") (inr tt).

(** Lines 232-270 of [generate_activity], named for the statements about
    them: the choice of the prompt. *)
Definition choose_prompt {ident embedding distance pdf}
    (w : app_world embedding distance pdf) (metadata_store : list (Chunk.t ident))
    (question_type selected_level selected_area query : string)
    : run (page_event embedding pdf) (option string) :=
  if String.eqb question_type "Custom" then
    results ← lift_retrieval
                (query_graph_rag (rag w) metadata_store query
                                 selected_area selected_level 3);
    let context := retrieval_context results in
    if is_query_relevant query selected_area
    then mret (Some (grounded_prompt selected_area selected_level query context))
    else mret (Some (redirect_prompt selected_area selected_level query))
  else
    let context := fixed_context question_type selected_level in
    if String.eqb question_type "Story"
    then mret (Some (story_prompt selected_level context))
    else if String.eqb question_type "Maths"
    then mret (Some (maths_prompt selected_level context))
    else if String.eqb question_type "Science"
    then mret (Some (science_prompt selected_level context))
    else mret None.

(** Lines 272-276: the call of the generator under its [try]. *)
Definition generate_response {embedding distance pdf}
    (w : app_world embedding distance pdf) (selected_model : string)
    (prompt : option string) : run (page_event embedding pdf) string :=
  generated ← attempt (
    prompt ← evaluate (match prompt with
                       | Some p => inr p
                       | None => inl (Error "name 'prompt' is not defined")
                       end);
    answer ← call (EvOllamaGenerate selected_model prompt)
                  (ollama_generate w selected_model prompt);
    evaluate (match answer !! "response" with
              | Some text => inr text
              | None => inl (KeyError "response")
              end));
  match generated with
  | inr response => mret response
  | inl e =>
      call (EvError ("Error generating activity: " +:+ exn_str e)) (inr tt);;
      mret "Unable to generate the activity. Please check the model connection."
  end.

(** Lines 278-290: the page shows the response and offers the PDF. *)
Definition show_activity {embedding distance pdf}
    (w : app_world embedding distance pdf)
    (question_type selected_level response : string)
    : run (page_event embedding pdf) unit :=
  call (EvMarkdown (activity_heading question_type selected_level)) (inr tt);;
  call (EvWrite response) (inr tt);;
  call (EvMarkdown "---") (inr tt);;
  call (EvWrite "**Complete your activity!**") (inr tt);;
  pdf_buffer ← create_pdf w response;
  call (EvDownloadButton "Download as PDF" pdf_buffer
                         (pdf_file_name question_type selected_level)
                         "application/pdf") (inr tt).

Definition is_retrieval {embedding pdf} (ev : page_event embedding pdf) : bool :=
  match ev with EvRetrieval _ => true | _ => false end.

Definition is_page_error {embedding pdf} (ev : page_event embedding pdf) : bool :=
  match ev with EvError _ => true | _ => false end.

Definition fallback_response : string :=
  "Unable to generate the activity. Please check the model connection.".

(** ** Concrete collaborators of the page *)

(** An Ollama server that lists two models, answers every prompt with a
    short lesson, and a PDF library that counts the flowables. *)
Definition friendly_app (r : world nat nat) : app_world nat nat nat :=
  {| rag := r;
     getenv := λ _, None;
     ollama_list := λ _, inr {["models" := [inr "llama3.2"; inr "mistral"]]};
     ollama_generate := λ _ _, inr {["response" := "### Plants" +:+ nl +:+ "Water them."]};
     paragraph_raises := λ _ _, None;
     doc_build := λ story, inr (length story) |}.

(** No Ollama server: both calls raise. *)
Definition offline_app (r : world nat nat) : app_world nat nat nat :=
  {| rag := r;
     getenv := λ _, Some "tutor:11434";
     ollama_list := λ _, inl (Error "connection refused");
     ollama_generate := λ _ _, inl (Error "connection refused");
     paragraph_raises := λ _ _, None;
     doc_build := λ story, inr (length story) |}.

(** A PDF library that rejects a text with a bold tag that is not closed,
    and a generator whose answer holds one. *)
Definition strict_markup_app (r : world nat nat) : app_world nat nat nat :=
  {| rag := r;
     getenv := λ _, None;
     ollama_list := λ _, inr ∅;
     ollama_generate := λ _ _, inr {["response" := "<b>unclosed"]};
     paragraph_raises := λ text _,
       if str_contains text "<b>" && negb (str_contains text "</b>")
       then Some (Error "Parse error: saw </para> instead of expected </b>")
       else None;
     doc_build := λ story, inr (length story) |}.


(** ** Reading strings and the tables of [str.lower()] *)

(** The code points a row of the lower-case table moves. *)
Definition row_codes (row : Z * Z * Z * Z) : list Z :=
  let '(first, last, step, delta) := row in
  map (λ k, first + k * step) (seqZ 0 ((last - first) / step + 1)).

(** The code points the lower-case table moves. *)
Definition lowercase_domain : list Z := flat_map row_codes lowercase_table.

(** The bytes of [s] are the well-formed UTF-8 of scalar values: [s] is the
    encoding of a [str] without surrogates. *)
Definition well_formed_utf8 (s : string) : bool := forallb is_scalar (decode_utf8 s).

(** What [str.lower()] does to a byte of ASCII text: the letters [A] to [Z]
    go to [a] to [z]. *)
Definition ascii_tolower (c : ascii) : ascii :=
  let n := N_of_ascii c in
  if ((65 <=? n) && (n <=? 90))%N then ascii_of_N (n + 32) else c.

(** A string byte by byte. *)
Fixpoint map_bytes (f : ascii → ascii) (s : string) : string :=
  match s with
  | EmptyString => EmptyString
  | String c s' => String (f c) (map_bytes f s')
  end.

(** [s.isascii()]: every byte is below 128. *)
Fixpoint ascii_only (s : string) : bool :=
  match s with
  | EmptyString => true
  | String c s' => (byte_value c <? 128) && ascii_only s'
  end.

(** What holds of every code point the table moves: it and its image are
    scalar values, the image is moved no further, it is none of the two code
    points with a mapping of their own, and if it is ASCII it is a small
    letter. *)
Definition moved_well (c : Z) : bool :=
  let d := to_lower c in
  is_scalar c && is_scalar d && (to_lower d =? d) && negb (d =? 304) && negb (d =? 931)
  && ((128 <=? d) || (97 <=? d) && (d <=? 122)).

(** The continuation bytes [s] starts with, [n] of them at most. *)
Fixpoint continuation_prefix (n : nat) (s : string) : string :=
  match n, s with
  | S n', String c s' =>
      if is_continuation (byte_value c) then String c (continuation_prefix n' s') else ""
  | _, _ => ""
  end.

(** The byte [c] and the first bytes of [s] make a well-formed sequence of
    two, three or four bytes. *)
Definition sequence_starts (c : ascii) (s : string) : bool :=
  match s with
  | EmptyString => false
  | String c2 s2 =>
      match two_bytes (byte_value c) (byte_value c2) with
      | Some _ => true
      | None =>
          match s2 with
          | EmptyString => false
          | String c3 s3 =>
              match three_bytes (byte_value c) (byte_value c2) (byte_value c3) with
              | Some _ => true
              | None =>
                  match s3 with
                  | EmptyString => false
                  | String c4 _ =>
                      bool_decide (is_Some (four_bytes (byte_value c) (byte_value c2)
                                                       (byte_value c3) (byte_value c4)))
                  end
              end
          end
      end
  end.

(** The ASCII bytes of a string, each at its place; a byte of a longer
    sequence leaves a gap. *)
Fixpoint ascii_projection (s : string) : list (option ascii) :=
  match s with
  | EmptyString => []
  | String c s' => (if byte_value c <? 128 then Some c else None) :: ascii_projection s'
  end.

(** The ASCII bytes the lower-casing of a code point contributes, whatever
    stands around it. *)
Definition code_point_projection (c : Z) : list (option ascii) :=
  ascii_projection (encode_utf8 (if c =? 931 then [963] else to_lower_full c)).

(** The number of ASCII bytes in a projection. *)
Definition ascii_count (l : list (option ascii)) : nat :=
  length (List.filter (λ x, match x with Some _ => true | None => false end) l).

(** * Properties *)

(** ** Strings *)

Lemma append_nil_l (s : string) : "" +:+ s = s.
Proof. reflexivity. Qed.

Lemma append_cons (a : ascii) (s1 s2 : string) :
  String a s1 +:+ s2 = String a (s1 +:+ s2).
Proof. reflexivity. Qed.

Lemma prefix_true_iff (sub s : string) :
  String.prefix sub s = true ↔ ∃ after, s = sub +:+ after.
Proof.
  revert s. induction sub as [|a sub IH]; intros s.
  - split; [intros _; by exists s | by destruct s].
  - destruct s as [|b s]; simpl.
    + split; [done | intros [after H]; by rewrite append_cons in H].
    + destruct (ascii_dec a b) as [->|Hne].
      * rewrite IH. split; intros [after H]; exists after.
        -- by rewrite append_cons, H.
        -- rewrite append_cons in H. by injection H.
      * split; [done | intros [after H]].
        rewrite append_cons in H. injection H as -> _. by destruct Hne.
Qed.

Lemma str_contains_true_iff (s sub : string) :
  str_contains s sub = true ↔ occurs_in sub s.
Proof.
  unfold occurs_in. induction s as [|a s IH]; cbn [str_contains].
  - rewrite orb_false_r, prefix_true_iff. split.
    + intros [after H]. by exists "", after.
    + intros [before [after H]]. destruct before; [by exists after |].
      by rewrite append_cons in H.
  - rewrite orb_true_iff, prefix_true_iff, IH. split.
    + intros [[after H] | [before [after H]]].
      * by exists "", after.
      * exists (String a before), after. by rewrite append_cons, H.
    + intros [before [after H]]. destruct before as [|b before].
      * left. by exists after.
      * right. rewrite append_cons in H. injection H as _ H. by exists before, after.
Qed.

(** ** Bytes and code points *)

Lemma byte_value_range (c : ascii) : 0 ≤ byte_value c < 256.
Proof.
  unfold byte_value. pose proof (N_ascii_bounded c) as H. lia.
Qed.

Lemma byte_char_value (c : ascii) : byte_char (byte_value c) = c.
Proof. unfold byte_char, byte_value. by rewrite N2Z.id, ascii_N_embedding. Qed.

Lemma byte_value_char (b : Z) : 0 ≤ b < 256 → byte_value (byte_char b) = b.
Proof.
  intros H. unfold byte_char, byte_value. rewrite N_ascii_embedding by lia. lia.
Qed.

Ltac bools :=
  repeat match goal with
    | H : _ && _ = true |- _ => apply andb_true_iff in H as [? ?]
    | H : _ || _ = true |- _ => apply orb_true_iff in H as [? | ?]
    | H : _ && _ = false |- _ => apply andb_false_iff in H as [? | ?]
    | H : _ || _ = false |- _ => apply orb_false_iff in H as [? ?]
    | H : (_ <=? _) = true |- _ => apply Z.leb_le in H
    | H : (_ <=? _) = false |- _ => apply Z.leb_gt in H
    | H : (_ <? _) = true |- _ => apply Z.ltb_lt in H
    | H : (_ <? _) = false |- _ => apply Z.ltb_ge in H
    | H : (_ =? _) = true |- _ => apply Z.eqb_eq in H
    | H : (_ =? _) = false |- _ => apply Z.eqb_neq in H
    end.

Lemma two_bytes_Some (b1 b2 code : Z) :
  two_bytes b1 b2 = Some code →
  194 ≤ b1 ≤ 223 ∧ 128 ≤ b2 ≤ 191 ∧ code = (b1 - 192) * 64 + (b2 - 128).
Proof.
  unfold two_bytes, is_continuation.
  destruct (_ && _) eqn:H; [| done]. intros [= <-]. bools. lia.
Qed.

Lemma second_byte_ok_continuation (b1 b2 : Z) :
  second_byte_ok b1 b2 = true → 128 ≤ b2 ≤ 191.
Proof.
  unfold second_byte_ok, is_continuation.
  repeat (match goal with |- context [if ?b then _ else _] => destruct b end);
    intros H; bools; lia.
Qed.

Lemma three_bytes_Some (b1 b2 b3 code : Z) :
  three_bytes b1 b2 b3 = Some code →
  224 ≤ b1 ≤ 239 ∧ second_byte_ok b1 b2 = true ∧ 128 ≤ b3 ≤ 191
  ∧ code = (b1 - 224) * 4096 + (b2 - 128) * 64 + (b3 - 128).
Proof.
  unfold three_bytes, is_continuation.
  destruct (_ && _) eqn:H; [| done]. intros [= <-]. bools. repeat split; (done || lia).
Qed.

Lemma four_bytes_Some (b1 b2 b3 b4 code : Z) :
  four_bytes b1 b2 b3 b4 = Some code →
  240 ≤ b1 ≤ 244 ∧ second_byte_ok b1 b2 = true ∧ 128 ≤ b3 ≤ 191 ∧ 128 ≤ b4 ≤ 191
  ∧ code = (b1 - 240) * 262144 + (b2 - 128) * 4096 + (b3 - 128) * 64 + (b4 - 128).
Proof.
  unfold four_bytes, is_continuation.
  destruct (_ && _) eqn:H; [| done]. intros [= <-]. bools. repeat split; (done || lia).
Qed.

Lemma second_byte_ok_cases (b1 b2 : Z) :
  second_byte_ok b1 b2 = true →
  (b1 = 224 ∧ 160 ≤ b2 ≤ 191) ∨ (b1 = 237 ∧ 128 ≤ b2 ≤ 159)
  ∨ (b1 = 240 ∧ 144 ≤ b2 ≤ 191) ∨ (b1 = 244 ∧ 128 ≤ b2 ≤ 143)
  ∨ (b1 ≠ 224 ∧ b1 ≠ 237 ∧ b1 ≠ 240 ∧ b1 ≠ 244 ∧ 128 ≤ b2 ≤ 191).
Proof.
  unfold second_byte_ok, is_continuation.
  destruct (b1 =? 224) eqn:H1; [intros; bools; lia |].
  destruct (b1 =? 237) eqn:H2; [intros; bools; lia |].
  destruct (b1 =? 240) eqn:H3; [intros; bools; lia |].
  destruct (b1 =? 244) eqn:H4; [intros; bools; lia |].
  intros; bools; lia.
Qed.

Lemma encode_two_bytes (c1 c2 : ascii) (code : Z) :
  two_bytes (byte_value c1) (byte_value c2) = Some code →
  is_scalar code = true ∧ encode_code_point code = String c1 (String c2 "").
Proof.
  intros H. apply two_bytes_Some in H as (H1 & H2 & ->).
  set (b1 := byte_value c1) in *. set (b2 := byte_value c2) in *.
  assert (((b1 - 192) * 64 + (b2 - 128)) / 64 = b1 - 192) as Hd
    by (symmetry; apply (Z.div_unique _ _ _ (b2 - 128)); lia).
  assert (((b1 - 192) * 64 + (b2 - 128)) mod 64 = b2 - 128) as Hm
    by (symmetry; apply (Z.mod_unique _ _ (b1 - 192)); lia).
  split.
  - unfold is_scalar. apply orb_true_iff. left. apply andb_true_iff.
    split; [apply Z.leb_le | apply Z.ltb_lt]; lia.
  - unfold encode_code_point.
    destruct (_ <? 0) eqn:E0; [bools; lia |].
    destruct (_ <? 128) eqn:E1; [bools; lia |].
    destruct (_ <? 2048) eqn:E2; [| bools; lia].
    rewrite Hd, Hm.
    replace (192 + (b1 - 192)) with b1 by lia. replace (128 + (b2 - 128)) with b2 by lia.
    unfold b1, b2. by rewrite !byte_char_value.
Qed.

Lemma encode_three_bytes (c1 c2 c3 : ascii) (code : Z) :
  three_bytes (byte_value c1) (byte_value c2) (byte_value c3) = Some code →
  is_scalar code = true ∧ encode_code_point code = String c1 (String c2 (String c3 "")).
Proof.
  intros H. apply three_bytes_Some in H as (H1 & H2 & H3 & ->).
  set (b1 := byte_value c1) in *. set (b2 := byte_value c2) in *.
  set (b3 := byte_value c3) in *.
  set (code := (b1 - 224) * 4096 + (b2 - 128) * 64 + (b3 - 128)).
  apply second_byte_ok_cases in H2.
  assert (code / 4096 = b1 - 224) as Hd1
    by (symmetry; apply (Z.div_unique _ _ _ ((b2 - 128) * 64 + (b3 - 128))); unfold code; lia).
  assert (code / 64 = (b1 - 224) * 64 + (b2 - 128)) as Hd2
    by (symmetry; apply (Z.div_unique _ _ _ (b3 - 128)); unfold code; lia).
  assert (code / 64 mod 64 = b2 - 128) as Hm2
    by (rewrite Hd2; symmetry; apply (Z.mod_unique _ _ (b1 - 224)); lia).
  assert (code mod 64 = b3 - 128) as Hm3
    by (symmetry; apply (Z.mod_unique _ _ ((b1 - 224) * 64 + (b2 - 128))); unfold code; lia).
  assert (2048 ≤ code < 55296 ∨ 57344 ≤ code < 65536) as Hrange by (unfold code; lia).
  split.
  - unfold is_scalar. apply orb_true_iff.
    destruct Hrange; [left | right]; apply andb_true_iff;
      (split; [apply Z.leb_le | apply Z.ltb_lt]; lia).
  - unfold encode_code_point.
    destruct (_ <? 0) eqn:E0; [bools; lia |].
    destruct (_ <? 128) eqn:E1; [bools; lia |].
    destruct (_ <? 2048) eqn:E2; [bools; lia |].
    destruct ((56448 <=? code) && _) eqn:E3; [bools; lia |].
    destruct (_ <? 65536) eqn:E4; [| bools; lia].
    rewrite Hd1, Hm2, Hm3.
    replace (224 + (b1 - 224)) with b1 by lia. replace (128 + (b2 - 128)) with b2 by lia.
    replace (128 + (b3 - 128)) with b3 by lia.
    unfold b1, b2, b3. by rewrite !byte_char_value.
Qed.

Lemma encode_four_bytes (c1 c2 c3 c4 : ascii) (code : Z) :
  four_bytes (byte_value c1) (byte_value c2) (byte_value c3) (byte_value c4) = Some code →
  is_scalar code = true
  ∧ encode_code_point code = String c1 (String c2 (String c3 (String c4 ""))).
Proof.
  intros H. apply four_bytes_Some in H as (H1 & H2 & H3 & H4 & ->).
  set (b1 := byte_value c1) in *. set (b2 := byte_value c2) in *.
  set (b3 := byte_value c3) in *. set (b4 := byte_value c4) in *.
  set (code := (b1 - 240) * 262144 + (b2 - 128) * 4096 + (b3 - 128) * 64 + (b4 - 128)).
  apply second_byte_ok_cases in H2.
  assert (code / 262144 = b1 - 240) as Hd1
    by (symmetry;
        apply (Z.div_unique _ _ _ ((b2 - 128) * 4096 + (b3 - 128) * 64 + (b4 - 128)));
        unfold code; lia).
  assert (code / 4096 = (b1 - 240) * 64 + (b2 - 128)) as Hd2
    by (symmetry; apply (Z.div_unique _ _ _ ((b3 - 128) * 64 + (b4 - 128)));
        unfold code; lia).
  assert (code / 64 = (b1 - 240) * 4096 + (b2 - 128) * 64 + (b3 - 128)) as Hd3
    by (symmetry; apply (Z.div_unique _ _ _ (b4 - 128)); unfold code; lia).
  assert (code / 4096 mod 64 = b2 - 128) as Hm2
    by (rewrite Hd2; symmetry; apply (Z.mod_unique _ _ (b1 - 240)); lia).
  assert (code / 64 mod 64 = b3 - 128) as Hm3
    by (rewrite Hd3; symmetry; apply (Z.mod_unique _ _ ((b1 - 240) * 64 + (b2 - 128))); lia).
  assert (code mod 64 = b4 - 128) as Hm4
    by (symmetry;
        apply (Z.mod_unique _ _ ((b1 - 240) * 4096 + (b2 - 128) * 64 + (b3 - 128)));
        unfold code; lia).
  assert (65536 ≤ code < 1114112) as Hrange by (unfold code; lia).
  split.
  - unfold is_scalar. apply orb_true_iff. right. apply andb_true_iff.
    split; [apply Z.leb_le | apply Z.ltb_lt]; lia.
  - unfold encode_code_point.
    destruct (_ <? 0) eqn:E0; [bools; lia |].
    destruct (_ <? 128) eqn:E1; [bools; lia |].
    destruct (_ <? 2048) eqn:E2; [bools; lia |].
    destruct ((56448 <=? code) && _) eqn:E3; [bools; lia |].
    destruct (_ <? 65536) eqn:E4; [bools; lia |].
    destruct (_ <? 1114112) eqn:E5; [| bools; lia].
    rewrite Hd1, Hm2, Hm3, Hm4.
    replace (240 + (b1 - 240)) with b1 by lia. replace (128 + (b2 - 128)) with b2 by lia.
    replace (128 + (b3 - 128)) with b3 by lia. replace (128 + (b4 - 128)) with b4 by lia.
    unfold b1, b2, b3, b4. by rewrite !byte_char_value.
Qed.

Lemma encode_escaped_byte (c : ascii) :
  128 ≤ byte_value c → encode_code_point (escaped_byte (byte_value c)) = String c "".
Proof.
  intros H. pose proof (byte_value_range c). unfold encode_code_point, escaped_byte.
  destruct (_ <? 0) eqn:E0; [bools; lia |].
  destruct (_ <? 128) eqn:E1; [bools; lia |].
  destruct (_ <? 2048) eqn:E2; [bools; lia |].
  destruct ((56448 <=? _) && _) eqn:E3; [| bools; lia].
  replace (56320 + byte_value c - 56320) with (byte_value c) by lia.
  by rewrite byte_char_value.
Qed.

Lemma encode_ascii_byte (c : ascii) :
  byte_value c < 128 → encode_code_point (byte_value c) = String c "".
Proof.
  intros H. pose proof (byte_value_range c). unfold encode_code_point.
  destruct (_ <? 0) eqn:E0; [bools; lia |].
  destruct (_ <? 128) eqn:E1; [| bools; lia]. by rewrite byte_char_value.
Qed.

(** The first code point of a string that is not empty: a scalar value
    written as a well-formed sequence, or a byte that stands for itself. *)
Lemma decode_utf8_first (c : ascii) (s : string) :
  (∃ code rest, is_scalar code = true
     ∧ String c s = encode_code_point code +:+ rest
     ∧ decode_utf8 (String c s) = code :: decode_utf8 rest
     ∧ (String.length rest ≤ String.length s)%nat)
  ∨ (128 ≤ byte_value c
     ∧ decode_utf8 (String c s) = escaped_byte (byte_value c) :: decode_utf8 s).
Proof.
  pose proof (byte_value_range c) as Hc. cbn [decode_utf8].
  destruct (byte_value c <? 128) eqn:E1.
  { left. exists (byte_value c), s. bools. rewrite encode_ascii_byte by done.
    repeat split; [| done].
    unfold is_scalar. apply orb_true_iff. left. apply andb_true_iff.
    split; [apply Z.leb_le | apply Z.ltb_lt]; lia. }
  bools. destruct s as [|c2 s2]; [right; split; [lia | done] |].
  destruct (two_bytes _ _) as [code|] eqn:E2.
  { left. exists code, s2. apply encode_two_bytes in E2 as [Hs ->].
    repeat split; [done | simpl; lia]. }
  destruct s2 as [|c3 s3]; [right; split; [lia | done] |].
  destruct (three_bytes _ _ _) as [code|] eqn:E3.
  { left. exists code, s3. apply encode_three_bytes in E3 as [Hs ->].
    repeat split; [done | simpl; lia]. }
  destruct s3 as [|c4 s4]; [right; split; [lia | done] |].
  destruct (four_bytes _ _ _ _) as [code|] eqn:E4.
  { left. exists code, s4. apply encode_four_bytes in E4 as [Hs ->].
    repeat split; [done | simpl; lia]. }
  right. split; [lia | done].
Qed.

Lemma is_scalar_cases (code : Z) :
  is_scalar code = true → 0 ≤ code < 55296 ∨ 57344 ≤ code < 1114112.
Proof. unfold is_scalar. intros H. bools; lia. Qed.

Lemma decode_utf8_ascii (c : ascii) (s : string) :
  byte_value c < 128 → decode_utf8 (String c s) = byte_value c :: decode_utf8 s.
Proof. intros H. cbn [decode_utf8]. destruct (_ <? 128) eqn:E; [done | bools; lia]. Qed.

Lemma ltb_128_false (b : Z) : 128 ≤ b → (b <? 128) = false.
Proof. intros H. apply Z.ltb_ge. lia. Qed.

Lemma decode_utf8_two (c1 c2 : ascii) (s : string) (code : Z) :
  two_bytes (byte_value c1) (byte_value c2) = Some code →
  decode_utf8 (String c1 (String c2 s)) = code :: decode_utf8 s.
Proof.
  intros H. pose proof (two_bytes_Some _ _ _ H) as (H1 & _).
  cbn [decode_utf8]. rewrite (ltb_128_false (byte_value c1)) by lia. by rewrite H.
Qed.

Lemma two_bytes_None (b1 b2 : Z) : 224 ≤ b1 → two_bytes b1 b2 = None.
Proof.
  intros H. unfold two_bytes. destruct (_ && _) eqn:E; [bools; lia | done].
Qed.

Lemma three_bytes_None (b1 b2 b3 : Z) : 240 ≤ b1 → three_bytes b1 b2 b3 = None.
Proof.
  intros H. unfold three_bytes. destruct (_ && _) eqn:E; [bools; lia | done].
Qed.

Lemma decode_utf8_three (c1 c2 c3 : ascii) (s : string) (code : Z) :
  three_bytes (byte_value c1) (byte_value c2) (byte_value c3) = Some code →
  decode_utf8 (String c1 (String c2 (String c3 s))) = code :: decode_utf8 s.
Proof.
  intros H. pose proof (three_bytes_Some _ _ _ _ H) as (H1 & _).
  cbn [decode_utf8]. rewrite (ltb_128_false (byte_value c1)) by lia.
  rewrite two_bytes_None by lia. by rewrite H.
Qed.

Lemma decode_utf8_four (c1 c2 c3 c4 : ascii) (s : string) (code : Z) :
  four_bytes (byte_value c1) (byte_value c2) (byte_value c3) (byte_value c4) = Some code →
  decode_utf8 (String c1 (String c2 (String c3 (String c4 s)))) = code :: decode_utf8 s.
Proof.
  intros H. pose proof (four_bytes_Some _ _ _ _ _ H) as (H1 & _).
  cbn [decode_utf8]. rewrite (ltb_128_false (byte_value c1)) by lia.
  rewrite two_bytes_None by lia. rewrite three_bytes_None by lia. by rewrite H.
Qed.

Lemma andb_intro (a b : bool) : a = true → b = true → a && b = true.
Proof. by intros -> ->. Qed.

Ltac prove_bools :=
  repeat (apply andb_intro);
  first [apply Z.leb_le | apply Z.ltb_lt | apply Z.eqb_eq | idtac]; try lia.

(** Decoding the bytes of a scalar value gives it back, whatever follows. *)
Lemma decode_encode_scalar (code : Z) (s : string) :
  is_scalar code = true →
  decode_utf8 (encode_code_point code +:+ s) = code :: decode_utf8 s.
Proof.
  intros H. apply is_scalar_cases in H. unfold encode_code_point.
  destruct (code <? 0) eqn:E0; [bools; lia |].
  destruct (code <? 128) eqn:E1.
  { bools. change (String ?a "" +:+ s) with (String a s).
    rewrite decode_utf8_ascii; rewrite byte_value_char by lia; [done | lia]. }
  destruct (code <? 2048) eqn:E2.
  { bools. change (String ?a (String ?b "") +:+ s) with (String a (String b s)).
    assert (0 ≤ code mod 64 < 64) by (apply Z.mod_pos_bound; lia).
    assert (2 ≤ code / 64 < 32)
      by (split; [apply Z.div_le_lower_bound | apply Z.div_lt_upper_bound]; lia).
    pose proof (Z.div_mod code 64 ltac:(lia)) as D1.
    apply decode_utf8_two. rewrite !byte_value_char by lia.
    unfold two_bytes, is_continuation.
    replace ((192 + code / 64 - 192) * 64 + (128 + code mod 64 - 128)) with code by lia.
    assert ((194 <=? 192 + code / 64) && (192 + code / 64 <=? 223)
            && ((128 <=? 128 + code mod 64) && (128 + code mod 64 <=? 191)) = true) as ->
      by prove_bools.
    done. }
  destruct ((56448 <=? code) && _) eqn:E3; [bools; lia |].
  assert (¬ 56448 ≤ code ≤ 56575) as Hesc by (bools; lia). clear E3.
  destruct (code <? 65536) eqn:E4.
  { bools.
    change (String ?a (String ?b (String ?c "")) +:+ s) with (String a (String b (String c s))).
    assert (0 ≤ code mod 64 < 64) by (apply Z.mod_pos_bound; lia).
    assert (0 ≤ code / 64 mod 64 < 64) by (apply Z.mod_pos_bound; lia).
    assert (0 ≤ code / 4096 < 16)
      by (split; [apply Z.div_le_lower_bound | apply Z.div_lt_upper_bound]; lia).
    pose proof (Z.div_mod code 64 ltac:(lia)) as D1.
    pose proof (Z.div_mod (code / 64) 64 ltac:(lia)) as D2.
    assert (code / 64 / 64 = code / 4096) as D3 by (rewrite Z.div_div by lia; done).
    rewrite D3 in D2.
    apply decode_utf8_three. rewrite !byte_value_char by lia.
    unfold three_bytes.
    replace ((224 + code / 4096 - 224) * 4096 + (128 + code / 64 mod 64 - 128) * 64
             + (128 + code mod 64 - 128)) with code by lia.
    assert (second_byte_ok (224 + code / 4096) (128 + code / 64 mod 64) = true) as Hsb.
    { unfold second_byte_ok, is_continuation.
      destruct (_ =? 224) eqn:Ea; [bools; prove_bools |].
      destruct (_ =? 237) eqn:Eb; [bools; prove_bools |].
      destruct (_ =? 240) eqn:Ec; [bools; lia |].
      destruct (_ =? 244) eqn:Ed; [bools; lia |]. prove_bools. }
    rewrite Hsb. unfold is_continuation.
    assert ((224 <=? 224 + code / 4096) && (224 + code / 4096 <=? 239) && true
            && ((128 <=? 128 + code mod 64) && (128 + code mod 64 <=? 191)) = true) as ->
      by prove_bools.
    done. }
  destruct (code <? 1114112) eqn:E5; [| bools; lia].
  bools.
  change (String ?a (String ?b (String ?c (String ?d ""))) +:+ s)
    with (String a (String b (String c (String d s)))).
  assert (0 ≤ code mod 64 < 64) by (apply Z.mod_pos_bound; lia).
  assert (0 ≤ code / 64 mod 64 < 64) by (apply Z.mod_pos_bound; lia).
  assert (0 ≤ code / 4096 mod 64 < 64) by (apply Z.mod_pos_bound; lia).
  assert (0 ≤ code / 262144 < 5)
    by (split; [apply Z.div_le_lower_bound | apply Z.div_lt_upper_bound]; lia).
  pose proof (Z.div_mod code 64 ltac:(lia)) as D1.
  pose proof (Z.div_mod (code / 64) 64 ltac:(lia)) as D2.
  pose proof (Z.div_mod (code / 4096) 64 ltac:(lia)) as D4.
  assert (code / 64 / 64 = code / 4096) as D3 by (rewrite Z.div_div by lia; done).
  assert (code / 4096 / 64 = code / 262144) as D5 by (rewrite Z.div_div by lia; done).
  rewrite D3 in D2. rewrite D5 in D4.
  apply decode_utf8_four. rewrite !byte_value_char by lia.
  unfold four_bytes.
  replace ((240 + code / 262144 - 240) * 262144 + (128 + code / 4096 mod 64 - 128) * 4096
           + (128 + code / 64 mod 64 - 128) * 64 + (128 + code mod 64 - 128))
    with code by lia.
  assert (second_byte_ok (240 + code / 262144) (128 + code / 4096 mod 64) = true) as Hsb.
  { unfold second_byte_ok, is_continuation.
    destruct (_ =? 224) eqn:Ea; [bools; lia |].
    destruct (_ =? 237) eqn:Eb; [bools; lia |].
    destruct (_ =? 240) eqn:Ec; [bools; prove_bools |].
    destruct (_ =? 244) eqn:Ed; [bools; prove_bools |]. prove_bools. }
  rewrite Hsb. unfold is_continuation.
  assert ((240 <=? 240 + code / 262144) && (240 + code / 262144 <=? 244) && true
          && ((128 <=? 128 + code / 64 mod 64) && (128 + code / 64 mod 64 <=? 191))
          && ((128 <=? 128 + code mod 64) && (128 + code mod 64 <=? 191)) = true) as ->
    by prove_bools.
  done.
Qed.

Lemma string_length_ind (P : string → Prop) :
  (∀ s, (∀ t, (String.length t < String.length s)%nat → P t) → P s) → ∀ s, P s.
Proof.
  intros H s. remember (String.length s) as n eqn:Hn. revert s Hn.
  induction n as [n IH] using lt_wf_ind. intros s ->.
  apply H. intros t Ht. by apply (IH (String.length t)).
Qed.

Lemma append_assoc (a b c : string) : (a +:+ b) +:+ c = a +:+ (b +:+ c).
Proof. induction a as [|x a IH]; [done |]. rewrite !append_cons. by rewrite IH. Qed.

Lemma encode_utf8_app (l1 l2 : list Z) :
  encode_utf8 (l1 ++ l2) = encode_utf8 l1 +:+ encode_utf8 l2.
Proof.
  induction l1 as [|c l1 IH]; [done |]. cbn [encode_utf8 app].
  by rewrite IH, append_assoc.
Qed.

(** Encoding what was decoded gives the bytes back. *)
Lemma encode_decode_utf8 (s : string) : encode_utf8 (decode_utf8 s) = s.
Proof.
  induction s as [s IH] using string_length_ind. destruct s as [|c s]; [done |].
  destruct (decode_utf8_first c s) as [(code & rest & _ & Hs & -> & Hlen) | [Hc ->]];
    cbn [encode_utf8].
  - rewrite IH by (simpl; lia). by rewrite Hs.
  - rewrite IH by (simpl; lia). by rewrite encode_escaped_byte.
Qed.

Lemma decode_encode_scalars (codes : list Z) (s : string) :
  forallb is_scalar codes = true →
  decode_utf8 (encode_utf8 codes +:+ s) = (codes ++ decode_utf8 s)%list.
Proof.
  induction codes as [|c codes IH]; [done |]. cbn [forallb encode_utf8 app].
  intros H. apply andb_true_iff in H as [Hc Hrest].
  by rewrite append_assoc, decode_encode_scalar, IH.
Qed.

Lemma decode_utf8_length (s : string) : (length (decode_utf8 s) ≤ String.length s)%nat.
Proof.
  induction s as [s IH] using string_length_ind. destruct s as [|c s]; [done |].
  destruct (decode_utf8_first c s) as [(code & rest & _ & Hs & -> & Hlen) | [Hc ->]].
  - specialize (IH rest ltac:(simpl; lia)). simpl. lia.
  - specialize (IH s ltac:(simpl; lia)). simpl. lia.
Qed.

(** Text that is well formed decodes piece by piece. *)
Lemma decode_utf8_app (a s : string) :
  well_formed_utf8 a = true →
  decode_utf8 (a +:+ s) = (decode_utf8 a ++ decode_utf8 s)%list.
Proof.
  unfold well_formed_utf8. induction a as [a IH] using string_length_ind.
  destruct a as [|c a]; [done |].
  destruct (decode_utf8_first c a) as [(code & rest & Hcode & Hs & Hd & Hlen) | [Hc Hd]];
    rewrite Hd; cbn [forallb]; intros H; apply andb_true_iff in H as [Ht Hrest].
  - rewrite Hs, append_assoc, decode_encode_scalar by done.
    by rewrite IH by (done || simpl; lia).
  - exfalso. pose proof (byte_value_range c). unfold is_scalar, escaped_byte in Ht.
    bools; lia.
Qed.

(** ** The lower-case table *)

Lemma elem_of_row_codes (first last step delta c : Z) :
  0 < step → first ≤ c ≤ last → (c - first) mod step = 0 →
  c ∈ row_codes (first, last, step, delta).
Proof.
  intros Hstep Hc Hmod. unfold row_codes. apply list_elem_of_fmap.
  exists ((c - first) / step). split.
  - pose proof (Z.div_mod (c - first) step ltac:(lia)). lia.
  - apply elem_of_seqZ. split; [apply Z.div_pos; lia |].
    assert ((c - first) / step ≤ (last - first) / step) by (apply Z.div_le_mono; lia).
    lia.
Qed.

Lemma to_lower_in_fixed_or_moved (table : list (Z * Z * Z * Z)) (c : Z) :
  Forall (λ row, 0 < row.1.2) table →
  to_lower_in table c = c ∨ c ∈ flat_map row_codes table.
Proof.
  induction 1 as [|[[[first last] step] delta] table Hrow _ IH]; [by left |].
  cbn [to_lower_in flat_map]. simpl in Hrow.
  destruct (_ && _) eqn:E.
  - right. apply elem_of_app. left. bools. apply elem_of_row_codes; lia.
  - destruct IH as [IH | IH]; [by left | right]. apply elem_of_app. by right.
Qed.

Lemma lowercase_table_steps : Forall (λ row, 0 < row.1.2) lowercase_table.
Proof.
  apply Forall_forall. intros row Hrow. apply list_elem_of_In in Hrow.
  assert (forallb (λ row : Z * Z * Z * Z, 0 <? row.1.2) lowercase_table = true) as H
    by (vm_compute; reflexivity).
  rewrite forallb_forall in H. apply Z.ltb_lt. by apply H.
Qed.

Lemma to_lower_fixed_or_moved (c : Z) : to_lower c = c ∨ c ∈ lowercase_domain.
Proof. apply to_lower_in_fixed_or_moved, lowercase_table_steps. Qed.

Lemma lowercase_domain_moved_well (c : Z) : c ∈ lowercase_domain → moved_well c = true.
Proof.
  intros H. apply list_elem_of_In in H.
  assert (forallb moved_well lowercase_domain = true) as Hall by (vm_compute; reflexivity).
  rewrite forallb_forall in Hall. by apply Hall.
Qed.

Lemma moved_well_inv (c : Z) :
  moved_well c = true →
  is_scalar c = true ∧ is_scalar (to_lower c) = true
  ∧ to_lower (to_lower c) = to_lower c ∧ to_lower c ≠ 304 ∧ to_lower c ≠ 931
  ∧ (128 ≤ to_lower c ∨ 97 ≤ to_lower c ≤ 122).
Proof.
  unfold moved_well. cbn zeta. intros H.
  repeat (apply andb_true_iff in H as [H ?]).
  repeat match goal with
         | H : negb _ = true |- _ => apply negb_true_iff in H
         end.
  bools; repeat split; (done || lia).
Qed.

(** A code point that is no scalar value is left alone. *)
Lemma to_lower_not_scalar (c : Z) : is_scalar c = false → to_lower c = c.
Proof.
  intros H. destruct (to_lower_fixed_or_moved c) as [? | Hin]; [done |].
  apply lowercase_domain_moved_well, moved_well_inv in Hin as (Hs & _). congruence.
Qed.

Lemma to_lower_scalar (c : Z) : is_scalar c = true → is_scalar (to_lower c) = true.
Proof.
  intros H. destruct (to_lower_fixed_or_moved c) as [-> | Hin]; [done |].
  by apply lowercase_domain_moved_well, moved_well_inv in Hin as (_ & ? & _).
Qed.

(** Every code point of a lower-cased code point is left alone by the
    mapping, and is not the capital sigma. *)
Lemma to_lower_full_settled (c d : Z) :
  c ≠ 931 → d ∈ to_lower_full c → to_lower_full d = [d] ∧ d ≠ 931.
Proof.
  intros Hsigma. unfold to_lower_full at 1. destruct (c =? 304) eqn:E.
  { intros H. apply elem_of_cons in H as [-> | H]; [by vm_compute |].
    apply list_elem_of_singleton in H as ->. by vm_compute. }
  intros H. apply list_elem_of_singleton in H as ->. bools.
  destruct (to_lower_fixed_or_moved c) as [Hfix | Hin].
  - rewrite Hfix. split; [| done]. unfold to_lower_full.
    destruct (c =? 304) eqn:E'; [bools; lia |]. by rewrite Hfix.
  - apply lowercase_domain_moved_well, moved_well_inv in Hin
      as (_ & _ & Hidem & H304 & H931 & _).
    split; [| done]. unfold to_lower_full.
    destruct (to_lower c =? 304) eqn:E'; [bools; lia |]. by rewrite Hidem.
Qed.

Lemma to_lower_full_scalar (c : Z) :
  is_scalar c = true → forallb is_scalar (to_lower_full c) = true.
Proof.
  intros H. unfold to_lower_full. destruct (c =? 304); [done |].
  cbn [forallb]. by rewrite to_lower_scalar.
Qed.

Lemma lower_code_points_cons (before : list Z) (c : Z) (after : list Z) :
  lower_code_points before (c :: after)
  = (lower_one before c after ++ lower_code_points (c :: before) after)%list.
Proof. reflexivity. Qed.

Lemma lower_one_settled (before : list Z) (c : Z) (after : list Z) (d : Z) :
  d ∈ lower_one before c after → to_lower_full d = [d] ∧ d ≠ 931.
Proof.
  unfold lower_one. destruct (c =? 931) eqn:E.
  - intros H. apply list_elem_of_singleton in H as ->.
    destruct (final_sigma before after); by vm_compute.
  - bools. by apply to_lower_full_settled.
Qed.

Lemma lower_one_scalar (before : list Z) (c : Z) (after : list Z) :
  is_scalar c = true → forallb is_scalar (lower_one before c after) = true.
Proof.
  intros H. unfold lower_one. destruct (c =? 931).
  - by destruct (final_sigma before after).
  - by apply to_lower_full_scalar.
Qed.

Lemma lower_one_not_scalar (before : list Z) (c : Z) (after : list Z) :
  is_scalar c = false → lower_one before c after = [c].
Proof.
  intros H. unfold lower_one, to_lower_full.
  destruct (c =? 931) eqn:E1; [bools; by subst |].
  destruct (c =? 304) eqn:E2; [bools; by subst |].
  by rewrite to_lower_not_scalar.
Qed.

Lemma lower_code_points_settled (before codes : list Z) (d : Z) :
  d ∈ lower_code_points before codes → to_lower_full d = [d] ∧ d ≠ 931.
Proof.
  revert before. induction codes as [|c after IH]; intros before.
  - intros H. by apply elem_of_nil in H.
  - rewrite lower_code_points_cons. intros H. apply elem_of_app in H as [H | H].
    + by apply lower_one_settled in H.
    + by apply IH in H.
Qed.

(** Code points that are settled stay as they are, whatever stands before. *)
Lemma lower_code_points_of_settled (before codes : list Z) :
  (∀ d, d ∈ codes → to_lower_full d = [d] ∧ d ≠ 931) →
  lower_code_points before codes = codes.
Proof.
  revert before. induction codes as [|c after IH]; intros before Hall; [done |].
  rewrite lower_code_points_cons. destruct (Hall c ltac:(left)) as [Hc Hsigma].
  unfold lower_one. destruct (c =? 931) eqn:E; [bools; done |].
  rewrite Hc. cbn [app]. f_equal. apply IH. intros d Hd. apply Hall. by right.
Qed.

Lemma lower_code_points_idempotent (before before' codes : list Z) :
  lower_code_points before' (lower_code_points before codes)
  = lower_code_points before codes.
Proof.
  apply lower_code_points_of_settled. intros d. apply lower_code_points_settled.
Qed.

(** ** Bytes that stand for themselves *)

Lemma decode_utf8_escape (c : ascii) (s : string) :
  128 ≤ byte_value c → sequence_starts c s = false →
  decode_utf8 (String c s) = escaped_byte (byte_value c) :: decode_utf8 s.
Proof.
  intros Hc. cbn [decode_utf8]. rewrite (ltb_128_false _ Hc). unfold sequence_starts.
  destruct s as [|c2 s2]; [done |].
  destruct (two_bytes _ _); [done |].
  destruct s2 as [|c3 s3]; [done |].
  destruct (three_bytes _ _ _); [done |].
  destruct s3 as [|c4 s4]; [done |].
  destruct (four_bytes _ _ _ _); [| done].
  intros H. apply bool_decide_eq_false in H. by destruct H.
Qed.

Lemma decode_utf8_sequence (c : ascii) (s : string) :
  sequence_starts c s = true →
  ∃ code rest, is_scalar code = true ∧ decode_utf8 (String c s) = code :: decode_utf8 rest.
Proof.
  unfold sequence_starts. destruct s as [|c2 s2]; [done |].
  destruct (two_bytes _ _) as [code|] eqn:E2.
  { intros _. exists code, s2. split; [by apply encode_two_bytes in E2 as [? _] |].
    by apply decode_utf8_two. }
  destruct s2 as [|c3 s3]; [done |].
  destruct (three_bytes _ _ _) as [code|] eqn:E3.
  { intros _. exists code, s3. split; [by apply encode_three_bytes in E3 as [? _] |].
    by apply decode_utf8_three. }
  destruct s3 as [|c4 s4]; [done |].
  intros H. apply bool_decide_eq_true in H as [code E4].
  exists code, s4. split; [by apply encode_four_bytes in E4 as [? _] |].
  by apply decode_utf8_four.
Qed.

Lemma escaped_byte_not_scalar (c : ascii) :
  128 ≤ byte_value c → is_scalar (escaped_byte (byte_value c)) = false.
Proof.
  intros H. pose proof (byte_value_range c). unfold is_scalar, escaped_byte.
  apply orb_false_iff. split; apply andb_false_iff;
    [right; apply Z.ltb_ge | left; apply Z.leb_gt]; lia.
Qed.

Lemma decode_utf8_escape_inv (c : ascii) (s : string) :
  128 ≤ byte_value c →
  decode_utf8 (String c s) = escaped_byte (byte_value c) :: decode_utf8 s →
  sequence_starts c s = false.
Proof.
  intros Hc Hd. destruct (sequence_starts c s) eqn:E; [| done].
  apply decode_utf8_sequence in E as (code & rest & Hcode & Hd').
  rewrite Hd' in Hd. injection Hd as -> _.
  by rewrite escaped_byte_not_scalar in Hcode.
Qed.

Lemma two_bytes_needs_continuation (b1 b2 : Z) :
  is_continuation b2 = false → two_bytes b1 b2 = None.
Proof. intros H. unfold two_bytes. rewrite H. by rewrite andb_false_r. Qed.

Lemma second_byte_ok_needs_continuation (b1 b2 : Z) :
  is_continuation b2 = false → second_byte_ok b1 b2 = false.
Proof.
  intros H. destruct (second_byte_ok b1 b2) eqn:E; [| done].
  apply second_byte_ok_continuation in E. unfold is_continuation in H. bools; lia.
Qed.

Lemma three_bytes_needs_continuation (b1 b2 b3 : Z) :
  is_continuation b2 = false ∨ is_continuation b3 = false → three_bytes b1 b2 b3 = None.
Proof.
  intros [H | H]; unfold three_bytes.
  - rewrite (second_byte_ok_needs_continuation _ _ H). by rewrite andb_false_r.
  - rewrite H. by rewrite andb_false_r.
Qed.

Lemma four_bytes_needs_continuation (b1 b2 b3 b4 : Z) :
  is_continuation b2 = false ∨ is_continuation b3 = false ∨ is_continuation b4 = false →
  four_bytes b1 b2 b3 b4 = None.
Proof.
  intros [H | [H | H]]; unfold four_bytes.
  - rewrite (second_byte_ok_needs_continuation _ _ H). by rewrite !andb_false_r.
  - rewrite H. by rewrite !andb_false_r.
  - rewrite H. by rewrite !andb_false_r.
Qed.

(** Whether a sequence starts depends on the continuation bytes that follow,
    three of them at most. *)
Lemma sequence_starts_prefix (c : ascii) (s : string) :
  sequence_starts c s = sequence_starts c (continuation_prefix 3 s).
Proof.
  destruct s as [|c2 s2]; [done |]. cbn [continuation_prefix].
  destruct (is_continuation (byte_value c2)) eqn:H2.
  2: { cbn [sequence_starts]. rewrite two_bytes_needs_continuation by done.
       destruct s2 as [|c3 s3]; [done |].
       rewrite three_bytes_needs_continuation by auto.
       destruct s3 as [|c4 s4]; [done |].
       rewrite four_bytes_needs_continuation by auto. done. }
  cbn [sequence_starts]. destruct (two_bytes _ _); [done |].
  destruct s2 as [|c3 s3]; [done |]. cbn [continuation_prefix].
  destruct (is_continuation (byte_value c3)) eqn:H3.
  2: { rewrite three_bytes_needs_continuation by auto.
       destruct s3 as [|c4 s4]; [done |].
       rewrite four_bytes_needs_continuation by auto. done. }
  destruct (three_bytes _ _ _); [done |].
  destruct s3 as [|c4 s4]; [done |]. cbn [continuation_prefix].
  destruct (is_continuation (byte_value c4)) eqn:H4; [done |].
  rewrite four_bytes_needs_continuation by auto. done.
Qed.

Lemma sequence_starts_lead (c : ascii) (s : string) :
  byte_value c < 194 → sequence_starts c s = false.
Proof.
  intros H. unfold sequence_starts. destruct s as [|c2 s2]; [done |].
  destruct (two_bytes _ _) eqn:E2; [apply two_bytes_Some in E2; lia |].
  destruct s2 as [|c3 s3]; [done |].
  destruct (three_bytes _ _ _) eqn:E3; [apply three_bytes_Some in E3; lia |].
  destruct s3 as [|c4 s4]; [done |].
  destruct (four_bytes _ _ _ _) eqn:E4; [apply four_bytes_Some in E4; lia |].
  apply bool_decide_eq_false. by intros [? ?].
Qed.

(** The bytes of a scalar value do not start with a continuation byte. *)
Lemma encode_scalar_head (code : Z) :
  is_scalar code = true →
  ∃ c rest, encode_code_point code = String c rest ∧ is_continuation (byte_value c) = false.
Proof.
  intros H. apply is_scalar_cases in H. unfold encode_code_point.
  destruct (code <? 0) eqn:E0; [bools; lia |].
  destruct (code <? 128) eqn:E1.
  { eexists _, _. split; [done |]. bools. rewrite byte_value_char by lia.
    unfold is_continuation. apply andb_false_iff. left. apply Z.leb_gt. lia. }
  destruct (code <? 2048) eqn:E2.
  { eexists _, _. split; [done |]. bools.
    assert (2 ≤ code / 64 < 32)
      by (split; [apply Z.div_le_lower_bound | apply Z.div_lt_upper_bound]; lia).
    rewrite byte_value_char by lia.
    unfold is_continuation. apply andb_false_iff. right. apply Z.leb_gt. lia. }
  destruct ((56448 <=? code) && _) eqn:E3; [bools; lia |].
  destruct (code <? 65536) eqn:E4.
  { eexists _, _. split; [done |]. clear E3. bools.
    assert (0 ≤ code / 4096 < 16)
      by (split; [apply Z.div_le_lower_bound | apply Z.div_lt_upper_bound]; lia).
    rewrite byte_value_char by lia.
    unfold is_continuation. apply andb_false_iff. right. apply Z.leb_gt. lia. }
  destruct (code <? 1114112) eqn:E5; [| bools; lia].
  eexists _, _. split; [done |]. clear E3. bools.
  assert (0 ≤ code / 262144 < 5)
    by (split; [apply Z.div_le_lower_bound | apply Z.div_lt_upper_bound]; lia).
  rewrite byte_value_char by lia.
  unfold is_continuation. apply andb_false_iff. right. apply Z.leb_gt. lia.
Qed.

Lemma continuation_prefix_plain (n : nat) (c : ascii) (s : string) :
  is_continuation (byte_value c) = false → continuation_prefix n (String c s) = "".
Proof. intros H. destruct n; [done |]. cbn [continuation_prefix]. by rewrite H. Qed.

Lemma lower_one_nonempty (before : list Z) (c : Z) (after : list Z) :
  ∃ d rest, lower_one before c after = d :: rest.
Proof.
  unfold lower_one, to_lower_full. destruct (c =? 931); [by eexists _, _ |].
  destruct (c =? 304); by eexists _, _.
Qed.

(** Lower-casing keeps the continuation bytes a string starts with. *)
Lemma lower_keeps_continuation_prefix (n : nat) (s : string) (before : list Z) :
  continuation_prefix n (encode_utf8 (lower_code_points before (decode_utf8 s)))
  = continuation_prefix n s.
Proof.
  revert n before. induction s as [|c s IH]; intros n before; [by destruct n |].
  destruct (is_continuation (byte_value c)) eqn:Hc.
  - assert (128 ≤ byte_value c < 194) as Hr by (unfold is_continuation in Hc; bools; lia).
    rewrite decode_utf8_escape by (lia || apply sequence_starts_lead; lia).
    rewrite lower_code_points_cons, lower_one_not_scalar
      by (apply escaped_byte_not_scalar; lia).
    cbn [app encode_utf8]. rewrite encode_escaped_byte by lia.
    change (String c "" +:+ ?x) with (String c x).
    destruct n as [|n]; [done |]. cbn [continuation_prefix]. rewrite Hc. by rewrite IH.
  - rewrite continuation_prefix_plain by done.
    destruct (decode_utf8_first c s) as [(code & rest & Hcode & Hs & -> & _) | [Hr ->]];
      rewrite lower_code_points_cons, encode_utf8_app.
    + destruct (lower_one_nonempty before code (decode_utf8 rest)) as (d & more & Hd).
      pose proof (lower_one_scalar before code (decode_utf8 rest) Hcode) as Hsc.
      rewrite Hd in Hsc |- *. cbn [forallb] in Hsc. apply andb_true_iff in Hsc as [Hsd _].
      destruct (encode_scalar_head d Hsd) as (c' & r & He & Hc').
      cbn [encode_utf8]. rewrite He, !append_cons.
      by apply continuation_prefix_plain.
    + rewrite lower_one_not_scalar by (apply escaped_byte_not_scalar; lia).
      cbn [encode_utf8]. rewrite encode_escaped_byte by lia.
      rewrite !append_cons. by apply continuation_prefix_plain.
Qed.

(** Decoding the lower-cased bytes gives the lower-cased code points. *)
Lemma decode_lowered (s : string) (before : list Z) :
  decode_utf8 (encode_utf8 (lower_code_points before (decode_utf8 s)))
  = lower_code_points before (decode_utf8 s).
Proof.
  revert before. induction s as [s IH] using string_length_ind. intros before.
  destruct s as [|c s]; [done |].
  destruct (decode_utf8_first c s) as [(code & rest & Hcode & Hs & Hd & Hlen) | [Hc Hd]];
    rewrite Hd, lower_code_points_cons, encode_utf8_app.
  - rewrite decode_encode_scalars by (by apply lower_one_scalar).
    by rewrite IH by (simpl; lia).
  - rewrite lower_one_not_scalar by (apply escaped_byte_not_scalar; lia).
    cbn [encode_utf8 app]. rewrite encode_escaped_byte by lia.
    change ((String c "" +:+ "") +:+ ?x) with (String c x).
    rewrite decode_utf8_escape; [by rewrite IH by (simpl; lia) | lia |].
    rewrite sequence_starts_prefix, lower_keeps_continuation_prefix,
      <- sequence_starts_prefix.
    by apply decode_utf8_escape_inv.
Qed.

Lemma lower_idempotent (s : string) : lower (lower s) = lower s.
Proof.
  unfold lower. by rewrite decode_lowered, lower_code_points_idempotent.
Qed.

(** ** The ASCII bytes of a lower-cased string *)

Lemma ascii_projection_app (a b : string) :
  ascii_projection (a +:+ b) = (ascii_projection a ++ ascii_projection b)%list.
Proof. induction a as [|c a IH]; [done |]. rewrite append_cons. simpl. by rewrite IH. Qed.

Lemma ascii_projection_split (s : string) (l1 l2 : list (option ascii)) :
  ascii_projection s = (l1 ++ l2)%list →
  ∃ s1 s2, s = s1 +:+ s2 ∧ ascii_projection s1 = l1 ∧ ascii_projection s2 = l2.
Proof.
  revert s. induction l1 as [|x l1 IH]; intros s H; [by exists "", s |].
  destruct s as [|c s]; [done |]. simpl in H. injection H as Hx H.
  destruct (IH s H) as (s1 & s2 & -> & H1 & H2).
  exists (String c s1), s2. simpl. by rewrite Hx, H1.
Qed.

Lemma ascii_projection_inj (s k : string) :
  ascii_only k = true → ascii_projection s = ascii_projection k → s = k.
Proof.
  revert s. induction k as [|c k IH]; intros s Hk H.
  - by destruct s.
  - destruct s as [|x s]; [done |]. simpl in Hk, H.
    apply andb_true_iff in Hk as [Hc Hk]. rewrite Hc in H.
    destruct (byte_value x <? 128); [| done]. injection H as -> H. f_equal. by apply IH.
Qed.

(** An ASCII keyword occurs in a string exactly when its bytes stand in a
    row among the ASCII bytes of the string. *)
Lemma occurs_in_projection (k s : string) :
  ascii_only k = true →
  occurs_in k s ↔
  ∃ l1 l2, ascii_projection s = (l1 ++ ascii_projection k ++ l2)%list.
Proof.
  intros Hk. split.
  - intros (b & a & ->). exists (ascii_projection b), (ascii_projection a).
    by rewrite !ascii_projection_app.
  - intros (l1 & l2 & H).
    apply ascii_projection_split in H as (s1 & s23 & -> & H1 & H23).
    apply ascii_projection_split in H23 as (s2 & s3 & -> & H2 & H3).
    apply ascii_projection_inj in H2 as ->; [| done]. by exists s1, s3.
Qed.

Lemma byte_char_not_ascii (b : Z) : 128 ≤ b < 256 → (byte_value (byte_char b) <? 128) = false.
Proof. intros H. rewrite byte_value_char by lia. apply Z.ltb_ge. lia. Qed.

(** The bytes of a code point: one ASCII byte, or no ASCII byte at all. *)
Lemma encode_code_point_projection (c : Z) :
  ascii_projection (encode_code_point c)
  = if (0 <=? c) && (c <? 128) then [Some (byte_char c)]
    else map (λ _, None) (ascii_projection (encode_code_point c)).
Proof.
  unfold encode_code_point.
  destruct (c <? 0) eqn:E0; [by rewrite (proj2 (Z.leb_gt 0 c)) by (bools; lia) |].
  destruct (c <? 128) eqn:E1.
  { bools. rewrite (proj2 (Z.leb_le 0 c)) by lia. simpl.
    rewrite byte_value_char by lia. by rewrite (proj2 (Z.ltb_lt c 128)) by lia. }
  rewrite andb_false_r. bools.
  destruct (c <? 2048) eqn:E2.
  { bools. assert (0 ≤ c mod 64 < 64) by (apply Z.mod_pos_bound; lia).
    assert (2 ≤ c / 64 < 32)
      by (split; [apply Z.div_le_lower_bound | apply Z.div_lt_upper_bound]; lia).
    simpl. by rewrite !byte_char_not_ascii by lia. }
  destruct ((56448 <=? c) && _) eqn:E3.
  { bools. simpl. by rewrite !byte_char_not_ascii by lia. }
  clear E3. destruct (c <? 65536) eqn:E4.
  { bools. assert (0 ≤ c mod 64 < 64) by (apply Z.mod_pos_bound; lia).
    assert (0 ≤ c / 64 mod 64 < 64) by (apply Z.mod_pos_bound; lia).
    assert (0 ≤ c / 4096 < 16)
      by (split; [apply Z.div_le_lower_bound | apply Z.div_lt_upper_bound]; lia).
    simpl. by rewrite !byte_char_not_ascii by lia. }
  destruct (c <? 1114112) eqn:E5; [| done].
  bools. assert (0 ≤ c mod 64 < 64) by (apply Z.mod_pos_bound; lia).
  assert (0 ≤ c / 64 mod 64 < 64) by (apply Z.mod_pos_bound; lia).
  assert (0 ≤ c / 4096 mod 64 < 64) by (apply Z.mod_pos_bound; lia).
  assert (0 ≤ c / 262144 < 5)
    by (split; [apply Z.div_le_lower_bound | apply Z.div_lt_upper_bound]; lia).
  simpl. by rewrite !byte_char_not_ascii by lia.
Qed.

Lemma lower_one_projection (before : list Z) (c : Z) (after : list Z) :
  ascii_projection (encode_utf8 (lower_one before c after)) = code_point_projection c.
Proof.
  unfold lower_one, code_point_projection. destruct (c =? 931); [| done].
  by destruct (final_sigma before after).
Qed.

(** The ASCII bytes of the lower-cased code points do not depend on the
    place of a code point. *)
Lemma lower_code_points_projection (before codes : list Z) :
  ascii_projection (encode_utf8 (lower_code_points before codes))
  = flat_map code_point_projection codes.
Proof.
  revert before. induction codes as [|c after IH]; intros before; [done |].
  rewrite lower_code_points_cons, encode_utf8_app, ascii_projection_app.
  by rewrite lower_one_projection, IH.
Qed.

Lemma lower_projection (s : string) :
  ascii_projection (lower s) = flat_map code_point_projection (decode_utf8 s).
Proof. apply lower_code_points_projection. Qed.

Lemma to_lower_ascii_image (c : Z) :
  0 ≤ to_lower c < 128 → to_lower c = c ∨ 97 ≤ to_lower c ≤ 122.
Proof.
  intros H. destruct (to_lower_fixed_or_moved c) as [? | Hin]; [by left |].
  apply lowercase_domain_moved_well, moved_well_inv in Hin as (_ & _ & _ & _ & _ & Hd). lia.
Qed.

(** The lower-casing of a code point holds one ASCII byte at most. *)
Lemma code_point_projection_cases (c : Z) :
  (∃ a, code_point_projection c = [Some a] ∧ 0 ≤ to_lower c < 128 ∧ c ≠ 304
        ∧ a = byte_char (to_lower c))
  ∨ code_point_projection c = [Some "i"%char; None; None]
  ∨ Forall (λ x, x = None) (code_point_projection c).
Proof.
  unfold code_point_projection. destruct (c =? 931) eqn:E1.
  { right. right. vm_compute. by repeat constructor. }
  unfold to_lower_full. destruct (c =? 304) eqn:E2.
  { right. left. by vm_compute. }
  cbn [encode_utf8]. rewrite ascii_projection_app, app_nil_r.
  rewrite encode_code_point_projection. destruct (_ && _) eqn:E.
  - left. exists (byte_char (to_lower c)). bools. repeat split; (done || lia).
  - right. right. apply Forall_forall. intros x Hx.
    by apply list_elem_of_fmap in Hx as (? & -> & _).
Qed.

Lemma space_in_code_point_projection (c : Z) :
  Some " "%char ∈ code_point_projection c → c = 32.
Proof.
  destruct (code_point_projection_cases c) as [(a & -> & Hr & _ & ->) | [-> | Hall]].
  - intros H. apply list_elem_of_singleton in H. injection H as H.
    apply (f_equal byte_value) in H. rewrite byte_value_char in H by lia.
    change (byte_value " ") with 32 in H.
    destruct (to_lower_ascii_image c Hr) as [? | ?]; lia.
  - intros H. apply list_elem_of_In in H. simpl in H.
    by repeat (destruct H as [H | H]; [discriminate |]).
  - intros H. rewrite Forall_forall in Hall. by specialize (Hall _ H).
Qed.

Lemma has_byte_projection (a : ascii) (s : string) :
  byte_value a < 128 → has_byte a s = true ↔ Some a ∈ ascii_projection s.
Proof.
  intros Ha. induction s as [|c s IH]; simpl.
  - split; [done | intros H; by apply elem_of_nil in H].
  - rewrite orb_true_iff, elem_of_cons, IH, Ascii.eqb_eq. split.
    + intros [-> | ?]; [left | by right].
      by rewrite (proj2 (Z.ltb_lt _ _) Ha).
    + intros [H | ?]; [left | by right].
      destruct (byte_value c <? 128); [by injection H | done].
Qed.

Lemma decode_utf8_projection (s : string) :
  ascii_projection s = flat_map (λ c, ascii_projection (encode_code_point c)) (decode_utf8 s).
Proof.
  rewrite <- (encode_decode_utf8 s) at 1.
  induction (decode_utf8 s) as [|c l IH]; [done |].
  cbn [encode_utf8 flat_map]. by rewrite ascii_projection_app, IH.
Qed.

(** Lower-casing brings no space into a string. *)
Lemma has_space_lower (s : string) :
  has_byte " " s = false → has_byte " " (lower s) = false.
Proof.
  intros H. apply not_true_is_false. intros Hl. apply not_true_iff_false in H. apply H.
  apply has_byte_projection in Hl; [| done]. apply has_byte_projection; [done |].
  rewrite lower_projection in Hl. rewrite decode_utf8_projection.
  apply list_elem_of_In, in_flat_map in Hl as (c & Hc & Hin).
  apply list_elem_of_In, space_in_code_point_projection in Hin as ->.
  apply list_elem_of_In, in_flat_map. exists 32. split; [done | by left].
Qed.

(** ASCII text *)

Lemma lower_ascii_byte (c : ascii) :
  byte_value c < 128 →
  encode_utf8 (to_lower_full (byte_value c)) = String (ascii_tolower c) "".
Proof.
  destruct c as [[] [] [] [] [] [] [] []]; intros H;
    try (vm_compute in H; discriminate); vm_compute; reflexivity.
Qed.

Lemma lower_code_points_ascii (before : list Z) (s : string) :
  ascii_only s = true →
  encode_utf8 (lower_code_points before (decode_utf8 s)) = map_bytes ascii_tolower s.
Proof.
  revert before. induction s as [|c s IH]; intros before H; [done |].
  simpl in H. apply andb_true_iff in H as [Hc Hs]. apply Z.ltb_lt in Hc.
  rewrite decode_utf8_ascii, lower_code_points_cons, encode_utf8_app by done.
  rewrite IH by done. unfold lower_one.
  destruct (byte_value c =? 931) eqn:E; [bools; lia |].
  by rewrite lower_ascii_byte.
Qed.

(** On ASCII text [lower] replaces the capital letters and nothing else. *)
Lemma lower_ascii (s : string) : ascii_only s = true → lower s = map_bytes ascii_tolower s.
Proof. apply lower_code_points_ascii. Qed.

(** ** ASCII bytes and the length of a query *)

Lemma ascii_count_app (l1 l2 : list (option ascii)) :
  ascii_count (l1 ++ l2) = (ascii_count l1 + ascii_count l2)%nat.
Proof. unfold ascii_count. by rewrite List.filter_app, length_app. Qed.

Lemma ascii_count_none (l : list (option ascii)) :
  Forall (λ x, x = None) l → ascii_count l = 0%nat.
Proof. induction 1 as [|x l -> _ IH]; [done | exact IH]. Qed.

Lemma code_point_projection_count (c : Z) : (ascii_count (code_point_projection c) ≤ 1)%nat.
Proof.
  destruct (code_point_projection_cases c) as [(a & -> & _) | [-> | Hall]];
    [done | vm_compute; lia |].
  rewrite ascii_count_none by done. lia.
Qed.

Lemma flat_map_projection_count (codes : list Z) :
  (ascii_count (flat_map code_point_projection codes) ≤ length codes)%nat.
Proof.
  induction codes as [|c codes IH]; [done |]. cbn [flat_map]. rewrite ascii_count_app.
  pose proof (code_point_projection_count c). simpl. lia.
Qed.

Lemma ascii_only_count (k : string) :
  ascii_only k = true → ascii_count (ascii_projection k) = String.length k.
Proof.
  induction k as [|c k IH]; [done |]. simpl. intros H.
  apply andb_true_iff in H as [Hc Hk]. rewrite Hc. specialize (IH Hk).
  unfold ascii_count in *. simpl. by rewrite IH.
Qed.

(** An ASCII keyword that occurs in the lower-cased query is no longer than
    the query. *)
Lemma keyword_in_lower_length (k query : string) :
  ascii_only k = true → occurs_in k (lower query) →
  (String.length k ≤ String.length query)%nat.
Proof.
  intros Hk H. apply occurs_in_projection in H as (l1 & l2 & H); [| done].
  apply (f_equal ascii_count) in H. rewrite !ascii_count_app, (ascii_only_count k) in H by done.
  rewrite lower_projection in H.
  pose proof (flat_map_projection_count (decode_utf8 query)).
  pose proof (decode_utf8_length query). lia.
Qed.

(** Text around a query keeps the ASCII keywords of its lower-cased form. *)
Lemma keyword_in_lower_context (k before query after : string) :
  ascii_only k = true →
  well_formed_utf8 before = true → well_formed_utf8 query = true →
  occurs_in k (lower query) → occurs_in k (lower (before +:+ query +:+ after)).
Proof.
  intros Hk Hb Hq H. apply occurs_in_projection in H as (l1 & l2 & H); [| done].
  apply occurs_in_projection; [done |].
  rewrite lower_projection in H. rewrite lower_projection.
  rewrite !decode_utf8_app by done. rewrite !flat_map_app, H.
  exists (flat_map code_point_projection (decode_utf8 before) ++ l1)%list,
         (l2 ++ flat_map code_point_projection (decode_utf8 after))%list.
  by rewrite <- !app_assoc.
Qed.

(** ** The Level Map *)

Lemma levels_eq :
  levels = ["Foundation"; "Year 1"; "Year 2"; "Year 3"; "Year 4"; "Year 5";
            "Year 6"; "Year 7"; "Year 8"; "Year 9"; "Year 10"].
Proof. reflexivity. Qed.

Lemma internal_tags_eq :
  internal_tags = ["Foundation"; "Level 1"; "Level 2"; "Level 3"; "Level 4"; "Level 5";
                   "Level 6"; "Level 7"; "Level 8"; "Level 9"; "Level 10"].
Proof. reflexivity. Qed.

Lemma level_map_lookup_Some (L t : string) :
  level_map !! L = Some t ↔
  In (L, t) [("Foundation", "Foundation"); ("Year 1", "Level 1"); ("Year 2", "Level 2");
             ("Year 3", "Level 3"); ("Year 4", "Level 4"); ("Year 5", "Level 5");
             ("Year 6", "Level 6"); ("Year 7", "Level 7"); ("Year 8", "Level 8");
             ("Year 9", "Level 9"); ("Year 10", "Level 10")].
Proof.
  rewrite <- elem_of_map_to_list, list_elem_of_In.
  replace (map_to_list level_map) with
    [("Year 7", "Level 7"); ("Year 3", "Level 3"); ("Year 5", "Level 5");
     ("Year 9", "Level 9"); ("Year 10", "Level 10"); ("Year 1", "Level 1");
     ("Year 6", "Level 6"); ("Year 2", "Level 2"); ("Year 4", "Level 4");
     ("Year 8", "Level 8"); ("Foundation", "Foundation")]
    by (vm_compute; reflexivity).
  simpl. tauto.
Qed.

Ltac level_cases H :=
  apply level_map_lookup_Some in H; simpl in H;
  repeat (destruct H as [H|H]); try contradiction;
  injection H as <- <-.

Ltac list_cases H :=
  apply list_elem_of_In in H; simpl in H;
  repeat (destruct H as [H|H]); try contradiction; subst.

(** C1.  The Level Map sends Foundation to Foundation and Year i to Level i
    for i from 1 to 10; its keys are exactly the user-facing labels, its
    values exactly the internal tags, no two labels share a tag, and the
    inverse table takes the tag of every label back to the label. *)
Theorem level_map_bijection :
  level_map !! "Foundation" = Some "Foundation"
  ∧ (∀ i : Z, 1 ≤ i ≤ 10 →
       level_map !! ("Year " +:+ pretty i) = Some ("Level " +:+ pretty i))
  ∧ (∀ L, is_Some (level_map !! L) ↔ L ∈ levels)
  ∧ (∀ t, (∃ L, level_map !! L = Some t) ↔ t ∈ internal_tags)
  ∧ (∀ L1 L2 t, level_map !! L1 = Some t → level_map !! L2 = Some t → L1 = L2)
  ∧ (∀ L t, level_map !! L = Some t → dict_inverse level_map !! t = Some L).
Proof.
  assert (∀ L t, level_map !! L = Some t → dict_inverse level_map !! t = Some L)
    as Hback by (intros L t H; level_cases H; by vm_compute).
  split; [by vm_compute |]. split; [| split; [| split; [| split]]].
  - intros i Hi.
    assert (i = 1 ∨ i = 2 ∨ i = 3 ∨ i = 4 ∨ i = 5 ∨ i = 6 ∨ i = 7 ∨ i = 8
            ∨ i = 9 ∨ i = 10) as Hc by lia.
    repeat (destruct Hc as [->|Hc]); try subst i; by vm_compute.
  - intros L. rewrite levels_eq. split.
    + intros [t H]. apply list_elem_of_In. level_cases H; simpl; tauto.
    + intros H. list_cases H;
        (match goal with |- is_Some ?o => destruct o eqn:E end;
         [by eexists | by vm_compute in E]).
  - intros t. rewrite internal_tags_eq. split.
    + intros [L H]. apply list_elem_of_In. level_cases H; simpl; tauto.
    + intros H. list_cases H.
      * by exists "Foundation". * by exists "Year 1". * by exists "Year 2".
      * by exists "Year 3". * by exists "Year 4". * by exists "Year 5".
      * by exists "Year 6". * by exists "Year 7". * by exists "Year 8".
      * by exists "Year 9". * by exists "Year 10".
  - intros L1 L2 t H1 H2. apply Hback in H1, H2. congruence.
  - exact Hback.
Qed.

(** ** The Metadata Filter *)

Lemma elem_of_enumerate {A} (l : list A) (i : nat) (x : A) :
  (i, x) ∈ enumerate l ↔ l !! i = Some x.
Proof.
  unfold enumerate. rewrite elem_of_lookup_imap. split.
  - intros (j & y & Heq & H). injection Heq as -> ->. exact H.
  - intros H. by exists i, x.
Qed.

Lemma chunk_matches_true_iff {ident} (area tag : string) (c : Chunk.t ident) :
  chunk_matches area tag c = true ↔
  Metadata.learning_area (Chunk.metadata c) = area
  ∧ (occurs_in tag (Metadata.level (Chunk.metadata c))
     ∨ Metadata.level (Chunk.metadata c) = "Unknown").
Proof.
  unfold chunk_matches.
  by rewrite andb_true_iff, orb_true_iff, !String.eqb_eq, str_contains_true_iff.
Qed.

Lemma elem_of_filtered_chunks {ident} (metadata_store : list (Chunk.t ident))
    (area tag : string) (i : nat) (c : Chunk.t ident) :
  (i, c) ∈ filtered_chunks metadata_store area tag ↔
  metadata_store !! i = Some c ∧ chunk_matches area tag c = true.
Proof.
  unfold filtered_chunks.
  by rewrite list_elem_of_In, filter_In, <- list_elem_of_In, elem_of_enumerate.
Qed.

(** C5.  A chunk at position i of the corpus is in the Filtered View exactly
    when its learning area is the requested one and the internal level tag
    occurs in its level field as a substring, or its level field is Unknown. *)
Theorem filtered_view_membership {ident} (metadata_store : list (Chunk.t ident))
    (area tag : string) (i : nat) (c : Chunk.t ident) :
  (i, c) ∈ filtered_chunks metadata_store area tag ↔
  metadata_store !! i = Some c
  ∧ Metadata.learning_area (Chunk.metadata c) = area
  ∧ (occurs_in tag (Metadata.level (Chunk.metadata c))
     ∨ Metadata.level (Chunk.metadata c) = "Unknown").
Proof. by rewrite elem_of_filtered_chunks, chunk_matches_true_iff. Qed.

(** Scenario 1: of the Science and the Mathematics chunk at Level 2, the view
    for Science at Year 2 holds the first only. *)
Example scenario1_filtered_view :
  level_map !! "Year 2" = Some "Level 2"
  ∧ filtered_chunks scenario1_store "Science" "Level 2" = [(0%nat, plants)].
Proof. split; by vm_compute. Qed.

(** C10.  A chunk tagged Level 10 in the requested area is in the Filtered
    View for Year 1, whose internal tag Level 1 is a substring of Level 10. *)
Theorem year_1_view_holds_level_10 {ident} (metadata_store : list (Chunk.t ident))
    (area : string) (i : nat) (c : Chunk.t ident) :
  metadata_store !! i = Some c →
  Metadata.learning_area (Chunk.metadata c) = area →
  Metadata.level (Chunk.metadata c) = "Level 10" →
  level_map !! "Year 1" = Some "Level 1"
  ∧ "Level 1" ≠ Metadata.level (Chunk.metadata c)
  ∧ (i, c) ∈ filtered_chunks metadata_store area "Level 1".
Proof.
  intros Hi Ha Hl. split; [by vm_compute |]. split; [by rewrite Hl |].
  apply elem_of_filtered_chunks. split; [done |].
  apply chunk_matches_true_iff. split; [done |].
  left. rewrite Hl. by exists "", "0".
Qed.

(** ** The relevance gate *)

(** The Kelvin sign U+212A, whose lower case is the letter k. *)
Lemma lower_kelvin_sign : lower ("ROC" +:+ encode_utf8 [8490]) = "rock".
Proof. vm_compute. reflexivity. Qed.

(** C6.  [is_query_relevant] is true exactly when a keyword listed for the
    subject occurs in the lower-cased query; it is false for a subject with no
    entry in the table; and it is false for the query CPU in Science.  The
    lower-cased query is that of [str.lower()]: on ASCII text the capital
    letters are replaced by the small ones and nothing else is changed, so
    PLANT Life is relevant to Science; outside ASCII the Kelvin sign becomes
    the letter k, so ROC followed by that sign is relevant to Science too. *)
Theorem is_query_relevant_iff :
  (∀ query subject,
     is_query_relevant query subject = true ↔
     ∃ keywords keyword, subject_keywords !! subject = Some keywords
                         ∧ keyword ∈ keywords ∧ occurs_in keyword (lower query))
  ∧ (∀ query subject,
       subject_keywords !! subject = None → is_query_relevant query subject = false)
  ∧ is_query_relevant "CPU" "Science" = false
  ∧ (∀ query, ascii_only query = true → lower query = map_bytes ascii_tolower query)
  ∧ is_query_relevant "PLANT Life" "Science" = true
  ∧ lower ("ROC" +:+ encode_utf8 [8490]) = "rock"
  ∧ is_query_relevant ("ROC" +:+ encode_utf8 [8490]) "Science" = true.
Proof.
  split; [| split; [| split; [by vm_compute |]]].
  - intros query subject. unfold is_query_relevant, dict_get.
    rewrite existsb_exists. split.
    + intros (keyword & Hin & Hc).
      destruct (subject_keywords !! subject) as [keywords|] eqn:E; simpl in Hin; [| done].
      exists keywords, keyword. split; [done |]. split; [by apply list_elem_of_In |].
      by apply str_contains_true_iff.
    + intros (keywords & keyword & -> & Hin & Hc). exists keyword. simpl.
      split; [by apply list_elem_of_In | by apply str_contains_true_iff].
  - intros query subject H. unfold is_query_relevant, dict_get. by rewrite H.
  - split; [exact lower_ascii |]. split; [by vm_compute |].
    split; [exact lower_kelvin_sign | by vm_compute].
Qed.

(** C7.  The gate gives the same answer on a query and on its lower-cased
    form, for every query: lower-casing what is lower-cased changes nothing.
    So two ASCII queries that differ in the case of their letters only get
    the same answer; PLANT life and plant life are both relevant to Science,
    and BOO followed by the Kelvin sign is relevant to English as book is. *)
Theorem is_query_relevant_case_insensitive :
  (∀ query subject,
     is_query_relevant query subject = is_query_relevant (lower query) subject)
  ∧ (∀ query1 query2 subject,
       ascii_only query1 = true → ascii_only query2 = true →
       map_bytes ascii_tolower query1 = map_bytes ascii_tolower query2 →
       is_query_relevant query1 subject = is_query_relevant query2 subject)
  ∧ is_query_relevant "PLANT life" "Science" = is_query_relevant "plant life" "Science"
  ∧ is_query_relevant "plant life" "Science" = true
  ∧ is_query_relevant ("BOO" +:+ encode_utf8 [8490]) "English"
    = is_query_relevant "book" "English"
  ∧ is_query_relevant "book" "English" = true.
Proof.
  split; [| split; [| repeat split; by vm_compute]].
  - intros query subject. unfold is_query_relevant. by rewrite lower_idempotent.
  - intros query1 query2 subject H1 H2 H. unfold is_query_relevant.
    by rewrite !lower_ascii, H by done.
Qed.

(** ** The effect monad *)

Section Run.
Context {E : Type}.

Lemma bind_raises {A B} (m : run E A) (f : A → run E B) (e : exn) :
  m.2 = inl e → m ≫= f = (m.1, inl e).
Proof. intros H. unfold mbind, run_bind. by rewrite H. Qed.

Lemma bind_returns {A B} (m : run E A) (f : A → run E B) (a : A) :
  m.2 = inr a → m ≫= f = ((m.1 ++ (f a).1)%list, (f a).2).
Proof. intros H. unfold mbind, run_bind. by rewrite H. Qed.

Lemma bind_trace_prefix {A B} (m : run E A) (f : A → run E B) :
  ∃ more, (m ≫= f).1 = (m.1 ++ more)%list.
Proof.
  unfold mbind, run_bind. destruct m.2; simpl; [exists [] | eauto].
  by rewrite app_nil_r.
Qed.

End Run.

Lemma run_bind_assoc {E A B C} (m : run E A) (f : A → run E B) (g : B → run E C) :
  (m ≫= f) ≫= g = m ≫= (λ a, f a ≫= g).
Proof.
  unfold mbind, run_bind. destruct m as [t [e|a]]; simpl; [done |].
  destruct (f a) as [t' [e'|b]]; simpl; [done |]. by rewrite app_assoc.
Qed.

Lemma run_bind_ext {E A B} (m : run E A) (f g : A → run E B) :
  (∀ a, f a = g a) → m ≫= f = m ≫= g.
Proof. intros H. unfold mbind, run_bind. destruct m.2; [done |]. by rewrite H. Qed.

Lemma run_bind_ret_l {E A B} (a : A) (f : A → run E B) : mret a ≫= f = f a.
Proof. unfold mbind, run_bind, mret, run_ret. simpl. by destruct (f a). Qed.

Lemma count_events_app {embedding} (p : event embedding → bool) (t1 t2 : list (event embedding)) :
  count_events p (t1 ++ t2) = (count_events p t1 + count_events p t2)%nat.
Proof. unfold count_events. by rewrite List.filter_app, length_app. Qed.

Lemma diagnostics_app {embedding} (t1 t2 : list (event embedding)) :
  diagnostics (t1 ++ t2) = (diagnostics t1 ++ diagnostics t2)%list.
Proof. unfold diagnostics. apply omap_app. Qed.

(** ** Embedding the filtered texts (line 57) *)

Section Embedding.
Context {embedding : Type} (m : model embedding).

Lemma mapM_encode_trace (texts : list string) :
  ∃ n, (n ≤ length texts)%nat
       ∧ (mapM (model_encode m) texts).1 = map EvEncode (take n texts).
Proof.
  induction texts as [|t texts (n & Hn & IH)]; [by exists 0%nat |].
  cbn [mapM]. destruct (encode m t) as [e|v] eqn:Et.
  - exists 1%nat. split; [simpl; lia |].
    rewrite (bind_raises _ _ e) by (simpl; exact Et). reflexivity.
  - rewrite (bind_returns _ _ v) by (simpl; exact Et).
    destruct (mapM (model_encode m) texts) as [tr [e'|vs]] eqn:Em; simpl in IH.
    + exists (S n). split; [simpl; lia |].
      rewrite (bind_raises _ _ e') by done. simpl. by rewrite IH.
    + exists (S n). split; [simpl; lia |].
      rewrite (bind_returns _ _ vs) by done. simpl. by rewrite app_nil_r, IH.
Qed.

Lemma mapM_encode_raises (texts : list string) (t : string) (e : exn) :
  t ∈ texts → encode m t = inl e → ∃ e', (mapM (model_encode m) texts).2 = inl e'.
Proof.
  intros Hin Ht. induction texts as [|t0 texts IH]; [by apply elem_of_nil in Hin |].
  cbn [mapM]. destruct (encode m t0) as [e0|v] eqn:Et.
  - exists e0. by rewrite (bind_raises _ _ e0).
  - rewrite (bind_returns _ _ v) by (simpl; exact Et). simpl.
    apply elem_of_cons in Hin as [->|Hin]; [congruence |].
    destruct (IH Hin) as [e' He']. exists e'. by rewrite (bind_raises _ _ e').
Qed.

Lemma mapM_encode_returns (texts : list string) :
  (∀ t, t ∈ texts → ∃ v, encode m t = inr v) →
  ∃ vs, mapM (model_encode m) texts = (map EvEncode texts, inr vs).
Proof.
  induction texts as [|t texts IH]; intros Hall; [by exists [] |].
  destruct (Hall t) as [v Hv]; [by left |].
  destruct IH as [vs Hvs]; [intros t' Ht'; apply Hall; by right |].
  exists (v :: vs). cbn [mapM].
  rewrite (bind_returns _ _ v) by (simpl; exact Hv).
  rewrite Hvs. rewrite (bind_returns _ _ vs) by done. simpl.
  by rewrite app_nil_r.
Qed.

(** When embedding the texts raises, the calls made are the embeddings of
    the texts up to the first that raises, each once and in order. *)
Lemma mapM_encode_stops (texts : list string) (e : exn) :
  (mapM (model_encode m) texts).2 = inl e →
  ∃ made t, (mapM (model_encode m) texts).1 = map EvEncode (made ++ [t])%list
    ∧ encode m t = inl e ∧ (made ++ [t])%list `prefix_of` texts
    ∧ Forall (λ t', ∃ v, encode m t' = inr v) made.
Proof.
  induction texts as [|t0 texts IH]; [done |]. cbn [mapM].
  destruct (encode m t0) as [e0|v] eqn:Et.
  - rewrite (bind_raises _ _ e0) by (simpl; exact Et). cbn [fst snd]. intros [= ->].
    exists [], t0. repeat split; [done | by exists texts | constructor].
  - rewrite (bind_returns _ _ v) by (simpl; exact Et). cbn [fst snd].
    destruct (mapM (model_encode m) texts) as [tr [e'|vs]] eqn:Em.
    + rewrite (bind_raises _ _ e') by done. cbn [fst snd]. intros [= ->].
      destruct (IH eq_refl) as (made & t & Htr & Ht & [k Hk] & Hall). simpl in Htr.
      exists (t0 :: made), t. repeat split.
      * simpl. by rewrite Htr.
      * done.
      * exists k. simpl. by rewrite Hk.
      * constructor; [by exists v | done].
    + by rewrite (bind_returns _ _ vs).
Qed.

Lemma mapM_encode_returns_inv (texts : list string) (vs : list embedding) :
  (mapM (model_encode m) texts).2 = inr vs →
  (mapM (model_encode m) texts).1 = map EvEncode texts
  ∧ Forall (λ t, ∃ v, encode m t = inr v) texts.
Proof.
  revert vs. induction texts as [|t0 texts IH]; intros vs; [done |]. cbn [mapM].
  destruct (encode m t0) as [e0|v] eqn:Et.
  { by rewrite (bind_raises _ _ e0) by (simpl; exact Et). }
  rewrite (bind_returns _ _ v) by (simpl; exact Et). cbn [fst snd].
  destruct (mapM (model_encode m) texts) as [tr [e'|vs']] eqn:Em.
  { by rewrite (bind_raises _ _ e'). }
  rewrite (bind_returns _ _ vs') by done. cbn [fst snd]. intros _.
  destruct (IH vs' eq_refl) as [Htr Hall]. simpl in Htr. split.
  - simpl. by rewrite app_nil_r, Htr.
  - constructor; [by exists v | done].
Qed.

End Embedding.

(** ** The second try (lines 56-62) *)

Section SecondTry.
Context {embedding distance : Type}.
Context (w : world embedding distance) (m : model embedding).

Lemma second_try_trace (texts : list string) (query : string) (top_k : Z) :
  ∃ n tail, (n ≤ length texts)%nat
    ∧ (second_try w m texts query top_k).1 = (map EvEncode (take n texts) ++ tail)%list
    ∧ (tail = [] ∨ tail = [EvEncode query]
       ∨ ∃ q, tail = [EvEncode query; EvSearch q top_k]).
Proof.
  unfold second_try.
  destruct (mapM_encode_trace m texts) as (n & Hn & Htr).
  destruct (mapM (model_encode m) texts) as [tr [e|vs]] eqn:Em; simpl in Htr; subst tr.
  - exists n, []. rewrite (bind_raises _ _ e) by done. cbn [fst snd].
    rewrite app_nil_r. auto.
  - rewrite (bind_returns _ _ vs) by done. cbn [fst snd].
    destruct (encode m query) as [e|q] eqn:Eq.
    + exists n, [EvEncode query].
      rewrite (bind_raises _ _ e) by (simpl; exact Eq). auto.
    + exists n, [EvEncode query; EvSearch q top_k].
      rewrite (bind_returns _ _ q) by (simpl; exact Eq). simpl. eauto 6.
Qed.

Lemma second_try_counts (texts : list string) (query : string) (top_k : Z) :
  let tr := (second_try w m texts query top_k).1 in
  diagnostics tr = [] ∧ count_events is_load tr = 0%nat
  ∧ (count_events is_search tr ≤ 1)%nat
  ∧ (count_events is_encode tr ≤ length texts + 1)%nat.
Proof.
  destruct (second_try_trace texts query top_k) as (n & tail & Hn & -> & Htail).
  cbn zeta. rewrite diagnostics_app, !count_events_app.
  assert (diagnostics (map (@EvEncode embedding) (take n texts)) = []
          ∧ count_events is_load (map (@EvEncode embedding) (take n texts)) = 0%nat
          ∧ count_events is_search (map (@EvEncode embedding) (take n texts)) = 0%nat
          ∧ (count_events is_encode (map (@EvEncode embedding) (take n texts)) ≤ n)%nat)
    as (-> & -> & -> & Henc).
  { clear. unfold count_events, diagnostics. revert n.
    induction texts as [|t texts IH]; intros [|n]; simpl;
      try (repeat split; (done || lia)).
    destruct (IH n) as (? & ? & ? & ?). repeat split; (done || lia). }
  destruct Htail as [-> | [-> | [q ->]]]; unfold count_events in *; simpl;
    repeat split; (done || lia).
Qed.

Lemma second_try_raises {ident} (filtered : list (nat * Chunk.t ident))
    (query : string) (top_k : Z) :
  second_try_fails w m filtered query top_k →
  ∃ e, (second_try w m (map (λ p, Chunk.text p.2) filtered) query top_k).2 = inl e.
Proof.
  unfold second_try.
  destruct (mapM (model_encode m) (map (λ p, Chunk.text p.2) filtered))
    as [tr [e0|vs]] eqn:Em.
  { intros _. exists e0. by rewrite (bind_raises _ _ e0). }
  rewrite (bind_returns _ _ vs) by done. cbn [fst snd].
  intros [(p & e & Hin & He) | [(e & He) | (q & e & Hq & He)]].
  - destruct (mapM_encode_raises m (map (λ p, Chunk.text p.2) filtered)
                (Chunk.text p.2) e) as [e' He']; [| done |].
    + apply list_elem_of_fmap. by exists p.
    + rewrite Em in He'. done.
  - exists e. by rewrite (bind_raises _ _ e).
  - exists e. by rewrite (bind_returns _ _ q).
Qed.

(** When the second try raises, its calls are the first of the calls of a
    run without failure, up to the one that raised; every call before it
    returned, and none follows it. *)
Lemma second_try_stops (texts : list string) (query : string) (top_k : Z) (e : exn) :
  (second_try w m texts query top_k).2 = inl e →
  ∃ made failed,
    (second_try w m texts query top_k).1 = (made ++ [failed])%list
    ∧ call_raises w m failed e
    ∧ (made ++ [failed])%list `prefix_of` second_try_calls m texts query top_k
    ∧ Forall (λ ev, ∀ e', ¬ call_raises w m ev e') made.
Proof.
  unfold second_try, second_try_calls.
  destruct (mapM (model_encode m) texts) as [tr [e0|vs]] eqn:Em.
  - rewrite (bind_raises _ _ e0) by done. cbn [fst snd]. intros [= ->].
    destruct (mapM_encode_stops m texts e) as (made & t & Htr & Ht & [k Hk] & Hall);
      [by rewrite Em |].
    rewrite Em in Htr. simpl in Htr. subst tr.
    exists (map EvEncode made), (EvEncode t). rewrite map_app. repeat split; [done | |].
    + eexists. rewrite Hk at 1. rewrite !map_app, <- !app_assoc. reflexivity.
    + apply Forall_forall. intros ev Hev e' He'.
      apply list_elem_of_fmap in Hev as (t' & -> & Ht').
      rewrite Forall_forall in Hall. destruct (Hall t' Ht') as [v Hv].
      simpl in He'. congruence.
  - rewrite (bind_returns _ _ vs) by done. cbn [fst snd].
    destruct (mapM_encode_returns_inv m texts vs) as [Htr Hall]; [by rewrite Em |].
    rewrite Em in Htr. simpl in Htr. subst tr.
    assert (Forall (λ ev : event embedding, ∀ e', ¬ call_raises w m ev e')
                   (map EvEncode texts)) as Hmade.
    { apply Forall_forall. intros ev Hev e' He'.
      apply list_elem_of_fmap in Hev as (t' & -> & Ht').
      rewrite Forall_forall in Hall. destruct (Hall t' Ht') as [v Hv].
      simpl in He'. congruence. }
    destruct (encode m query) as [e1|q] eqn:Eq.
    + rewrite (bind_raises _ _ e1) by (simpl; exact Eq). cbn [fst snd]. intros [= ->].
      exists (map EvEncode texts), (EvEncode query). repeat split; [done | | done].
      exists []. by rewrite app_nil_r.
    + rewrite (bind_returns _ _ q) by (simpl; exact Eq). cbn [fst snd call].
      intros He. exists (map EvEncode texts ++ [EvEncode query])%list, (EvSearch q top_k).
      repeat split.
      * by rewrite <- app_assoc.
      * exact He.
      * exists []. by rewrite app_nil_r, <- !app_assoc.
      * apply Forall_app. split; [done |]. constructor; [| constructor].
        intros e' He'. simpl in He'. congruence.
Qed.

Lemma second_try_needs_success_only (texts : list string) (query : string) (top_k : Z) :
  (∀ t, t ∈ texts → ∃ v, encode m t = inr v) →
  (second_try w m texts query top_k).2 = (second_try_query_only w m query top_k).2.
Proof.
  intros Hall. destruct (mapM_encode_returns m texts Hall) as [vs Hvs].
  unfold second_try. rewrite Hvs. by rewrite (bind_returns _ _ vs).
Qed.

End SecondTry.

(** ** The reconciliation loop (lines 64-71) *)

Section Reconcile.
Context {ident embedding : Type}.
Implicit Types (filtered : list (nat * Chunk.t ident)) (labels : list Z).
Implicit Types (results : list (Excerpt.t ident)).

Lemma reconcile_silent filtered labels results :
  (@reconcile ident embedding filtered labels results).1 = [].
Proof.
  revert results. induction labels as [|idx rest IH]; intros results; simpl; [done |].
  destruct (idx <? Z.of_nat (length filtered)); [| apply IH].
  destruct (list_getitem filtered idx) as [[chunk_idx chunk]|]; [apply IH | done].
Qed.

Lemma emitted_slots_ge start size labels :
  Forall (λ j, (start ≤ j)%nat) (emitted_slots start size labels).
Proof.
  revert start. induction labels as [|idx rest IH]; intros start; simpl; [constructor |].
  assert (Forall (λ j, (start ≤ j)%nat) (emitted_slots (S start) size rest)).
  { eapply Forall_impl; [apply IH |]. simpl. intros; lia. }
  destruct (idx <? size); [constructor; [lia | done] | done].
Qed.

Lemma emitted_slots_increasing start size labels :
  StronglySorted lt (emitted_slots start size labels).
Proof.
  revert start. induction labels as [|idx rest IH]; intros start; simpl; [constructor |].
  destruct (idx <? size); [| apply IH].
  constructor; [apply IH |].
  eapply Forall_impl; [apply emitted_slots_ge |]. simpl. intros; lia.
Qed.

Lemma emitted_slots_length start size labels :
  (length (emitted_slots start size labels) ≤ length labels)%nat.
Proof.
  revert start. induction labels as [|idx rest IH]; intros start; simpl; [lia |].
  specialize (IH (S start)). destruct (idx <? size); simpl; lia.
Qed.

(** When the loop returns, it has appended one excerpt per emitted slot, in
    the order of the slots. *)
Lemma reconcile_returns filtered labels start results out :
  (@reconcile ident embedding filtered labels results).2 = inr out →
  ∃ new, out = (results ++ new)%list
    ∧ Forall2 (λ j r, (start ≤ j)%nat ∧ emits filtered labels (j - start) r)
              (emitted_slots start (Z.of_nat (length filtered)) labels) new.
Proof.
  revert start results. induction labels as [|idx rest IH]; intros start results; simpl.
  - intros [= <-]. exists []. by rewrite app_nil_r.
  - destruct (idx <? Z.of_nat (length filtered)) eqn:Hlt.
    + destruct (list_getitem filtered idx) as [[chunk_idx chunk]|] eqn:Hget; [| done].
      intros H. destruct (IH (S start) _ H) as (new & -> & Hnew).
      exists (excerpt_of chunk :: new). split; [rewrite <- app_assoc; reflexivity |].
      constructor.
      * split; [lia |]. exists idx, (chunk_idx, chunk).
        rewrite Nat.sub_diag. apply Z.ltb_lt in Hlt. repeat split; done.
      * eapply Forall2_impl; [exact Hnew |]. simpl.
        intros j r (Hj & idx' & p & Hl & ? & ? & ?). split; [lia |].
        exists idx', p. replace (j - start)%nat with (S (j - S start)) by lia. done.
    + intros H. destruct (IH (S start) _ H) as (new & -> & Hnew).
      exists new. split; [done |].
      eapply Forall2_impl; [exact Hnew |]. simpl.
      intros j r (Hj & idx' & p & Hl & ? & ? & ?). split; [lia |].
      exists idx', p. replace (j - start)%nat with (S (j - S start)) by lia. done.
Qed.

(** The loop returns unless a label lies below minus the size of the view. *)
Lemma reconcile_total filtered labels results :
  Forall (λ idx, - Z.of_nat (length filtered) ≤ idx) labels →
  ∃ out, (@reconcile ident embedding filtered labels results).2 = inr out.
Proof.
  intros Hall. revert results. induction Hall as [|idx rest Hidx _ IH]; intros results; simpl.
  - by exists results.
  - destruct (idx <? Z.of_nat (length filtered)) eqn:Hlt; [| apply IH].
    apply Z.ltb_lt in Hlt.
    destruct (list_getitem filtered idx) as [[chunk_idx chunk]|] eqn:Hget; [apply IH |].
    exfalso. unfold list_getitem in Hget.
    destruct (0 <=? idx) eqn:H0.
    + apply Z.leb_le in H0. apply lookup_ge_None in Hget. lia.
    + apply Z.leb_gt in H0.
      destruct (- Z.of_nat (length filtered) <=? idx) eqn:H1; [| apply Z.leb_gt in H1; lia].
      apply lookup_ge_None in Hget. lia.
Qed.

End Reconcile.

(** ** The retriever, case by case *)

Section Retriever.
Context {ident embedding distance : Type}.
Context (w : world embedding distance) (metadata_store : list (Chunk.t ident)).
Context (query area level : string) (top_k : Z).

Local Abbreviation model_name := "all-MiniLM-L6-v2".
Local Abbreviation oops e :=
  ("Oops! Something went wrong with the learning tool: " +:+ exn_str e).
Local Abbreviation uh_oh e := ("Uh-oh! Trouble with the magic words: " +:+ exn_str e).
Local Abbreviation texts_of filtered := (map (λ p, Chunk.text p.2) filtered).

Lemma query_graph_rag_unfold :
  query_graph_rag w metadata_store query area level top_k
  = (loaded ← attempt (call (EvLoadModel model_name)
                            (SentenceTransformer w model_name));
     match loaded with
     | inl e => st_error (oops e);; mret []
     | inr m =>
         tag ← match level_map !! level with
               | Some tag => mret tag
               | None => raise (KeyError level)
               end;
         match filtered_chunks metadata_store area tag with
         | [] => mret []
         | _ :: _ =>
             searched ← attempt (second_try w m
                                   (texts_of (filtered_chunks metadata_store area tag))
                                   query top_k);
             match searched with
             | inl e => st_error (uh_oh e);; mret []
             | inr found =>
                 reconcile (filtered_chunks metadata_store area tag) (indices found) []
             end
         end
     end).
Proof. reflexivity. Qed.

Lemma retriever_model_unavailable (e : exn) :
  SentenceTransformer w model_name = inl e →
  query_graph_rag w metadata_store query area level top_k
  = ([EvLoadModel model_name; EvStError (oops e)], inr []).
Proof.
  intros H. rewrite query_graph_rag_unfold.
  rewrite (bind_returns _ _ (inl e)) by (simpl; by rewrite H). reflexivity.
Qed.

Lemma retriever_unknown_level (m : model embedding) :
  SentenceTransformer w model_name = inr m → level_map !! level = None →
  query_graph_rag w metadata_store query area level top_k
  = ([EvLoadModel model_name], inl (KeyError level)).
Proof.
  intros H Hl. rewrite query_graph_rag_unfold.
  rewrite (bind_returns _ _ (inr m)) by (simpl; by rewrite H).
  rewrite Hl. by rewrite (bind_raises _ _ (KeyError level)).
Qed.

Lemma retriever_empty_view (m : model embedding) (tag : string) :
  SentenceTransformer w model_name = inr m → level_map !! level = Some tag →
  filtered_chunks metadata_store area tag = [] →
  query_graph_rag w metadata_store query area level top_k
  = ([EvLoadModel model_name], inr []).
Proof.
  intros H Hl Hf. rewrite query_graph_rag_unfold.
  rewrite (bind_returns _ _ (inr m)) by (simpl; by rewrite H).
  rewrite Hl. rewrite (bind_returns _ _ tag) by done. cbn [fst snd].
  by rewrite Hf.
Qed.

Lemma retriever_second_try_raises (m : model embedding) (tag : string) (e : exn) :
  SentenceTransformer w model_name = inr m → level_map !! level = Some tag →
  filtered_chunks metadata_store area tag ≠ [] →
  (second_try w m (texts_of (filtered_chunks metadata_store area tag)) query top_k).2
  = inl e →
  query_graph_rag w metadata_store query area level top_k
  = (EvLoadModel model_name
       :: (second_try w m (texts_of (filtered_chunks metadata_store area tag))
                      query top_k).1
       ++ [EvStError (uh_oh e)],
     inr []).
Proof.
  intros H Hl Hf He. rewrite query_graph_rag_unfold.
  rewrite (bind_returns _ _ (inr m)) by (simpl; by rewrite H).
  rewrite Hl. rewrite (bind_returns _ _ tag) by done. cbn [fst snd].
  destruct (filtered_chunks metadata_store area tag) as [|p filtered] eqn:Ef; [done |].
  rewrite (bind_returns _ _ (inl e)) by (unfold attempt; cbn [snd]; by rewrite He).
  reflexivity.
Qed.

Lemma retriever_searched (m : model embedding) (tag : string)
    (found : search_result distance) :
  SentenceTransformer w model_name = inr m → level_map !! level = Some tag →
  filtered_chunks metadata_store area tag ≠ [] →
  (second_try w m (texts_of (filtered_chunks metadata_store area tag)) query top_k).2
  = inr found →
  query_graph_rag w metadata_store query area level top_k
  = (EvLoadModel model_name
       :: (second_try w m (texts_of (filtered_chunks metadata_store area tag))
                      query top_k).1,
     (@reconcile ident embedding (filtered_chunks metadata_store area tag)
                 (indices found) []).2).
Proof.
  intros H Hl Hf He. rewrite query_graph_rag_unfold.
  rewrite (bind_returns _ _ (inr m)) by (simpl; by rewrite H).
  rewrite Hl. rewrite (bind_returns _ _ tag) by done. cbn [fst snd].
  destruct (filtered_chunks metadata_store area tag) as [|p filtered] eqn:Ef; [done |].
  rewrite (bind_returns _ _ (inr found)) by (unfold attempt; cbn [snd]; by rewrite He).
  cbn [fst snd attempt]. rewrite reconcile_silent, app_nil_r. reflexivity.
Qed.

(** The value of the variant, in the same cases. *)
Lemma variant_value :
  (query_graph_rag_no_subset_embedding w metadata_store query area level top_k).2
  = match SentenceTransformer w model_name with
    | inl e => inr []
    | inr m =>
        match level_map !! level with
        | None => inl (KeyError level)
        | Some tag =>
            match filtered_chunks metadata_store area tag with
            | [] => inr []
            | p :: filtered =>
                match (second_try_query_only w m query top_k).2 with
                | inl e => inr []
                | inr found =>
                    (@reconcile ident embedding (p :: filtered) (indices found) []).2
                end
            end
        end
    end.
Proof.
  unfold query_graph_rag_no_subset_embedding.
  destruct (SentenceTransformer w model_name) as [e|m] eqn:H.
  { rewrite (bind_returns _ _ (inl e)) by reflexivity. reflexivity. }
  rewrite (bind_returns _ _ (inr m)) by reflexivity. cbn [fst snd].
  destruct (level_map !! level) as [tag|].
  2: { by rewrite (bind_raises _ _ (KeyError level)). }
  rewrite (bind_returns _ _ tag) by done. cbn [fst snd].
  destruct (filtered_chunks metadata_store area tag) as [|p filtered]; [done |].
  fold (second_try_query_only w m query top_k).
  destruct (second_try_query_only w m query top_k) as [tr [e|found]] eqn:Es.
  - rewrite (bind_returns _ _ (inl e)) by done. reflexivity.
  - rewrite (bind_returns _ _ (inr found)) by done. reflexivity.
Qed.

Lemma retriever_value :
  (query_graph_rag w metadata_store query area level top_k).2
  = match SentenceTransformer w model_name with
    | inl e => inr []
    | inr m =>
        match level_map !! level with
        | None => inl (KeyError level)
        | Some tag =>
            match filtered_chunks metadata_store area tag with
            | [] => inr []
            | p :: filtered =>
                match (second_try w m (texts_of (p :: filtered)) query top_k).2 with
                | inl e => inr []
                | inr found =>
                    (@reconcile ident embedding (p :: filtered) (indices found) []).2
                end
            end
        end
    end.
Proof.
  destruct (SentenceTransformer w model_name) as [e|m] eqn:H.
  { by rewrite (retriever_model_unavailable e). }
  destruct (level_map !! level) as [tag|] eqn:Hl.
  2: { by rewrite (retriever_unknown_level m). }
  destruct (filtered_chunks metadata_store area tag) as [|p filtered] eqn:Ef.
  { by rewrite (retriever_empty_view m tag). }
  destruct (second_try w m (texts_of (p :: filtered)) query top_k) as [tr [e|found]] eqn:Es.
  - rewrite (retriever_second_try_raises m tag e); rewrite ?Ef, ?Es; done.
  - rewrite (retriever_searched m tag found); rewrite ?Ef, ?Es; done.
Qed.

End Retriever.

(** ** Order and size of the result *)

Lemma StronglySorted_lookup_lt {A} (R : relation A) (l : list A) (i j : nat) (a b : A) :
  StronglySorted R l → (i < j)%nat → l !! i = Some a → l !! j = Some b → R a b.
Proof.
  intros Hs. revert i j. induction Hs as [|x l Hs IH Hx]; intros i j Hij Hi Hj; [done |].
  destruct j as [|j]; [lia |]. destruct i as [|i]; simpl in *.
  - injection Hi as ->. rewrite Forall_forall in Hx. apply Hx.
    by apply list_elem_of_lookup_2 in Hj.
  - apply (IH i j); [lia | done | done].
Qed.

(** Picking the elements of a sorted list at increasing positions gives a
    sorted list. *)
Lemma StronglySorted_pick {A} (R : relation A) (l : list A) (js : list nat) (ds : list A) :
  StronglySorted R l → StronglySorted lt js →
  Forall2 (λ j d, l !! j = Some d) js ds → StronglySorted R ds.
Proof.
  intros Hl Hjs H. induction H as [|j d js ds Hj H IH]; [constructor |].
  apply StronglySorted_inv in Hjs as [Hjs Hlt]. constructor; [by apply IH |].
  eapply Forall2_Forall_r; [exact H |].
  eapply Forall_impl; [exact Hlt |]. simpl. intros j' Hjj' d' Hd'.
  by apply (StronglySorted_lookup_lt R l j j').
Qed.

Lemma lookups_exist {A} (l : list A) (js : list nat) :
  Forall (λ j, (j < length l)%nat) js → ∃ ds, Forall2 (λ j d, l !! j = Some d) js ds.
Proof.
  intros H. apply Forall_exists_Forall2_l.
  eapply Forall_impl; [exact H |]. simpl. intros j Hj. by apply lookup_lt_is_Some_2.
Qed.

Lemma emitted_slots_filter start size labels :
  length (emitted_slots start size labels)
  = length (List.filter (λ idx, idx <? size) labels).
Proof.
  revert start. induction labels as [|idx rest IH]; intros start; simpl; [done |].
  destruct (idx <? size); simpl; by rewrite IH.
Qed.

(** Labels that are positions (not negative, pairwise distinct): at most as
    many pass the test of line 66 as the view has elements. *)
Lemma emitted_slots_positions start (size : nat) labels :
  Forall (λ idx, 0 ≤ idx) labels → NoDup labels →
  (length (emitted_slots start (Z.of_nat size) labels) ≤ size)%nat.
Proof.
  intros Hpos Hnd. rewrite emitted_slots_filter.
  assert (List.filter (λ idx, idx <? Z.of_nat size) labels ⊆+ seqZ 0 (Z.of_nat size)) as Hsub.
  { apply NoDup_submseteq.
    - clear Hpos. induction Hnd as [|idx rest Hnotin Hnd IH]; simpl; [constructor |].
      destruct (idx <? Z.of_nat size); [| done].
      constructor; [| done]. intros Hin. apply Hnotin.
      apply list_elem_of_In, filter_In in Hin as [Hin _]. by apply list_elem_of_In.
    - intros idx Hin. apply list_elem_of_In, filter_In in Hin as [Hin Hlt].
      apply Z.ltb_lt in Hlt. rewrite Forall_forall in Hpos.
      apply list_elem_of_In in Hin. apply elem_of_seqZ. specialize (Hpos idx Hin). lia. }
  apply submseteq_length in Hsub. rewrite length_seqZ in Hsub. lia.
Qed.

Section Results.
Context {ident embedding distance : Type}.
Context (w : world embedding distance) (metadata_store : list (Chunk.t ident)).
Context (query area level : string) (top_k : Z).

Local Abbreviation model_name := "all-MiniLM-L6-v2".
Local Abbreviation texts_of filtered := (map (λ p, Chunk.text p.2) filtered).

(** Whatever the retriever returns, it returns nothing or what the loop made
    of a successful search. *)
Lemma retriever_returns_inv (results : list (Excerpt.t ident)) :
  (query_graph_rag w metadata_store query area level top_k).2 = inr results →
  results = []
  ∨ ∃ m tag q found,
      SentenceTransformer w model_name = inr m ∧ level_map !! level = Some tag
      ∧ encode m query = inr q ∧ index_search w q top_k = inr found
      ∧ (@reconcile ident embedding (filtered_chunks metadata_store area tag)
                    (indices found) []).2 = inr results.
Proof.
  rewrite retriever_value.
  destruct (SentenceTransformer w model_name) as [e|m] eqn:Hm; [intros [= <-]; by left |].
  destruct (level_map !! level) as [tag|] eqn:Hl; [| done].
  destruct (filtered_chunks metadata_store area tag) as [|p filtered] eqn:Ef;
    [intros [= <-]; by left |].
  destruct (second_try w m (texts_of (p :: filtered)) query top_k) as [tr [e|found]] eqn:Es;
    [intros [= <-]; by left |].
  cbn [snd]. intros Hr. right. exists m, tag.
  unfold second_try in Es.
  destruct (mapM (model_encode m) (texts_of (p :: filtered))) as [tr0 [e0|vs]] eqn:Em.
  { by rewrite (bind_raises _ _ e0) in Es. }
  rewrite (bind_returns _ _ vs) in Es by done. cbn [fst snd] in Es.
  destruct (encode m query) as [e1|q] eqn:Eq.
  { by rewrite (bind_raises _ _ e1) in Es by (simpl; exact Eq). }
  rewrite (bind_returns _ _ q) in Es by (simpl; exact Eq).
  exists q, found. injection Es as _ Hs. rewrite Ef. done.
Qed.

End Results.

Lemma filtered_chunks_length {ident} (metadata_store : list (Chunk.t ident))
    (area tag : string) :
  (length (filtered_chunks metadata_store area tag) ≤ length metadata_store)%nat.
Proof.
  unfold filtered_chunks, enumerate.
  etransitivity; [apply filter_length_le |]. by rewrite length_imap.
Qed.

(** ** The statements of the specification about the retriever *)

Section Statements.
Context {ident embedding distance : Type}.
Context (w : world embedding distance) (metadata_store : list (Chunk.t ident)).
Context (query area level : string) (top_k : Z).

Local Abbreviation model_name := "all-MiniLM-L6-v2".
Local Abbreviation texts_of filtered := (map (λ p, Chunk.text p.2) filtered).

(** With an index whose labels are positions (none negative, no two equal,
    no more than [top_k] of them), the retriever returns, and returns at most
    as many excerpts as [top_k] and as the view has chunks. *)
Lemma results_bounded_for_positions (tag : string) :
  (∀ q k found, index_search w q k = inr found →
     (length (indices found) ≤ Z.to_nat k)%nat
     ∧ Forall (λ idx, 0 ≤ idx) (indices found) ∧ NoDup (indices found)) →
  level_map !! level = Some tag →
  ∃ results, (query_graph_rag w metadata_store query area level top_k).2 = inr results
    ∧ (length results
       ≤ Z.to_nat top_k `min` length (filtered_chunks metadata_store area tag))%nat.
Proof.
  intros Hindex Hl. rewrite retriever_value, Hl.
  destruct (SentenceTransformer w model_name) as [e|m]; [exists []; split; [done | simpl; lia] |].
  destruct (filtered_chunks metadata_store area tag) as [|p filtered] eqn:Ef;
    [exists []; split; [done | simpl; lia] |].
  destruct (second_try w m (texts_of (p :: filtered)) query top_k) as [tr [e|found]] eqn:Es;
    [exists []; split; [done | simpl; lia] |].
  cbn [snd].
  assert (∃ q, index_search w q top_k = inr found) as [q Hq].
  { unfold second_try in Es.
    destruct (mapM (model_encode m) (texts_of (p :: filtered))) as [tr0 [e0|vs]] eqn:Em.
    { by rewrite (bind_raises _ _ e0) in Es. }
    rewrite (bind_returns _ _ vs) in Es by done. cbn [fst snd] in Es.
    destruct (encode m query) as [e1|q] eqn:Eq.
    { by rewrite (bind_raises _ _ e1) in Es by (simpl; exact Eq). }
    rewrite (bind_returns _ _ q) in Es by (simpl; exact Eq).
    exists q. by injection Es as _ Hs. }
  destruct (Hindex q top_k found Hq) as (Hlen & Hpos & Hnd).
  destruct (reconcile_total (embedding:=embedding) (p :: filtered) (indices found) [])
    as [results Hr].
  { eapply Forall_impl; [exact Hpos |]. simpl. intros; lia. }
  exists results. split; [done |].
  destruct (reconcile_returns _ _ 0%nat _ _ Hr) as (new & -> & Hnew).
  apply Forall2_length in Hnew. rewrite app_nil_l, <- Hnew.
  pose proof (emitted_slots_length 0 (Z.of_nat (length (p :: filtered))) (indices found)).
  pose proof (emitted_slots_positions 0 (length (p :: filtered)) (indices found) Hpos Hnd).
  lia.
Qed.

(** C3.  When the Filtered View of a valid level is empty, the retriever
    returns the empty list and its trace holds no index search and no call of
    the embedding function. *)
Theorem empty_view_returns_without_search (tag : string) :
  level_map !! level = Some tag →
  filtered_chunks metadata_store area tag = [] →
  (query_graph_rag w metadata_store query area level top_k).2 = inr []
  ∧ count_events is_search (query_graph_rag w metadata_store query area level top_k).1
    = 0%nat
  ∧ count_events is_encode (query_graph_rag w metadata_store query area level top_k).1
    = 0%nat.
Proof.
  intros Hl Hf. destruct (SentenceTransformer w model_name) as [e|m] eqn:Hm.
  - by rewrite (retriever_model_unavailable _ _ _ _ _ _ e).
  - by rewrite (retriever_empty_view _ _ _ _ _ _ m tag).
Qed.

(** C4.  With an index that returns its distances in non-decreasing order,
    one per label: the excerpts the retriever returns are those of the result
    slots that pass the test of line 66, taken at increasing slots, so in the
    order received, and the distances of these slots are non-decreasing. *)
Theorem results_follow_index_order (dle : relation distance)
    (results : list (Excerpt.t ident)) :
  (∀ q k found, index_search w q k = inr found →
     length (distances found) = length (indices found)
     ∧ StronglySorted dle (distances found)) →
  (query_graph_rag w metadata_store query area level top_k).2 = inr results →
  results = []
  ∨ ∃ m tag q found slots ds,
      SentenceTransformer w model_name = inr m ∧ level_map !! level = Some tag
      ∧ encode m query = inr q ∧ index_search w q top_k = inr found
      ∧ StronglySorted lt slots
      ∧ Forall2 (emits (filtered_chunks metadata_store area tag) (indices found))
                slots results
      ∧ Forall2 (λ j d, distances found !! j = Some d) slots ds
      ∧ StronglySorted dle ds.
Proof.
  intros Hindex Hr.
  destruct (retriever_returns_inv _ _ _ _ _ _ _ Hr)
    as [-> | (m & tag & q & found & Hm & Hl & Hq & Hs & Hloop)]; [by left |].
  right. destruct (Hindex q top_k found Hs) as [Hlen Hsorted].
  destruct (reconcile_returns _ _ 0%nat _ _ Hloop) as (new & Hout & Hnew).
  rewrite app_nil_l in Hout. subst new.
  set (filtered := filtered_chunks metadata_store area tag) in *.
  set (slots := emitted_slots 0 (Z.of_nat (length filtered)) (indices found)) in *.
  assert (Forall2 (emits filtered (indices found)) slots results) as Hemits.
  { eapply Forall2_impl; [exact Hnew |]. simpl. intros j r [_ H].
    by rewrite Nat.sub_0_r in H. }
  destruct (lookups_exist (distances found) slots) as [ds Hds].
  { eapply Forall2_Forall_l; [exact Hemits |]. apply Forall_forall.
    intros r _ j (idx & p & Hj & _). apply lookup_lt_Some in Hj. lia. }
  exists m, tag, q, found, slots, ds.
  repeat split; try done.
  - apply emitted_slots_increasing.
  - apply (StronglySorted_pick dle (distances found) slots ds);
      [done | apply emitted_slots_increasing | done].
Qed.

(** C8.  When the model cannot be loaded, or when embedding a filtered text,
    embedding the query or searching the index raises, the retriever returns
    the empty list (it raises nothing) and shows exactly one diagnostic.  It
    tries nothing again: the model is loaded once, and if that raised the
    diagnostic follows at once; if not, the calls made are the first of the
    calls of a run without failure (one embedding per text of the view in the
    order of the view, the embedding of the query, one search), every call
    before the last returned, the last is the one that raised, and after it
    comes the diagnostic with the text of its exception and nothing else. *)
Theorem collaborator_failures_are_caught :
  collaborator_fails w metadata_store query area level top_k →
  (query_graph_rag w metadata_store query area level top_k).2 = inr []
  ∧ (∃ msg, diagnostics (query_graph_rag w metadata_store query area level top_k).1
            = [msg])
  ∧ count_events is_load (query_graph_rag w metadata_store query area level top_k).1
    = 1%nat
  ∧ (count_events is_search (query_graph_rag w metadata_store query area level top_k).1
     ≤ 1)%nat
  ∧ (count_events is_encode (query_graph_rag w metadata_store query area level top_k).1
     ≤ length metadata_store + 1)%nat
  ∧ ((∃ e, SentenceTransformer w model_name = inl e
           ∧ (query_graph_rag w metadata_store query area level top_k).1
             = [EvLoadModel model_name;
                EvStError ("Oops! Something went wrong with the learning tool: "
                           +:+ exn_str e)])
     ∨ (∃ m tag e made failed,
          SentenceTransformer w model_name = inr m ∧ level_map !! level = Some tag
          ∧ (query_graph_rag w metadata_store query area level top_k).1
            = (EvLoadModel model_name
               :: made
               ++ [failed;
                   EvStError ("Uh-oh! Trouble with the magic words: " +:+ exn_str e)])%list
          ∧ call_raises w m failed e
          ∧ (made ++ [failed])%list
            `prefix_of` second_try_calls m (texts_of (filtered_chunks metadata_store area tag))
                                         query top_k
          ∧ Forall (λ ev, ∀ e', ¬ call_raises w m ev e') made)).
Proof.
  intros [[e He] | (m & tag & Hm & Hl & Hne & Hfail)].
  - rewrite (retriever_model_unavailable _ _ _ _ _ _ e He).
    unfold count_events. simpl.
    split; [done |]. split; [eauto |]. split; [lia |]. split; [lia |]. split; [lia |].
    left. by exists e.
  - destruct (second_try_raises w m _ query top_k Hfail) as [e He].
    rewrite (retriever_second_try_raises _ _ _ _ _ _ m tag e Hm Hl Hne He).
    destruct (second_try_counts w m (texts_of (filtered_chunks metadata_store area tag))
                query top_k) as (Hd & Hload & Hsearch & Henc).
    destruct (second_try_stops w m _ query top_k e He)
      as (made & failed & Htr & Hfailed & Hprefix & Hmade).
    cbn zeta in *. rewrite length_map in Henc.
    pose proof (filtered_chunks_length metadata_store area tag).
    cbn [fst snd]. split; [done |].
    assert (∀ t u : list (event embedding),
              (EvLoadModel model_name :: t ++ u)%list
              = ([EvLoadModel model_name] ++ t ++ u)%list) as Hcons by done.
    rewrite Hcons, !diagnostics_app, !count_events_app, Hd, Hload.
    unfold count_events in *. simpl.
    split; [eauto |]. split; [lia |]. split; [lia |]. split; [lia |].
    right. exists m, tag, e, made, failed.
    split; [done |]. split; [done |]. split; [| done].
    rewrite Htr, <- app_assoc. reflexivity.
Qed.

(** C9, as amended.  When the loaded model embeds every text of the Filtered
    View without raising, the retriever and its variant without the embedding
    of the filtered texts return the same value. *)
Theorem subset_embedding_only_matters_by_raising :
  (∀ m tag p, SentenceTransformer w model_name = inr m →
     level_map !! level = Some tag →
     p ∈ filtered_chunks metadata_store area tag →
     ∃ v, encode m (Chunk.text p.2) = inr v) →
  (query_graph_rag w metadata_store query area level top_k).2
  = (query_graph_rag_no_subset_embedding w metadata_store query area level top_k).2.
Proof.
  intros Hok. rewrite retriever_value, variant_value.
  destruct (SentenceTransformer w model_name) as [e|m] eqn:Hm; [done |].
  destruct (level_map !! level) as [tag|] eqn:Hl; [| done].
  destruct (filtered_chunks metadata_store area tag) as [|p filtered] eqn:Ef; [done |].
  rewrite second_try_needs_success_only; [done |].
  intros t Ht. apply list_elem_of_fmap in Ht as (p' & -> & Hp').
  apply (Hok m tag p'); [done | done | by rewrite Ef].
Qed.

End Statements.

(** ** The statements at concrete inputs *)

(** C2, at an input where the code departs from it.  The corpus holds one
    chunk and the index one vector; asked for three neighbours the index
    answers with the labels 0, -1, -1.  The view has one chunk, and the
    retriever returns three excerpts: the test of line 66 lets -1 through
    and line 67 reads it as the last chunk of the view. *)
Theorem padded_labels_are_not_dropped :
  level_map !! "Year 2" = Some "Level 2"
  ∧ filtered_chunks [plants] "Science" "Level 2" = [(0%nat, plants)]
  ∧ index_search one_vector_world (String.length "plants") 3
    = inr {| distances := [4; 1000; 1000]%nat; indices := [0; -1; -1] |}
  ∧ (query_graph_rag one_vector_world [plants] "plants" "Science" "Year 2" 3).2
    = inr [excerpt_of plants; excerpt_of plants; excerpt_of plants]
  ∧ ¬ (length [excerpt_of plants; excerpt_of plants; excerpt_of plants]
       ≤ Z.to_nat 3 `min` length (filtered_chunks [plants] "Science" "Level 2"))%nat.
Proof.
  split; [by vm_compute |]. split; [by vm_compute |]. split; [done |].
  split; [by vm_compute |]. vm_compute. lia.
Qed.

(** A label below minus the size of the view makes line 67 raise. *)
Example label_below_the_view_raises :
  (query_graph_rag (fixed_index length_model [4]%nat [-2]) [plants]
                   "plants" "Science" "Year 2" 1).2
  = inl IndexError.
Proof. by vm_compute. Qed.

(** C9, as stated, fails: the model raises on the one filtered text and
    embeds the query, so the retriever returns the empty list where its
    variant returns the excerpt. *)
Lemma subset_embedding_can_change_the_result :
  (query_graph_rag short_text_world [plants] "water" "Science" "Year 2" 1).2 = inr []
  ∧ (query_graph_rag_no_subset_embedding short_text_world [plants]
       "water" "Science" "Year 2" 1).2 = inr [excerpt_of plants]
  ∧ (query_graph_rag short_text_world [plants] "water" "Science" "Year 2" 1).2
    ≠ (query_graph_rag_no_subset_embedding short_text_world [plants]
         "water" "Science" "Year 2" 1).2.
Proof. split; [by vm_compute |]. split; [by vm_compute |]. by vm_compute. Qed.

(** The corpus of the one chunk tagged Level 10. *)
Lemma year_1_view_holds_level_10_witness :
  [forces] !! 0%nat = Some forces
  ∧ Metadata.learning_area (Chunk.metadata forces) = "Science"
  ∧ Metadata.level (Chunk.metadata forces) = "Level 10"
  ∧ (level_map !! "Year 1" = Some "Level 1"
     ∧ "Level 1" ≠ Metadata.level (Chunk.metadata forces)
     ∧ (0%nat, forces) ∈ filtered_chunks [forces] "Science" "Level 1").
Proof.
  split; [reflexivity |]. split; [reflexivity |]. split; [reflexivity |].
  apply (year_1_view_holds_level_10 [forces] "Science" 0 forces); reflexivity.
Defined.

(** No chunk of Scenario 1 is in English. *)
Lemma empty_view_returns_without_search_witness :
  level_map !! "Year 2" = Some "Level 2"
  ∧ filtered_chunks scenario1_store "English" "Level 2" = []
  ∧ ((query_graph_rag broken_index_world scenario1_store "reading" "English" "Year 2" 3).2
     = inr []
     ∧ count_events is_search
         (query_graph_rag broken_index_world scenario1_store "reading" "English"
                          "Year 2" 3).1 = 0%nat
     ∧ count_events is_encode
         (query_graph_rag broken_index_world scenario1_store "reading" "English"
                          "Year 2" 3).1 = 0%nat).
Proof.
  split; [vm_compute; reflexivity |]. split; [vm_compute; reflexivity |].
  apply (empty_view_returns_without_search broken_index_world scenario1_store
           "reading" "English" "Year 2" 3 "Level 2");
    vm_compute; reflexivity.
Defined.

(** Three chunks, two of them in the view; the index returns the labels 1,
    0, 2 at distances 2, 5, 9, and the retriever the chunks of the slots 0
    and 1. *)
Lemma results_follow_index_order_witness :
  (∀ q k found, index_search three_chunk_world q k = inr found →
     length (distances found) = length (indices found)
     ∧ StronglySorted le (distances found))
  ∧ (query_graph_rag three_chunk_world three_chunk_store "plants" "Science" "Year 2" 3).2
    = inr [excerpt_of seasons; excerpt_of plants]
  ∧ ([excerpt_of seasons; excerpt_of plants] = []
     ∨ ∃ m tag q found slots ds,
         SentenceTransformer three_chunk_world "all-MiniLM-L6-v2" = inr m
         ∧ level_map !! "Year 2" = Some tag
         ∧ encode m "plants" = inr q ∧ index_search three_chunk_world q 3 = inr found
         ∧ StronglySorted lt slots
         ∧ Forall2 (emits (filtered_chunks three_chunk_store "Science" tag)
                          (indices found))
                   slots [excerpt_of seasons; excerpt_of plants]
         ∧ Forall2 (λ j d, distances found !! j = Some d) slots ds
         ∧ StronglySorted le ds).
Proof.
  assert (∀ q k found, index_search three_chunk_world q k = inr found →
            length (distances found) = length (indices found)
            ∧ StronglySorted le (distances found)) as Hindex.
  { intros q k found H. injection H as <-. simpl.
    split; [reflexivity |]. repeat constructor; lia. }
  split; [exact Hindex |]. split; [vm_compute; reflexivity |].
  apply (results_follow_index_order three_chunk_world three_chunk_store
           "plants" "Science" "Year 2" 3 le _ Hindex).
  vm_compute; reflexivity.
Defined.

(** The three failures: no model, a text the model cannot embed, an index
    that raises.  On the text it cannot embed the model is asked once, and
    the diagnostic follows. *)
Lemma collaborator_failures_are_caught_witness :
  collaborator_fails no_model_world [plants] "water" "Science" "Year 2" 3
  ∧ collaborator_fails short_text_world [plants] "water" "Science" "Year 2" 1
  ∧ collaborator_fails broken_index_world [plants] "water" "Science" "Year 2" 3
  ∧ (query_graph_rag no_model_world [plants] "water" "Science" "Year 2" 3).2 = inr []
  ∧ (query_graph_rag short_text_world [plants] "water" "Science" "Year 2" 1).2 = inr []
  ∧ (query_graph_rag broken_index_world [plants] "water" "Science" "Year 2" 3).2 = inr []
  ∧ (∃ msg, diagnostics (query_graph_rag broken_index_world [plants]
                           "water" "Science" "Year 2" 3).1 = [msg])
  ∧ (query_graph_rag short_text_world [plants] "water" "Science" "Year 2" 1).1
    = [EvLoadModel "all-MiniLM-L6-v2"; EvEncode "Plants need water";
       EvStError "Uh-oh! Trouble with the magic words: out of memory"]
  ∧ (query_graph_rag broken_index_world [plants] "water" "Science" "Year 2" 3).1
    = [EvLoadModel "all-MiniLM-L6-v2"; EvEncode "Plants need water"; EvEncode "water";
       EvSearch 5%nat 3; EvStError "Uh-oh! Trouble with the magic words: index is not trained"].
Proof.
  assert (collaborator_fails no_model_world [plants] "water" "Science" "Year 2" 3) as H1.
  { left. eexists. reflexivity. }
  assert (collaborator_fails short_text_world [plants] "water" "Science" "Year 2" 1) as H2.
  { right. exists short_text_model, "Level 2".
    split; [reflexivity |]. split; [vm_compute; reflexivity |].
    split; [vm_compute; discriminate |].
    left. exists (0%nat, plants), (Error "out of memory").
    split; [vm_compute; left | reflexivity]. }
  assert (collaborator_fails broken_index_world [plants] "water" "Science" "Year 2" 3) as H3.
  { right. exists length_model, "Level 2".
    split; [reflexivity |]. split; [vm_compute; reflexivity |].
    split; [vm_compute; discriminate |].
    right. right. exists 5%nat, (Error "index is not trained").
    split; reflexivity. }
  split; [exact H1 |]. split; [exact H2 |]. split; [exact H3 |].
  split; [exact (proj1 (collaborator_failures_are_caught _ _ _ _ _ _ H1)) |].
  split; [exact (proj1 (collaborator_failures_are_caught _ _ _ _ _ _ H2)) |].
  split; [exact (proj1 (collaborator_failures_are_caught _ _ _ _ _ _ H3)) |].
  split; [exact (proj1 (proj2 (collaborator_failures_are_caught _ _ _ _ _ _ H3))) |].
  split; vm_compute; reflexivity.
Defined.

(** A model that embeds every text. *)
Lemma subset_embedding_only_matters_by_raising_witness :
  (∀ m tag p, SentenceTransformer three_chunk_world "all-MiniLM-L6-v2" = inr m →
     level_map !! "Year 2" = Some tag →
     p ∈ filtered_chunks three_chunk_store "Science" tag →
     ∃ v, encode m (Chunk.text p.2) = inr v)
  ∧ (query_graph_rag three_chunk_world three_chunk_store "plants" "Science" "Year 2" 3).2
    = (query_graph_rag_no_subset_embedding three_chunk_world three_chunk_store
         "plants" "Science" "Year 2" 3).2.
Proof.
  assert (∀ m tag p, SentenceTransformer three_chunk_world "all-MiniLM-L6-v2" = inr m →
            level_map !! "Year 2" = Some tag →
            p ∈ filtered_chunks three_chunk_store "Science" tag →
            ∃ v, encode m (Chunk.text p.2) = inr v) as Hok.
  { intros m tag p Hm _ _. injection Hm as <-. eexists. reflexivity. }
  split; [exact Hok |].
  exact (subset_embedding_only_matters_by_raising three_chunk_world three_chunk_store
           "plants" "Science" "Year 2" 3 Hok).
Defined.

(** * Further properties of the retriever and the relevance gate *)

Lemma level_of_selector_is_mapped (level : string) :
  level ∈ levels → is_Some (level_map !! level).
Proof.
  rewrite levels_eq. intros H. list_cases H;
    (match goal with |- is_Some ?o => destruct o eqn:E end;
     [by eexists | by vm_compute in E]).
Qed.

Lemma list_getitem_elem_of {A} (l : list A) (i : Z) (x : A) :
  list_getitem l i = Some x → x ∈ l.
Proof.
  unfold list_getitem. destruct (0 <=? i); [apply list_elem_of_lookup_2 |].
  destruct (- Z.of_nat (length l) <=? i); [apply list_elem_of_lookup_2 | done].
Qed.

Lemma reconcile_raises_index_error {ident embedding}
    (filtered : list (nat * Chunk.t ident)) (labels : list Z)
    (results : list (Excerpt.t ident)) (e : exn) :
  (@reconcile ident embedding filtered labels results).2 = inl e → e = IndexError.
Proof.
  revert results. induction labels as [|idx rest IH]; intros results; simpl; [done |].
  destruct (idx <? Z.of_nat (length filtered)); [| apply IH].
  destruct (list_getitem filtered idx) as [[chunk_idx chunk]|]; [apply IH |].
  by intros [= <-].
Qed.

Lemma enumerate_positions {A} (l : list A) (start : nat) :
  map fst (imap (λ i x, (start + i, x)%nat) l) = seq start (length l).
Proof.
  revert start. induction l as [|x l IH]; intros start; simpl; [done |].
  rewrite Nat.add_0_r. f_equal. rewrite <- (IH (S start)). f_equal.
  apply imap_ext. intros i y _. simpl. f_equal. lia.
Qed.

Lemma StronglySorted_lt_seq (start n : nat) : StronglySorted lt (seq start n).
Proof.
  revert start. induction n as [|n IH]; intros start; simpl; constructor; [apply IH |].
  apply Forall_forall. intros j Hj. apply elem_of_seq in Hj. lia.
Qed.

Lemma StronglySorted_map_filter {A B} (R : relation B) (f : A → B) (p : A → bool)
    (l : list A) :
  StronglySorted R (map f l) → StronglySorted R (map f (List.filter p l)).
Proof.
  induction l as [|x l IH]; simpl; [done |]. intros H.
  apply StronglySorted_inv in H as [Hs Hx]. destruct (p x); simpl; [| by apply IH].
  constructor; [by apply IH |].
  rewrite Forall_forall in Hx |- *. intros y Hy. apply Hx.
  apply list_elem_of_fmap in Hy as (z & -> & Hz). apply list_elem_of_fmap.
  exists z. split; [done |]. apply list_elem_of_In in Hz. apply filter_In in Hz as [Hz _].
  by apply list_elem_of_In.
Qed.

Lemma increasing_lookup_ge (js : list nat) (b k j : nat) :
  StronglySorted lt js → Forall (λ j, (b ≤ j)%nat) js → js !! k = Some j →
  (b + k ≤ j)%nat.
Proof.
  intros Hs. revert b k. induction Hs as [|x js Hs IH Hx]; intros b k Hb Hk; [done |].
  apply Forall_cons in Hb as [Hbx Hb].
  destruct k as [|k]; simpl in Hk; [injection Hk as <-; lia |].
  assert (S x + k ≤ j)%nat; [| lia].
  apply IH; [| done]. eapply Forall_impl; [exact Hx |]. simpl. intros; lia.
Qed.

(** The Filtered View lists its chunks in corpus order: the corpus positions
    it records increase strictly, so the k-th element of the view sits at
    corpus position k or later. *)
Theorem view_keeps_corpus_order {ident} (metadata_store : list (Chunk.t ident))
    (area tag : string) :
  StronglySorted lt (map fst (filtered_chunks metadata_store area tag))
  ∧ ∀ k i c, filtered_chunks metadata_store area tag !! k = Some (i, c) → (k ≤ i)%nat.
Proof.
  assert (StronglySorted lt (map fst (filtered_chunks metadata_store area tag))) as Hs.
  { unfold filtered_chunks, enumerate. apply StronglySorted_map_filter.
    rewrite (imap_ext _ (λ i x, (0 + i, x)%nat) metadata_store) by done.
    rewrite enumerate_positions. apply StronglySorted_lt_seq. }
  split; [exact Hs |]. intros k i c Hk.
  apply (increasing_lookup_ge _ 0 k i Hs).
  - apply Forall_forall. intros; lia.
  - by rewrite list_lookup_fmap, Hk.
Qed.

Section RetrieverExtras.
Context {ident embedding distance : Type}.
Context (w : world embedding distance) (metadata_store : list (Chunk.t ident)).
Context (query area level : string) (top_k : Z).

Local Abbreviation model_name := "all-MiniLM-L6-v2".
Local Abbreviation texts_of filtered := (map (λ p, Chunk.text p.2) filtered).

(** Every excerpt the retriever returns is the excerpt of a chunk of the
    Filtered View: a chunk of the corpus in the requested area whose level
    field holds the internal tag of the requested level or is Unknown. *)
Theorem results_come_from_the_view (results : list (Excerpt.t ident))
    (r : Excerpt.t ident) :
  (query_graph_rag w metadata_store query area level top_k).2 = inr results →
  r ∈ results →
  ∃ tag i c, level_map !! level = Some tag
    ∧ metadata_store !! i = Some c ∧ r = excerpt_of c
    ∧ Metadata.learning_area (Chunk.metadata c) = area
    ∧ (occurs_in tag (Metadata.level (Chunk.metadata c))
       ∨ Metadata.level (Chunk.metadata c) = "Unknown").
Proof.
  intros Hr Hin.
  destruct (retriever_returns_inv _ _ _ _ _ _ _ Hr)
    as [-> | (m & tag & q & found & Hm & Hl & Hq & Hs & Hloop)];
    [by apply elem_of_nil in Hin |].
  destruct (reconcile_returns _ _ 0%nat _ _ Hloop) as (new & Hout & Hnew).
  rewrite app_nil_l in Hout. subst new.
  assert (Forall (λ r, ∃ p, p ∈ filtered_chunks metadata_store area tag
                            ∧ r = excerpt_of p.2) results) as Hall.
  { eapply Forall2_Forall_r; [exact Hnew |]. apply Forall_forall.
    intros j _ r' (_ & idx & p & _ & _ & Hget & ->). exists p.
    split; [by apply list_getitem_elem_of in Hget | done]. }
  rewrite Forall_forall in Hall. destruct (Hall r Hin) as ([i c] & Hp & ->).
  apply elem_of_filtered_chunks in Hp as [Hi Hc].
  apply chunk_matches_true_iff in Hc as [Ha Hlev].
  by exists tag, i, c.
Qed.

(** The retriever lets two exceptions out and no other: [KeyError] for a
    level that is not a label of the selector, and [IndexError] from line 67. *)
Theorem retriever_raises_only_key_or_index_error (e : exn) :
  (query_graph_rag w metadata_store query area level top_k).2 = inl e →
  (e = KeyError level ∧ level ∉ levels) ∨ e = IndexError.
Proof.
  rewrite retriever_value.
  destruct (SentenceTransformer w model_name) as [e0|m]; [done |].
  destruct (level_map !! level) as [tag|] eqn:Hl.
  - destruct (filtered_chunks metadata_store area tag) as [|p filtered]; [done |].
    destruct (second_try w m (texts_of (p :: filtered)) query top_k).2 as [e1|found];
      [done |].
    intros H. right. by apply reconcile_raises_index_error in H.
  - intros [= <-]. left. split; [done |]. intros Hin.
    apply level_of_selector_is_mapped in Hin as [tag Htag]. congruence.
Qed.

(** A retrieval in which no collaborator raises asks the model for one
    embedding per chunk of the view, in the order of the view, then for the
    embedding of the query, and searches the index once with that embedding. *)
Theorem successful_retrieval_trace (m : model embedding) (tag : string)
    (q : embedding) (found : search_result distance) :
  SentenceTransformer w model_name = inr m →
  level_map !! level = Some tag →
  filtered_chunks metadata_store area tag ≠ [] →
  (∀ p, p ∈ filtered_chunks metadata_store area tag →
        ∃ v, encode m (Chunk.text p.2) = inr v) →
  encode m query = inr q →
  index_search w q top_k = inr found →
  (query_graph_rag w metadata_store query area level top_k).1
  = ([EvLoadModel model_name]
     ++ map EvEncode (texts_of (filtered_chunks metadata_store area tag))
     ++ [EvEncode query; EvSearch q top_k])%list.
Proof.
  intros Hm Hl Hne Hok Hq Hs.
  destruct (mapM_encode_returns m (texts_of (filtered_chunks metadata_store area tag)))
    as [vs Hvs].
  { intros t Ht. apply list_elem_of_fmap in Ht as (p & -> & Hp). by apply Hok. }
  assert (second_try w m (texts_of (filtered_chunks metadata_store area tag)) query top_k
          = ((map EvEncode (texts_of (filtered_chunks metadata_store area tag))
              ++ [EvEncode query; EvSearch q top_k])%list, inr found)) as Hst.
  { unfold second_try. rewrite Hvs. rewrite (bind_returns _ _ vs) by done. cbn [fst snd].
    rewrite (bind_returns _ _ q) by (simpl; exact Hq). simpl. by rewrite Hs. }
  rewrite (retriever_searched _ _ _ _ _ _ m tag found Hm Hl Hne) by (by rewrite Hst).
  by rewrite Hst.
Qed.

End RetrieverExtras.

(** ** The relevance gate *)

Lemma append_length (a b : string) :
  String.length (a +:+ b) = (String.length a + String.length b)%nat.
Proof. induction a as [|c a IH]; [done |]. rewrite append_cons. simpl. by rewrite IH. Qed.

Lemma subject_keywords_ascii_long (subject : string) (keywords : list string)
    (keyword : string) :
  subject_keywords !! subject = Some keywords → keyword ∈ keywords →
  ascii_only keyword = true ∧ (3 ≤ String.length keyword)%nat.
Proof.
  intros Hs Hk.
  apply elem_of_map_to_list, list_elem_of_In in Hs.
  replace (map_to_list subject_keywords) with
    [("Science", ["plant"; "animal"; "weather"; "space"; "rock"; "water"; "light"; "sound"]);
     ("Mathematics", ["number"; "count"; "add"; "subtract"; "multiply"; "divide"; "shape"]);
     ("English", ["reading"; "writing"; "story"; "words"; "sentence"; "book"; "letter"])]
    in Hs by (vm_compute; reflexivity).
  simpl in Hs.
  repeat (destruct Hs as [Hs|Hs]); try contradiction; injection Hs as <- <-;
    list_cases Hk; (split; [reflexivity | simpl; lia]).
Qed.

(** Text put before and after a relevant query leaves it relevant: the gate
    looks for a keyword anywhere in the query, and the keywords are ASCII,
    which lower-casing yields from the same code points wherever they stand.
    The text before and the query are well-formed UTF-8, as every [str] is. *)
Theorem relevance_survives_context (query subject before after : string) :
  well_formed_utf8 before = true → well_formed_utf8 query = true →
  is_query_relevant query subject = true →
  is_query_relevant (before +:+ query +:+ after) subject = true.
Proof.
  intros Hb Hq. unfold is_query_relevant, dict_get. rewrite !existsb_exists.
  intros (keyword & Hin & Hc). exists keyword. split; [done |].
  destruct (subject_keywords !! subject) as [keywords|] eqn:Hs; simpl in Hin; [| done].
  apply list_elem_of_In in Hin.
  destruct (subject_keywords_ascii_long subject keywords keyword Hs Hin) as [Hk _].
  apply str_contains_true_iff in Hc. apply str_contains_true_iff.
  by apply keyword_in_lower_context.
Qed.

(** A query of fewer than three bytes, the empty query among them, is
    relevant to no subject: every keyword of the table has three ASCII bytes
    or more, and lower-casing yields one ASCII byte per code point at most. *)
Theorem short_query_is_never_relevant (query subject : string) :
  (String.length query < 3)%nat → is_query_relevant query subject = false.
Proof.
  intros Hlen. apply not_true_is_false. intros H.
  unfold is_query_relevant, dict_get in H. apply existsb_exists in H as (keyword & Hin & Hc).
  destruct (subject_keywords !! subject) as [keywords|] eqn:Hs; simpl in Hin; [| done].
  apply list_elem_of_In in Hin.
  destruct (subject_keywords_ascii_long subject keywords keyword Hs Hin) as [Hk Hlong].
  apply str_contains_true_iff in Hc.
  pose proof (keyword_in_lower_length keyword query Hk Hc). lia.
Qed.

(** * The area selector *)

Lemma string_compare_le_trans (a b c : string) :
  String.compare a b ≠ Gt → String.compare b c ≠ Gt → String.compare a c ≠ Gt.
Proof.
  revert b c. induction a as [|x a IH]; intros b c; [by destruct c |].
  destruct b as [|y b]; [done |]. destruct c as [|z c]; [done |]. simpl.
  unfold Ascii.compare.
  destruct (N.compare_spec (N_of_ascii x) (N_of_ascii y)) as [Hxy|Hxy|Hxy]; [| | done];
    destruct (N.compare_spec (N_of_ascii y) (N_of_ascii z)) as [Hyz|Hyz|Hyz];
    try done; intros Hab Hbc.
  - rewrite Hxy, Hyz, N.compare_refl. by apply (IH b c).
  - by rewrite (proj2 (N.compare_lt_iff _ _)) by lia.
  - by rewrite (proj2 (N.compare_lt_iff _ _)) by lia.
  - by rewrite (proj2 (N.compare_lt_iff _ _)) by lia.
Qed.

Lemma str_le_compare (a b : string) : str_le a b ↔ String.compare a b ≠ Gt.
Proof. unfold str_le, String.leb. by destruct (String.compare a b). Qed.

#[global] Instance str_le_transitive : Transitive str_le.
Proof. intros a b c. rewrite !str_le_compare. apply string_compare_le_trans. Qed.

#[global] Instance str_le_total : Total str_le.
Proof. intros a b. apply String.leb_total. Qed.

Lemma elem_of_sorted_set (items : list string) (x : string) :
  x ∈ sorted_set items ↔ x ∈ items.
Proof. unfold sorted_set. by rewrite merge_sort_Permutation, elem_of_remove_dups. Qed.

Lemma elem_of_learning_areas {ident} (metadata_store : list (Chunk.t ident)) (area : string) :
  area ∈ learning_areas metadata_store ↔
  ∃ i c, metadata_store !! i = Some c ∧ Metadata.learning_area (Chunk.metadata c) = area.
Proof.
  unfold learning_areas. rewrite elem_of_sorted_set, list_elem_of_fmap. split.
  - intros (c & -> & Hc). apply list_elem_of_lookup_1 in Hc as [i Hi]. by exists i, c.
  - intros (i & c & Hi & <-). exists c. split; [done |]. by apply list_elem_of_lookup_2 in Hi.
Qed.

(** The subject selector offers exactly the learning areas that occur in the
    corpus, each once, in ascending order of their bytes. *)
Theorem learning_areas_are_the_sorted_areas {ident} (metadata_store : list (Chunk.t ident)) :
  (∀ area, area ∈ learning_areas metadata_store ↔
     ∃ i c, metadata_store !! i = Some c
            ∧ Metadata.learning_area (Chunk.metadata c) = area)
  ∧ NoDup (learning_areas metadata_store)
  ∧ StronglySorted str_le (learning_areas metadata_store).
Proof.
  split; [apply elem_of_learning_areas |]. unfold learning_areas, sorted_set. split.
  - rewrite merge_sort_Permutation. apply NoDup_remove_dups.
  - apply StronglySorted_merge_sort; apply _.
Qed.

(** Line 210 asks for the position of Science among the areas.  The lookup
    fails (Python raises [ValueError]) exactly when no chunk of the corpus is
    in Science; when it succeeds the position holds Science. *)
Theorem default_area_needs_a_science_chunk {ident} (metadata_store : list (Chunk.t ident)) :
  (default_area_index metadata_store = None ↔
     ∀ i c, metadata_store !! i = Some c →
            Metadata.learning_area (Chunk.metadata c) ≠ "Science")
  ∧ (∀ k, default_area_index metadata_store = Some k →
          learning_areas metadata_store !! k = Some "Science").
Proof.
  unfold default_area_index, list_index. split.
  - rewrite fmap_None, list_find_None, Forall_forall. split.
    + intros H i c Hi Hc. apply (H "Science"); [| done].
      apply elem_of_learning_areas. by exists i, c.
    + intros H area Hin ->. apply elem_of_learning_areas in Hin as (i & c & Hi & Hc).
      by apply (H i c).
  - intros k Hk. apply fmap_Some in Hk as ([k' x] & Hfind & ->).
    apply list_find_Some in Hfind as (Hl & -> & _). done.
Qed.

(** An area with a non-empty Filtered View, at whatever level, is one of the
    areas the selector offers. *)
Theorem area_of_nonempty_view_is_offered {ident} (metadata_store : list (Chunk.t ident))
    (area tag : string) :
  filtered_chunks metadata_store area tag ≠ [] → area ∈ learning_areas metadata_store.
Proof.
  intros Hne. destruct (filtered_chunks metadata_store area tag) as [|[i c] rest] eqn:Ef;
    [done |].
  assert ((i, c) ∈ filtered_chunks metadata_store area tag) as Hin by (rewrite Ef; left).
  apply elem_of_filtered_chunks in Hin as [Hi Hc].
  apply chunk_matches_true_iff in Hc as [Ha _].
  apply elem_of_learning_areas. by exists i, c.
Qed.

(** * The PDF story *)

Lemma split_lines_nonempty (s : string) : split_lines s ≠ [].
Proof.
  destruct s as [|c s]; simpl; [done |].
  destruct (Ascii.eqb c newline); [done |]. by destruct (split_lines s).
Qed.

Lemma split_lines_app_newline (a b : string) :
  split_lines (a +:+ String newline b) = (split_lines a ++ split_lines b)%list.
Proof.
  induction a as [|c a IH]; [done |]. rewrite append_cons. simpl.
  destruct (Ascii.eqb c newline); [by rewrite IH |]. rewrite IH.
  pose proof (split_lines_nonempty a). by destruct (split_lines a).
Qed.

(** ** Stripping *)

Lemma has_byte_app (c : ascii) (a b : string) :
  has_byte c (a +:+ b) = has_byte c a || has_byte c b.
Proof. induction a as [|x a IH]; [done |]. rewrite append_cons. simpl. by rewrite IH, orb_assoc. Qed.

Lemma append_nil_r (s : string) : s +:+ "" = s.
Proof. induction s as [|c s IH]; [done |]. by rewrite append_cons, IH. Qed.

Lemma string_rev_app (a b : string) : string_rev (a +:+ b) = string_rev b +:+ string_rev a.
Proof.
  induction a as [|c a IH]; [simpl; by rewrite append_nil_r |].
  rewrite append_cons. simpl. by rewrite IH, append_assoc.
Qed.

Lemma string_rev_involutive (s : string) : string_rev (string_rev s) = s.
Proof. induction s as [|c s IH]; [done |]. simpl. by rewrite string_rev_app, IH. Qed.

Lemma has_byte_rev (c : ascii) (s : string) : has_byte c (string_rev s) = has_byte c s.
Proof.
  induction s as [|x s IH]; [done |]. simpl. rewrite has_byte_app, IH. simpl.
  rewrite orb_false_r. apply orb_comm.
Qed.

Lemma lstrip_is_suffix (s : string) : ∃ before, s = before +:+ lstrip s.
Proof.
  remember (String.length s) as n eqn:Hn. revert s Hn.
  induction n as [n IH] using lt_wf_ind. intros s Hn.
  destruct s as [|c1 s1]; [by exists "" |]. cbn [lstrip].
  destruct (ascii_space c1).
  { destruct (IH (String.length s1) ltac:(simpl in Hn; lia) s1 eq_refl) as [b Hb].
    exists (String c1 b). by rewrite append_cons, <- Hb. }
  destruct s1 as [|c2 s2]; [by exists "" |].
  match goal with |- context [if ?b then _ else _] => destruct b end.
  { destruct (IH (String.length s2) ltac:(simpl in Hn; lia) s2 eq_refl) as [b Hb].
    exists (String c1 (String c2 b)). by rewrite !append_cons, <- Hb. }
  destruct s2 as [|c3 s3]; [by exists "" |].
  match goal with |- context [if ?b then _ else _] => destruct b end; [| by exists ""].
  destruct (IH (String.length s3) ltac:(simpl in Hn; lia) s3 eq_refl) as [b Hb].
  exists (String c1 (String c2 (String c3 b))). by rewrite !append_cons, <- Hb.
Qed.

Lemma lstrip_reversed_is_suffix (s : string) : ∃ before, s = before +:+ lstrip_reversed s.
Proof.
  remember (String.length s) as n eqn:Hn. revert s Hn.
  induction n as [n IH] using lt_wf_ind. intros s Hn.
  destruct s as [|c1 s1]; [by exists "" |]. cbn [lstrip_reversed].
  destruct (ascii_space c1).
  { destruct (IH (String.length s1) ltac:(simpl in Hn; lia) s1 eq_refl) as [b Hb].
    exists (String c1 b). by rewrite append_cons, <- Hb. }
  destruct s1 as [|c2 s2]; [by exists "" |].
  match goal with |- context [if ?b then _ else _] => destruct b end.
  { destruct (IH (String.length s2) ltac:(simpl in Hn; lia) s2 eq_refl) as [b Hb].
    exists (String c1 (String c2 b)). by rewrite !append_cons, <- Hb. }
  destruct s2 as [|c3 s3]; [by exists "" |].
  match goal with |- context [if ?b then _ else _] => destruct b end; [| by exists ""].
  destruct (IH (String.length s3) ltac:(simpl in Hn; lia) s3 eq_refl) as [b Hb].
  exists (String c1 (String c2 (String c3 b))). by rewrite !append_cons, <- Hb.
Qed.

(** What is left of the reversed string does not begin with an ASCII
    white-space byte. *)
Lemma lstrip_reversed_head (s : string) (c : ascii) (rest : string) :
  lstrip_reversed s = String c rest → ascii_space c = false.
Proof.
  remember (String.length s) as n eqn:Hn. revert s Hn.
  induction n as [n IH] using lt_wf_ind. intros s Hn.
  destruct s as [|c1 s1]; [done |]. cbn [lstrip_reversed].
  destruct (ascii_space c1) eqn:Hc1.
  { apply (IH (String.length s1)); [simpl in Hn; lia | done]. }
  destruct s1 as [|c2 s2]; [by intros [= <- _] |].
  match goal with |- context [if ?b then _ else _] => destruct b end.
  { apply (IH (String.length s2)); [simpl in Hn; lia | done]. }
  destruct s2 as [|c3 s3]; [by intros [= <- _] |].
  match goal with |- context [if ?b then _ else _] => destruct b end;
    [| by intros [= <- _]].
  apply (IH (String.length s3)); [simpl in Hn; lia | done].
Qed.

(** Stripping keeps a piece of the string. *)
Lemma strip_is_infix (s : string) : ∃ before after, s = before +:+ strip s +:+ after.
Proof.
  unfold strip, rstrip. destruct (lstrip_is_suffix s) as [before Hb].
  destruct (lstrip_reversed_is_suffix (string_rev (lstrip s))) as [after Ha].
  exists before, (string_rev after).
  rewrite <- string_rev_app, <- Ha, string_rev_involutive. exact Hb.
Qed.

Lemma strip_keeps_no_byte (c : ascii) (s : string) :
  has_byte c s = false → has_byte c (strip s) = false.
Proof.
  destruct (strip_is_infix s) as (before & after & H). intros Hs.
  rewrite H, !has_byte_app in Hs. apply orb_false_iff in Hs as [_ Hs].
  by apply orb_false_iff in Hs as [Hs _].
Qed.

(** A stripped string does not end with a space. *)
Lemma strip_not_ending_with_space (s before : string) : strip s ≠ before +:+ " ".
Proof.
  unfold strip, rstrip. intros H. apply (f_equal string_rev) in H.
  rewrite string_rev_involutive, string_rev_app in H. simpl in H.
  by apply lstrip_reversed_head in H.
Qed.

Lemma split_lines_no_newline (s line : string) :
  line ∈ split_lines s → has_byte newline line = false.
Proof.
  revert line. induction s as [|c s IH]; intros line; simpl.
  - intros H. apply list_elem_of_singleton in H. by subst.
  - destruct (Ascii.eqb c newline) eqn:Hc.
    + intros H. apply elem_of_cons in H as [-> | H]; [done | by apply IH].
    + pose proof (split_lines_nonempty s) as Hne.
      destruct (split_lines s) as [|l ls]; [done |].
      intros H. apply elem_of_cons in H as [-> | H].
      * simpl. rewrite Hc. apply IH. by left.
      * apply IH. by right.
Qed.

(** ** Headings and footers *)

Lemma re_sub_heading_scan_in_group (s : string) :
  has_byte newline s = false → re_sub_heading_scan true s = s.
Proof.
  induction s as [|c s IH]; [done |]. simpl. intros H.
  apply orb_false_iff in H as [Hc Hs]. rewrite Hc. cbn [negb]. by rewrite IH.
Qed.

Lemma prefix_app (p s : string) : String.prefix p (p +:+ s) = true.
Proof. apply prefix_true_iff. by exists s. Qed.

Lemma str_replace_from_nil (fuel : nat) (old new : string) :
  str_replace_from fuel old new "" = "".
Proof. by destruct fuel. Qed.

Lemma str_replace_from_step (fuel : nat) (old new : string) (c : ascii) (s : string) :
  str_replace_from (S fuel) old new (String c s)
  = if String.prefix old (String c s)
    then new +:+ str_replace_from fuel old new
                   (string_drop (String.length old) (String c s))
    else String c (str_replace_from fuel old new s).
Proof. reflexivity. Qed.

Lemma prefix_other_head (a c : ascii) (p s : string) :
  Ascii.eqb c a = false → String.prefix (String a p) (String c s) = false.
Proof.
  intros H. simpl. destruct (ascii_dec a c) as [-> | _]; [| done].
  by rewrite Ascii.eqb_refl in H.
Qed.

Lemma str_replace_stars_at_end (fuel : nat) (text : string) :
  has_byte "*" text = false → (String.length text < fuel)%nat →
  str_replace_from fuel "**" "" (text +:+ "**") = text.
Proof.
  revert fuel. induction text as [|c text IH]; intros fuel Hstar Hlen.
  - destruct fuel as [|fuel]; [simpl in Hlen; lia |].
    change ("" +:+ "**") with (String "*" "*"). rewrite str_replace_from_step.
    change (String.prefix "**" "**") with true. cbn iota.
    change (string_drop (String.length "**") "**") with "".
    by rewrite str_replace_from_nil.
  - destruct fuel as [|fuel]; [simpl in Hlen; lia |].
    simpl in Hstar. apply orb_false_iff in Hstar as [Hc Hstar].
    rewrite append_cons, str_replace_from_step, prefix_other_head by done.
    rewrite IH; [done | done | simpl in Hlen; lia].
Qed.

(** ** The story, paragraph by paragraph *)

Lemma heading_title (content raw : string) :
  raw ∈ split_lines content → startswith (strip raw) "### " = true →
  ∃ title, strip raw = "### " +:+ title ∧ title ≠ "" ∧ re_sub_heading (strip raw) = title.
Proof.
  intros Hraw Hstart. pose proof Hstart as Hp.
  apply prefix_true_iff in Hp as [title Htitle]. exists title.
  assert (title ≠ "") as Hne.
  { intros ->. by apply (strip_not_ending_with_space raw "###"). }
  split; [done |]. split; [done |].
  assert (has_byte newline title = false) as Hnl.
  { apply split_lines_no_newline, (strip_keeps_no_byte newline) in Hraw.
    rewrite Htitle, has_byte_app in Hraw. by apply orb_false_iff in Hraw as [_ ?]. }
  rewrite Htitle. destruct title as [|x title]; [done |].
  simpl in Hnl. apply orb_false_iff in Hnl as [Hx Hnl].
  unfold re_sub_heading. rewrite !append_cons, append_nil_l. cbn [re_sub_heading_scan].
  rewrite Hx. by rewrite re_sub_heading_scan_in_group.
Qed.

Lemma footer_text (line text : string) :
  line = "**" +:+ text +:+ "**" → has_byte "*" text = false →
  startswith line "### " = false ∧ String.eqb line "---" = false
  ∧ startswith line "**" && endswith line "**" = true
  ∧ str_replace line "**" "" = text.
Proof.
  intros -> Hstar. split; [done |]. split; [done |]. split.
  - apply andb_true_iff. split; [apply prefix_app |].
    unfold endswith. rewrite !string_rev_app.
    change (string_rev "**") with "**". rewrite append_assoc. apply prefix_app.
  - unfold str_replace. rewrite !append_length.
    change (String.length "**") with 2%nat. cbn [Nat.add].
    change ("**" +:+ text +:+ "**") with (String "*" (String "*" (text +:+ "**"))).
    rewrite str_replace_from_step.
    change (String "*" (String "*" (text +:+ "**"))) with ("**" +:+ (text +:+ "**")) at 1.
    rewrite prefix_app.
    change (string_drop (String.length "**") (String "*" (String "*" (text +:+ "**"))))
      with (text +:+ "**").
    rewrite append_nil_l. apply str_replace_stars_at_end; [done | lia].
Qed.

Section Story.
Context {embedding distance pdf : Type} (w : app_world embedding distance pdf).

Local Abbreviation computation A := (run (page_event embedding pdf) A).

Lemma builds_paragraphs_ret {A} (a : A) : builds_paragraphs w (mret a : computation A).
Proof. split; [done | intros e H; done]. Qed.

Lemma builds_paragraphs_bind {A B} (m : computation A) (f : A → computation B) :
  builds_paragraphs w m → (∀ a, builds_paragraphs w (f a)) → builds_paragraphs w (m ≫= f).
Proof.
  intros [Hm1 Hm2] Hf. destruct m as [t [e|a]]; cbn [fst snd] in Hm1, Hm2; subst t.
  - rewrite (bind_raises _ _ e) by done. split; [done |]. intros e' [= <-]. by apply Hm2.
  - rewrite (bind_returns _ _ a) by done. destruct (Hf a) as [Hf1 Hf2].
    cbn [fst snd app]. by split.
Qed.

Lemma new_paragraph_eq (text : string) (style : paragraph_style) :
  new_paragraph w text style
  = ([], match paragraph_raises w text style with
         | Some e => inl e
         | None => inr (Paragraph text style)
         end).
Proof. reflexivity. Qed.

Lemma new_paragraph_builds (text : string) (style : paragraph_style) :
  builds_paragraphs w (new_paragraph w text style).
Proof.
  rewrite new_paragraph_eq. split; [done |]. cbn [snd]. intros e H.
  destruct (paragraph_raises w text style) as [e'|] eqn:Hp; [| done].
  injection H as <-. by exists text, style.
Qed.

Lemma flush_section_builds (story : list flowable) (current_section : list string) :
  builds_paragraphs w (flush_section w story current_section).
Proof.
  destruct current_section as [|line rest]; [apply builds_paragraphs_ret |].
  apply builds_paragraphs_bind; [apply new_paragraph_builds |].
  intros body. apply builds_paragraphs_ret.
Qed.

Lemma story_step_builds (state : list flowable * list string) (raw : string) :
  builds_paragraphs w (story_step w state raw).
Proof.
  destruct state as [story current_section]. unfold story_step.
  repeat match goal with |- context [if ?b then _ else _] => destruct b end;
    repeat first [ apply builds_paragraphs_ret
                 | apply flush_section_builds
                 | apply new_paragraph_builds
                 | apply builds_paragraphs_bind; [| intros ?] ].
Qed.

Lemma story_loop_builds (state : list flowable * list string) (lines : list string) :
  builds_paragraphs w (story_loop w state lines).
Proof.
  revert state. induction lines as [|raw rest IH]; intros state;
    [apply builds_paragraphs_ret |].
  cbn [story_loop]. apply builds_paragraphs_bind; [apply story_step_builds | apply IH].
Qed.

Lemma create_pdf_story_builds (content : string) :
  builds_paragraphs w (create_pdf_story w content).
Proof.
  unfold create_pdf_story.
  apply builds_paragraphs_bind; [apply new_paragraph_builds | intros note].
  apply builds_paragraphs_bind; [apply story_loop_builds | intros state].
  apply flush_section_builds.
Qed.

Lemma story_loop_app (state : list flowable * list string) (lines1 lines2 : list string) :
  story_loop w state (lines1 ++ lines2)
  = (state ← story_loop w state lines1; story_loop w state lines2).
Proof.
  revert state. induction lines1 as [|raw rest IH]; intros state.
  - cbn [story_loop app]. by rewrite run_bind_ret_l.
  - cbn [story_loop app]. rewrite run_bind_assoc. apply run_bind_ext. apply IH.
Qed.

Lemma story_step_blank (state : list flowable * list string) (raw : string) :
  strip raw = "" → story_step w state raw = mret state.
Proof. intros H. destruct state as [story current]. unfold story_step. by rewrite H. Qed.

Lemma story_loop_blank (state : list flowable * list string) (blanks : list string) :
  Forall (λ line, strip line = "") blanks → story_loop w state blanks = mret state.
Proof.
  intros H. revert state. induction H as [|raw blanks Hraw _ IH]; intros state; [done |].
  cbn [story_loop]. by rewrite story_step_blank, run_bind_ret_l, IH.
Qed.

(** Lines that are empty once stripped change nothing, wherever they stand:
    in particular an empty line between two lines of text does not end the
    paragraph, the two lines land in the same body paragraph.  With or
    without them the same paragraphs are constructed in the same order, so
    the same story is built or the same exception raised. *)
Theorem blank_lines_change_nothing (before blank after : string) :
  Forall (λ line, strip line = "") (split_lines blank) →
  create_pdf_story w (before +:+ String newline (blank +:+ String newline after))
  = create_pdf_story w (before +:+ String newline after).
Proof.
  intros Hblank. unfold create_pdf_story. apply run_bind_ext. intros note.
  rewrite !split_lines_app_newline, !story_loop_app. f_equal.
  apply run_bind_ext. intros state.
  by rewrite story_loop_app, (story_loop_blank _ (split_lines blank)), run_bind_ret_l.
Qed.

Lemma story_step_plain (story : list flowable) (current : list string) (raw : string) :
  is_plain_line raw = true →
  story_step w (story, current) raw
  = mret (story, (current ++ List.filter (λ line, negb (String.eqb line "")) [strip raw])%list).
Proof.
  unfold is_plain_line, story_step. cbn zeta.
  destruct (startswith (strip raw) "### "); [done |].
  destruct (String.eqb (strip raw) "---"); [done |].
  destruct (startswith (strip raw) "**" && endswith (strip raw) "**"); [done |].
  intros _. simpl. destruct (String.eqb (strip raw) ""); simpl; [| done].
  by rewrite app_nil_r.
Qed.

Lemma story_loop_plain (lines : list string) (story : list flowable) (current : list string) :
  forallb is_plain_line lines = true →
  story_loop w (story, current) lines
  = mret (story, (current ++ List.filter (λ line, negb (String.eqb line ""))
                                          (map strip lines))%list).
Proof.
  revert story current. induction lines as [|raw lines IH]; intros story current H;
    cbn [story_loop map].
  - simpl. by rewrite app_nil_r.
  - simpl in H. apply andb_true_iff in H as [Hraw Hrest].
    rewrite story_step_plain, run_bind_ret_l by done. rewrite IH by done.
    cbn [List.filter]. destruct (negb (String.eqb (strip raw) "")).
    + by rewrite <- app_assoc.
    + by rewrite app_nil_r.
Qed.

Lemma create_pdf_story_plain (content : string) :
  forallb is_plain_line (split_lines content) = true →
  create_pdf_story w content
  = ([], match paragraph_raises w curriculum_note_text note_style with
         | Some e => inl e
         | None =>
             match List.filter (λ line, negb (String.eqb line ""))
                               (map strip (split_lines content)) with
             | [] => inr [curriculum_note; Spacer 1 12]
             | line :: rest =>
                 match paragraph_raises w (join "<br/>" (line :: rest)) body_style with
                 | Some e => inl e
                 | None =>
                     inr [curriculum_note; Spacer 1 12;
                          Paragraph (join "<br/>" (line :: rest)) body_style]
                 end
             end
         end).
Proof.
  intros Hplain. unfold create_pdf_story. rewrite new_paragraph_eq.
  destruct (paragraph_raises w curriculum_note_text note_style) as [e|];
    [by rewrite (bind_raises _ _ e) |].
  rewrite (bind_returns _ _ curriculum_note) by done. cbn [fst snd].
  rewrite story_loop_plain, run_bind_ret_l by done. cbn [fst snd app].
  destruct (List.filter _ _) as [|line rest]; [done |].
  unfold flush_section. rewrite new_paragraph_eq.
  destruct (paragraph_raises w (join "<br/>" (line :: rest)) body_style) as [e|];
    [by rewrite (bind_raises _ _ e) |].
  by rewrite (bind_returns _ _ (Paragraph (join "<br/>" (line :: rest)) body_style)).
Qed.

(** A text without heading, rule or footer lines: after the curriculum note
    the function constructs one body paragraph from its lines, stripped, the
    empty ones left out, joined by line breaks.  If the library raises on the
    note or on that text, the exception leaves the function and no story is
    built; if every line is empty the note stands alone. *)
Theorem plain_text_is_one_paragraph (content : string) :
  forallb is_plain_line (split_lines content) = true →
  create_pdf_story w content
  = ([], match paragraph_raises w curriculum_note_text note_style with
         | Some e => inl e
         | None =>
             match List.filter (λ line, negb (String.eqb line ""))
                               (map strip (split_lines content)) with
             | [] => inr [curriculum_note; Spacer 1 12]
             | line :: rest =>
                 match paragraph_raises w (join "<br/>" (line :: rest)) body_style with
                 | Some e => inl e
                 | None =>
                     inr [curriculum_note; Spacer 1 12;
                          Paragraph (join "<br/>" (line :: rest)) body_style]
                 end
             end
         end).
Proof. apply create_pdf_story_plain. Qed.

(** A line whose stripped form starts with the heading marker: the pending
    section is flushed, then a title paragraph is constructed and a spacer
    follows it.  The title is the stripped line without the four bytes of the
    marker, and it is not empty.  If the library raises on the pending
    section or on the title, the exception leaves the step. *)
Theorem heading_line_gives_its_text (content raw : string)
    (story : list flowable) (current_section : list string) :
  raw ∈ split_lines content →
  startswith (strip raw) "### " = true →
  ∃ title, strip raw = "### " +:+ title ∧ title ≠ ""
    ∧ story_step w (story, current_section) raw
      = (flushed ← flush_section w story current_section;
         heading ← new_paragraph w title title_style;
         mret ((flushed ++ [heading; Spacer 1 12])%list, []))
    ∧ (∀ flushed,
         flush_section w story current_section = ([], inr flushed) →
         story_step w (story, current_section) raw
         = ([], match paragraph_raises w title title_style with
                | Some e => inl e
                | None => inr ((flushed ++ [Paragraph title title_style; Spacer 1 12])%list,
                               [])
                end)).
Proof.
  intros Hraw Hstart.
  destruct (heading_title content raw Hraw Hstart) as (title & Htitle & Hne & Hsub).
  exists title. split; [done |]. split; [done |].
  assert (story_step w (story, current_section) raw
          = (flushed ← flush_section w story current_section;
             heading ← new_paragraph w title title_style;
             mret ((flushed ++ [heading; Spacer 1 12])%list, []))) as Hstep.
  { unfold story_step. cbn zeta. by rewrite Hstart, Hsub. }
  split; [exact Hstep |]. intros flushed Hflush. rewrite Hstep, Hflush.
  rewrite (bind_returns _ _ flushed) by done. cbn [fst snd app]. rewrite new_paragraph_eq.
  destruct (paragraph_raises w title title_style) as [e|];
    [by rewrite (bind_raises _ _ e) |].
  by rewrite (bind_returns _ _ (Paragraph title title_style)).
Qed.

(** A line that, stripped, is a text without star between two pairs of
    stars: the pending section is flushed, then a footer paragraph is
    constructed from that text.  If the library raises on the pending section
    or on the text, the exception leaves the step. *)
Theorem footer_line_gives_its_text (raw text : string)
    (story : list flowable) (current_section : list string) :
  strip raw = "**" +:+ text +:+ "**" →
  has_byte "*" text = false →
  story_step w (story, current_section) raw
  = (flushed ← flush_section w story current_section;
     closing ← new_paragraph w text footer_style;
     mret ((flushed ++ [closing])%list, []))
  ∧ (∀ flushed,
       flush_section w story current_section = ([], inr flushed) →
       story_step w (story, current_section) raw
       = ([], match paragraph_raises w text footer_style with
              | Some e => inl e
              | None => inr ((flushed ++ [Paragraph text footer_style])%list, [])
              end)).
Proof.
  intros Hline Hstar.
  destruct (footer_text (strip raw) text Hline Hstar) as (H1 & H2 & H3 & H4).
  assert (story_step w (story, current_section) raw
          = (flushed ← flush_section w story current_section;
             closing ← new_paragraph w text footer_style;
             mret ((flushed ++ [closing])%list, []))) as Hstep.
  { unfold story_step. cbn zeta. by rewrite H1, H2, H3, H4. }
  split; [exact Hstep |]. intros flushed Hflush. rewrite Hstep, Hflush.
  rewrite (bind_returns _ _ flushed) by done. cbn [fst snd app]. rewrite new_paragraph_eq.
  destruct (paragraph_raises w text footer_style) as [e|];
    [by rewrite (bind_raises _ _ e) |].
  by rewrite (bind_returns _ _ (Paragraph text footer_style)).
Qed.

End Story.

(** * The page around the retriever *)

Lemma mapM_evaluate_trace {E A} (outcomes : list (exn + A)) :
  (mapM (M:=run E) evaluate outcomes).1 = [].
Proof.
  induction outcomes as [|o outcomes IH]; [done |]. cbn [mapM].
  destruct o as [e|a]; [by rewrite (bind_raises _ _ e) |].
  rewrite (bind_returns _ _ a) by done. cbn [fst snd evaluate app].
  destruct (mapM (M:=run E) evaluate outcomes) as [t [e|l]] eqn:Em; simpl in IH; subst t.
  - by rewrite (bind_raises _ _ e).
  - by rewrite (bind_returns _ _ l).
Qed.

Lemma mapM_evaluate_returns {E A} (values : list A) :
  mapM (M:=run E) evaluate (map inr values) = ([], inr values).
Proof.
  induction values as [|a values IH]; [done |]. cbn [mapM map].
  rewrite (bind_returns _ _ a) by done. rewrite IH.
  by rewrite (bind_returns _ _ values).
Qed.

Lemma mapM_evaluate_raises {E A} (outcomes : list (exn + A)) (e : exn) :
  inl e ∈ outcomes → ∃ e', (mapM (M:=run E) evaluate outcomes).2 = inl e'.
Proof.
  induction outcomes as [|o outcomes IH]; intros Hin; [by apply elem_of_nil in Hin |].
  cbn [mapM]. destruct o as [e0|a]; [exists e0; by rewrite (bind_raises _ _ e0) |].
  apply elem_of_cons in Hin as [? | Hin]; [done |].
  destruct (IH Hin) as [e' He']. exists e'.
  rewrite (bind_returns _ _ a) by done. by rewrite (bind_raises _ _ e').
Qed.

Section Page.
Context {ident embedding distance pdf : Type}.
Context (w : app_world embedding distance pdf) (metadata_store : list (Chunk.t ident)).

Local Abbreviation host := (default "localhost:11434" (getenv w "OLLAMA_HOST")).

Lemma get_ollama_models_eq :
  get_ollama_models w
  = match ollama_list w host with
    | inl e =>
        ([EvOllamaList host;
          EvError ("Failed to connect to the tutor robot: " +:+ exn_str e)],
         inr ["llama3"])
    | inr response =>
        match (mapM (M:=run (page_event embedding pdf)) evaluate
                    (dict_get response "models" [])).2 with
        | inl e =>
            ([EvOllamaList host;
              EvError ("Failed to connect to the tutor robot: " +:+ exn_str e)],
             inr ["llama3"])
        | inr models =>
            ([EvOllamaList host],
             inr (match models with [] => ["llama3"] | _ :: _ => models end))
        end
    end.
Proof.
  unfold get_ollama_models. cbn zeta.
  destruct (ollama_list w host) as [e|response] eqn:Hl.
  { rewrite (bind_returns _ _ (inl e)); [reflexivity |].
    unfold attempt. cbn [snd]. by rewrite (bind_raises _ _ e). }
  pose proof (mapM_evaluate_trace (E:=page_event embedding pdf)
                (dict_get response "models" [])) as Htr.
  destruct (mapM (M:=run (page_event embedding pdf)) evaluate
              (dict_get response "models" [])) as [t [e|models]] eqn:Em;
    simpl in Htr; subst t; cbn [snd].
  - assert ((call (EvOllamaList host) (inr response)
             ≫= λ response : gmap string (list (exn + string)),
                  mapM (M:=run (page_event embedding pdf)) evaluate
                       (dict_get response "models" [])
                  ≫= λ models : list string,
                       mret match models with
                            | [] => ["llama3"] | _ :: _ => models end)
            = ([EvOllamaList host], inl e)) as Hbody.
    { rewrite (bind_returns _ _ response) by done. cbn [fst snd]. rewrite Em.
      by rewrite (bind_raises _ _ e). }
    rewrite Hbody. by rewrite (bind_returns _ _ (inl e)).
  - assert ((call (EvOllamaList host) (inr response)
             ≫= λ response : gmap string (list (exn + string)),
                  mapM (M:=run (page_event embedding pdf)) evaluate
                       (dict_get response "models" [])
                  ≫= λ models : list string,
                       mret match models with
                            | [] => ["llama3"] | _ :: _ => models end)
            = ([EvOllamaList host],
               inr (match models with [] => ["llama3"] | _ :: _ => models end)))
      as Hbody.
    { rewrite (bind_returns _ _ response) by done. cbn [fst snd]. rewrite Em.
      by rewrite (bind_returns _ _ models). }
    rewrite Hbody.
    by rewrite (bind_returns _ _ (inr (match models with
                                       | [] => ["llama3"] | _ :: _ => models end))).
Qed.

(** The model selector always has a first entry: [get_ollama_models] raises
    nothing and returns a list that is not empty, whatever the server does. *)
Theorem ollama_models_never_empty :
  ∃ models, (get_ollama_models w).2 = inr models ∧ models ≠ [].
Proof.
  rewrite get_ollama_models_eq. destruct (ollama_list w host) as [e|response].
  { by exists ["llama3"]. }
  destruct (mapM evaluate (dict_get response "models" [])).2 as [e|models].
  { by exists ["llama3"]. }
  exists (match models with [] => ["llama3"] | _ :: _ => models end).
  split; [done | by destruct models].
Qed.

(** When the server cannot be listed, or the [model] attribute of one of its
    entries cannot be read, the one model offered is llama3 and the page
    shows one error. *)
Theorem ollama_failure_offers_llama3 :
  (∃ e, ollama_list w host = inl e)
  ∨ (∃ response e, ollama_list w host = inr response
                   ∧ inl e ∈ dict_get response "models" []) →
  (get_ollama_models w).2 = inr ["llama3"]
  ∧ length (List.filter is_page_error (get_ollama_models w).1) = 1%nat.
Proof.
  rewrite get_ollama_models_eq. intros [[e ->] | (response & e & -> & Hin)]; [done |].
  destruct (mapM_evaluate_raises (E:=page_event embedding pdf) _ e Hin) as [e' ->]. done.
Qed.

(** When the server lists its models, the selector offers their names in the
    order of the answer, or llama3 alone when the answer has no entry or no
    [models] key; the page shows no error. *)
Theorem ollama_models_are_the_listed_names (response : gmap string (list (exn + string)))
    (names : list string) :
  ollama_list w host = inr response →
  dict_get response "models" [] = map inr names →
  get_ollama_models w
  = ([EvOllamaList host],
     inr (match names with [] => ["llama3"] | _ :: _ => names end)).
Proof.
  intros Hl Hn. rewrite get_ollama_models_eq, Hl, Hn.
  by rewrite mapM_evaluate_returns.
Qed.

End Page.

Section Activity.
Context {ident embedding distance pdf : Type}.
Context (w : app_world embedding distance pdf) (metadata_store : list (Chunk.t ident)).
Context (question_type selected_level selected_area selected_model query : string).

Local Abbreviation retrieved :=
  (query_graph_rag (rag w) metadata_store query selected_area selected_level 3).
Local Abbreviation chosen :=
  (choose_prompt w metadata_store question_type selected_level selected_area query).
Local Abbreviation page :=
  (generate_activity w metadata_store question_type selected_level selected_area
                     selected_model query).

Lemma generate_activity_unfold :
  page
  = if String.eqb question_type "Custom" && String.eqb query "" then
      call (EvWarning "Please enter a query first.") (inr tt)
    else
      call (EvSpinner "Generating your activity...") (inr tt);;
      prompt ← chosen;
      response ← generate_response w selected_model prompt;
      show_activity w question_type selected_level response.
Proof.
  unfold generate_activity.
  destruct (String.eqb question_type "Custom" && String.eqb query ""); [done |].
  apply run_bind_ext. intros _. apply run_bind_ext. intros prompt.
  unfold generate_response. by rewrite run_bind_assoc.
Qed.

Lemma generation_body_eq (p : string) :
  (prompt ← evaluate (E:=page_event embedding pdf) (inr p);
   answer ← call (EvOllamaGenerate selected_model prompt)
                 (ollama_generate w selected_model prompt);
   evaluate (match answer !! "response" with
             | Some text => inr text
             | None => inl (KeyError "response")
             end))
  = ([EvOllamaGenerate selected_model p],
     match ollama_generate w selected_model p with
     | inl e => inl e
     | inr answer =>
         match answer !! "response" with
         | Some text => inr text
         | None => inl (KeyError "response")
         end
     end).
Proof.
  rewrite (bind_returns _ _ p) by done. cbn [fst snd evaluate app].
  destruct (ollama_generate w selected_model p) as [e|answer].
  - by rewrite (bind_raises _ _ e).
  - rewrite (bind_returns _ _ answer) by done. cbn [fst snd call evaluate].
    by rewrite app_nil_r.
Qed.

Lemma generate_response_eq (prompt : option string) :
  generate_response w selected_model prompt
  = match prompt with
    | None =>
        ([EvError "Error generating activity: name 'prompt' is not defined"],
         inr fallback_response)
    | Some p =>
        match ollama_generate w selected_model p with
        | inl e =>
            ([EvOllamaGenerate selected_model p;
              EvError ("Error generating activity: " +:+ exn_str e)],
             inr fallback_response)
        | inr answer =>
            match answer !! "response" with
            | Some text => ([EvOllamaGenerate selected_model p], inr text)
            | None =>
                ([EvOllamaGenerate selected_model p;
                  EvError "Error generating activity: 'response'"],
                 inr fallback_response)
            end
        end
    end.
Proof.
  unfold generate_response. destruct prompt as [p|]; [| reflexivity].
  rewrite generation_body_eq.
  destruct (ollama_generate w selected_model p) as [e|answer].
  - by rewrite (bind_returns _ _ (inl e)).
  - destruct (answer !! "response") as [text|].
    + by rewrite (bind_returns _ _ (inr text)).
    + by rewrite (bind_returns _ _ (inl (KeyError "response"))).
Qed.

Lemma create_pdf_eq (response : string) :
  create_pdf w response
  = match (create_pdf_story w response).2 with
    | inl e => ([], inl e)
    | inr story => ([EvDocBuild story], doc_build w story)
    end.
Proof.
  unfold create_pdf. destruct (create_pdf_story_builds w response) as [Htr _].
  destruct (create_pdf_story w response) as [t [e|story]]; cbn [fst snd] in *; subst t.
  - by rewrite (bind_raises _ _ e).
  - by rewrite (bind_returns _ _ story).
Qed.

Lemma show_activity_eq (response : string) :
  show_activity w question_type selected_level response
  = match (create_pdf_story w response).2 with
    | inl e =>
        ([EvMarkdown (activity_heading question_type selected_level);
          EvWrite response; EvMarkdown "---"; EvWrite "**Complete your activity!**"],
         inl e)
    | inr story =>
        (([EvMarkdown (activity_heading question_type selected_level);
           EvWrite response; EvMarkdown "---"; EvWrite "**Complete your activity!**";
           EvDocBuild story]
          ++ match doc_build w story with
             | inr data =>
                 [EvDownloadButton "Download as PDF" data
                                   (pdf_file_name question_type selected_level)
                                   "application/pdf"]
             | inl _ => []
             end)%list,
         match doc_build w story with
         | inr _ => inr tt
         | inl e => inl e
         end)
    end.
Proof.
  unfold show_activity. rewrite create_pdf_eq.
  destruct (create_pdf_story w response).2 as [e|story]; [done |].
  by destruct (doc_build w story).
Qed.

Lemma choose_prompt_custom :
  question_type = "Custom" →
  chosen
  = (map EvRetrieval retrieved.1,
     match retrieved.2 with
     | inl e => inl e
     | inr results =>
         inr (Some (if is_query_relevant query selected_area
                    then grounded_prompt selected_area selected_level query
                                         (retrieval_context results)
                    else redirect_prompt selected_area selected_level query))
     end).
Proof.
  intros ->. unfold choose_prompt. cbn [String.eqb Ascii.eqb Bool.eqb andb].
  change (String.eqb "Custom" "Custom") with true. cbn iota.
  destruct retrieved as [t [e|results]] eqn:Hr.
  - by rewrite (bind_raises _ _ e).
  - rewrite (bind_returns _ _ results) by done. cbn [fst snd lift_retrieval].
    destruct (is_query_relevant query selected_area); cbn; by rewrite app_nil_r.
Qed.

Lemma choose_prompt_fixed :
  question_type ≠ "Custom" → ∃ prompt, chosen = ([], inr prompt).
Proof.
  intros Hne. unfold choose_prompt.
  destruct (String.eqb_spec question_type "Custom") as [? | _]; [done |].
  destruct (String.eqb question_type "Story"); [by eexists |].
  destruct (String.eqb question_type "Maths"); [by eexists |].
  destruct (String.eqb question_type "Science"); by eexists.
Qed.

(** The page past its guard: the spinner, the choice of the prompt, the
    generator, the display. *)
Lemma page_after_guard :
  (question_type = "Custom" → query ≠ "") →
  page
  = match chosen.2 with
    | inl e => (EvSpinner "Generating your activity..." :: chosen.1, inl e)
    | inr prompt =>
        match (generate_response w selected_model prompt).2 with
        | inl e => ([], inl e)
        | inr response =>
            ((EvSpinner "Generating your activity..." :: chosen.1
              ++ (generate_response w selected_model prompt).1
              ++ (show_activity w question_type selected_level response).1)%list,
             (show_activity w question_type selected_level response).2)
        end
    end.
Proof.
  intros Hguard. rewrite generate_activity_unfold.
  assert (String.eqb question_type "Custom" && String.eqb query "" = false) as ->.
  { apply andb_false_iff.
    destruct (String.eqb_spec question_type "Custom") as [Hc | _]; [| by left].
    right. apply String.eqb_neq. by apply Hguard. }
  rewrite (bind_returns _ _ tt) by done. cbn [fst snd call app].
  destruct chosen as [t [e|prompt]]; [by rewrite (bind_raises _ _ e) |].
  rewrite (bind_returns _ _ prompt) by done. cbn [fst snd].
  rewrite generate_response_eq.
  destruct prompt as [p|].
  - destruct (ollama_generate w selected_model p) as [e|answer].
    + by rewrite (bind_returns _ _ fallback_response).
    + destruct (answer !! "response") as [text|].
      * by rewrite (bind_returns _ _ text).
      * by rewrite (bind_returns _ _ fallback_response).
  - by rewrite (bind_returns _ _ fallback_response).
Qed.

End Activity.

Lemma str_replace_space_from (fuel : nat) (s : string) :
  (String.length s ≤ fuel)%nat → has_byte " " (str_replace_from fuel " " "_" s) = false.
Proof.
  revert s. induction fuel as [|fuel IH]; intros s Hlen.
  - by destruct s; [| simpl in Hlen; lia].
  - destruct s as [|c s]; [done |]. rewrite str_replace_from_step.
    destruct (Ascii.eqb c " ") eqn:Hc.
    + apply Ascii.eqb_eq in Hc as ->.
      rewrite (prefix_app " " s : String.prefix " " (String " " s) = true).
      change (string_drop (String.length " ") (String " " s)) with s.
      rewrite has_byte_app. simpl. apply IH. simpl in Hlen. lia.
    + rewrite prefix_other_head by done. simpl. rewrite Hc. apply IH.
      simpl in Hlen. lia.
Qed.

Lemma join_empty_sep_cons (item : string) (rest : list string) :
  join "" (item :: rest) = item +:+ join "" rest.
Proof. destruct rest; simpl; [by rewrite append_nil_r | done]. Qed.

(** The name of the file the page offers holds no space, whatever the level,
    as long as the name of the activity holds none. *)
Theorem pdf_file_name_has_no_space (question_type selected_level : string) :
  has_byte " " question_type = false →
  has_byte " " (pdf_file_name question_type selected_level) = false.
Proof.
  intros H. unfold pdf_file_name. rewrite !join_empty_sep_cons, !has_byte_app.
  rewrite (has_space_lower _ H). unfold str_replace.
  by rewrite str_replace_space_from.
Qed.

Section ActivityStatements.
Context {ident embedding distance pdf : Type}.
Context (w : app_world embedding distance pdf) (metadata_store : list (Chunk.t ident)).
Context (question_type selected_level selected_area selected_model query : string).

Local Abbreviation retrieved :=
  (query_graph_rag (rag w) metadata_store query selected_area selected_level 3).
Local Abbreviation spinner := (EvSpinner "Generating your activity...").

(** An activity other than Custom never calls the retriever: no event of the
    retriever is in the trace of the page. *)
Theorem fixed_activities_never_retrieve :
  question_type ≠ "Custom" →
  Forall (λ ev, is_retrieval ev = false)
         (generate_activity w metadata_store question_type selected_level
                            selected_area selected_model query).1.
Proof.
  intros Hne. rewrite page_after_guard by done.
  destruct (choose_prompt_fixed w metadata_store question_type selected_level
              selected_area query Hne) as [prompt ->]. cbn [fst snd].
  rewrite generate_response_eq.
  assert (∀ response,
            Forall (λ ev : page_event embedding pdf, is_retrieval ev = false)
                   (show_activity w question_type selected_level response).1) as Hshow.
  { intros response. rewrite show_activity_eq.
    destruct (create_pdf_story w response).2 as [e|story]; [repeat constructor |].
    cbn [fst]. destruct (doc_build w story); repeat constructor. }
  destruct prompt as [p|];
    [destruct (ollama_generate w selected_model p) as [e|answer];
     [| destruct (answer !! "response") as [text|]] |];
    cbn [fst snd]; rewrite app_nil_l;
    (apply Forall_cons; split; [done |]);
    (apply Forall_app; split; [by repeat constructor | apply Hshow]).
Qed.

(** For the Custom activity with a query, once the retriever has returned,
    the page asks the generator with the grounded prompt over the retrieved
    context if the gate accepts the query, and with the redirect prompt if
    not: then the retrieval has run and its result is not used. *)
Theorem custom_prompt_follows_the_gate (results : list (Excerpt.t ident)) :
  question_type = "Custom" → query ≠ "" →
  retrieved.2 = inr results →
  ∃ rest,
    (generate_activity w metadata_store question_type selected_level
                       selected_area selected_model query).1
    = (spinner :: map EvRetrieval retrieved.1
       ++ EvOllamaGenerate selected_model
            (if is_query_relevant query selected_area
             then grounded_prompt selected_area selected_level query
                                  (retrieval_context results)
             else redirect_prompt selected_area selected_level query)
       :: rest)%list.
Proof.
  intros Hq Hne Hr. rewrite page_after_guard by done.
  rewrite choose_prompt_custom by done. cbn [fst snd]. rewrite Hr.
  rewrite generate_response_eq.
  set (prompt := if is_query_relevant query selected_area then _ else _).
  destruct (ollama_generate w selected_model prompt) as [e|answer].
  - cbn [fst snd]. eexists. reflexivity.
  - destruct (answer !! "response") as [text|]; cbn [fst snd];
      eexists; reflexivity.
Qed.

(** A failure of the generator is caught: the page shows one error for it,
    carries on with the fixed fallback sentence as the response, and makes
    the PDF of it: the curriculum note and that sentence as one paragraph.
    If the library constructs both paragraphs, that story is handed to
    [doc.build] and the button follows if the document is built; if it
    raises on one of them, the page ends there. *)
Theorem generation_failure_shows_fallback (p : string) (e : exn) :
  (question_type = "Custom" → query ≠ "") →
  (choose_prompt w metadata_store question_type selected_level selected_area query).2
  = inr (Some p) →
  ollama_generate w selected_model p = inl e →
  (generate_activity w metadata_store question_type selected_level
                     selected_area selected_model query).1
  = (spinner
     :: (choose_prompt w metadata_store question_type selected_level
                       selected_area query).1
     ++ [EvOllamaGenerate selected_model p;
         EvError ("Error generating activity: " +:+ exn_str e);
         EvMarkdown (activity_heading question_type selected_level);
         EvWrite fallback_response; EvMarkdown "---";
         EvWrite "**Complete your activity!**"]
     ++ match paragraph_raises w curriculum_note_text note_style,
              paragraph_raises w fallback_response body_style with
        | None, None =>
            EvDocBuild [curriculum_note; Spacer 1 12;
                        Paragraph fallback_response body_style]
            :: match doc_build w [curriculum_note; Spacer 1 12;
                                  Paragraph fallback_response body_style] with
               | inr data =>
                   [EvDownloadButton "Download as PDF" data
                                     (pdf_file_name question_type selected_level)
                                     "application/pdf"]
               | inl _ => []
               end
        | _, _ => []
        end)%list.
Proof.
  intros Hguard Hp He. rewrite page_after_guard by done. rewrite Hp.
  rewrite generate_response_eq, He. cbn [fst snd]. rewrite show_activity_eq.
  rewrite (create_pdf_story_plain w fallback_response) by (vm_compute; reflexivity).
  replace (List.filter (λ line, negb (String.eqb line ""))
                       (map strip (split_lines fallback_response)))
    with [fallback_response] by (vm_compute; reflexivity).
  change (join "<br/>" [fallback_response]) with fallback_response. cbn [snd].
  destruct (paragraph_raises w curriculum_note_text note_style);
    [reflexivity |].
  destruct (paragraph_raises w fallback_response body_style); reflexivity.
Qed.



End ActivityStatements.

Section FailedRetrieval.
Context {ident embedding distance pdf : Type}.
Context (w : app_world embedding distance pdf) (metadata_store : list (Chunk.t ident)).
Context (selected_level selected_area selected_model query : string).

Local Abbreviation retrieved :=
  (query_graph_rag (rag w) metadata_store query selected_area selected_level 3).

Lemma failed_retrieval_returns_nothing :
  collaborator_fails (rag w) metadata_store query selected_area selected_level 3 →
  retrieved.2 = inr [].
Proof.
  intros [[e He] | (m & tag & Hm & Hl & Hne & Hfail)].
  - by rewrite (retriever_model_unavailable _ _ _ _ _ _ e He).
  - destruct (second_try_raises (rag w) m _ query 3 Hfail) as [e He].
    by rewrite (retriever_second_try_raises _ _ _ _ _ _ m tag e Hm Hl Hne He).
Qed.

(** A failed retrieval does not stop the Custom activity: after the events of
    the retriever, its diagnostic among them, the page asks the generator,
    with the no-data sentence as context if the gate accepts the query. *)
Theorem failed_retrieval_still_generates :
  query ≠ "" →
  collaborator_fails (rag w) metadata_store query selected_area selected_level 3 →
  ∃ rest,
    (generate_activity w metadata_store "Custom" selected_level
                       selected_area selected_model query).1
    = (EvSpinner "Generating your activity..." :: map EvRetrieval retrieved.1
       ++ EvOllamaGenerate selected_model
            (if is_query_relevant query selected_area
             then grounded_prompt selected_area selected_level query
                    "No curriculum data found, but I’ll provide a response!"
             else redirect_prompt selected_area selected_level query)
       :: rest)%list.
Proof.
  intros Hne Hfail. rewrite page_after_guard by done.
  rewrite choose_prompt_custom by done. cbn [fst snd].
  rewrite (failed_retrieval_returns_nothing Hfail).
  rewrite generate_response_eq.
  set (prompt := if is_query_relevant query selected_area then _ else _).
  destruct (ollama_generate w selected_model prompt) as [e|answer].
  - cbn [fst snd]. eexists. reflexivity.
  - destruct (answer !! "response") as [text|]; cbn [fst snd];
      eexists; reflexivity.
Qed.

End FailedRetrieval.

(** * The further properties at concrete inputs *)

(** The view of Science at Level 2 over three chunks; both returned excerpts
    are chunks of it. *)
Lemma results_come_from_the_view_witness :
  (query_graph_rag three_chunk_world three_chunk_store "plants" "Science" "Year 2" 3).2
  = inr [excerpt_of seasons; excerpt_of plants]
  ∧ excerpt_of seasons ∈ [excerpt_of seasons; excerpt_of plants]
  ∧ ∃ tag i c, level_map !! "Year 2" = Some tag
      ∧ three_chunk_store !! i = Some c ∧ excerpt_of seasons = excerpt_of c
      ∧ Metadata.learning_area (Chunk.metadata c) = "Science"
      ∧ (occurs_in tag (Metadata.level (Chunk.metadata c))
         ∨ Metadata.level (Chunk.metadata c) = "Unknown").
Proof.
  assert ((query_graph_rag three_chunk_world three_chunk_store
             "plants" "Science" "Year 2" 3).2
          = inr [excerpt_of seasons; excerpt_of plants]) as H1
    by (vm_compute; reflexivity).
  assert (excerpt_of seasons ∈ [excerpt_of seasons; excerpt_of plants]) as H2
    by apply list_elem_of_here.
  split; [exact H1 |]. split; [exact H2 |].
  exact (results_come_from_the_view three_chunk_world three_chunk_store
           "plants" "Science" "Year 2" 3 _ _ H1 H2).
Defined.

(** A level outside the selector. *)
Lemma retriever_raises_only_key_or_index_error_witness :
  (query_graph_rag three_chunk_world three_chunk_store "plants" "Science" "Year 12" 3).2
  = inl (KeyError "Year 12")
  ∧ ((KeyError "Year 12" = KeyError "Year 12" ∧ "Year 12" ∉ levels)
     ∨ KeyError "Year 12" = IndexError).
Proof.
  assert ((query_graph_rag three_chunk_world three_chunk_store
             "plants" "Science" "Year 12" 3).2 = inl (KeyError "Year 12")) as H
    by (vm_compute; reflexivity).
  split; [exact H |].
  exact (retriever_raises_only_key_or_index_error three_chunk_world three_chunk_store
           "plants" "Science" "Year 12" 3 _ H).
Defined.

Lemma successful_retrieval_trace_witness :
  SentenceTransformer three_chunk_world "all-MiniLM-L6-v2" = inr length_model
  ∧ level_map !! "Year 2" = Some "Level 2"
  ∧ filtered_chunks three_chunk_store "Science" "Level 2" ≠ []
  ∧ (∀ p, p ∈ filtered_chunks three_chunk_store "Science" "Level 2" →
          ∃ v, encode length_model (Chunk.text p.2) = inr v)
  ∧ encode length_model "plants" = inr 6%nat
  ∧ index_search three_chunk_world 6%nat 3
    = inr {| distances := [2; 5; 9]%nat; indices := [1; 0; 2] |}
  ∧ (query_graph_rag three_chunk_world three_chunk_store "plants" "Science" "Year 2" 3).1
    = ([EvLoadModel "all-MiniLM-L6-v2"]
       ++ map EvEncode
            (map (λ p, Chunk.text p.2)
                 (filtered_chunks three_chunk_store "Science" "Level 2"))
       ++ [EvEncode "plants"; EvSearch 6%nat 3])%list.
Proof.
  assert (level_map !! "Year 2" = Some "Level 2") as H2 by (vm_compute; reflexivity).
  assert (filtered_chunks three_chunk_store "Science" "Level 2" ≠ []) as H3
    by (vm_compute; discriminate).
  assert (∀ p, p ∈ filtered_chunks three_chunk_store "Science" "Level 2" →
               ∃ v, encode length_model (Chunk.text p.2) = inr v) as H4
    by (intros p _; eexists; reflexivity).
  split; [reflexivity |]. split; [exact H2 |]. split; [exact H3 |].
  split; [exact H4 |]. split; [reflexivity |]. split; [reflexivity |].
  exact (successful_retrieval_trace three_chunk_world three_chunk_store
           "plants" "Science" "Year 2" 3 length_model "Level 2" 6%nat _
           eq_refl H2 H3 H4 eq_refl eq_refl).
Defined.

(** A query with a capital sigma at the end of a word: with text after it
    the sigma is lower-cased to its other form, and the keyword stays. *)
Lemma relevance_survives_context_witness :
  well_formed_utf8 "My " = true
  ∧ well_formed_utf8 ("Plant " +:+ encode_utf8 [913; 931]) = true
  ∧ is_query_relevant ("Plant " +:+ encode_utf8 [913; 931]) "Science" = true
  ∧ lower ("Plant " +:+ encode_utf8 [913; 931]) = "plant " +:+ encode_utf8 [945; 962]
  ∧ lower ("My " +:+ ("Plant " +:+ encode_utf8 [913; 931]) +:+ "a")
    = "my plant " +:+ encode_utf8 [945; 963] +:+ "a"
  ∧ is_query_relevant ("My " +:+ ("Plant " +:+ encode_utf8 [913; 931]) +:+ "a") "Science"
    = true.
Proof.
  assert (well_formed_utf8 "My " = true) as H1 by (vm_compute; reflexivity).
  assert (well_formed_utf8 ("Plant " +:+ encode_utf8 [913; 931]) = true) as H2
    by (vm_compute; reflexivity).
  assert (is_query_relevant ("Plant " +:+ encode_utf8 [913; 931]) "Science" = true) as H3
    by (vm_compute; reflexivity).
  split; [exact H1 |]. split; [exact H2 |]. split; [exact H3 |].
  split; [vm_compute; reflexivity |]. split; [vm_compute; reflexivity |].
  exact (relevance_survives_context _ "Science" "My " "a" H1 H2 H3).
Defined.

Lemma short_query_is_never_relevant_witness :
  (String.length "ad" < 3)%nat ∧ is_query_relevant "ad" "Mathematics" = false.
Proof.
  assert (String.length "ad" < 3)%nat as H by (simpl; lia).
  split; [exact H |]. exact (short_query_is_never_relevant "ad" "Mathematics" H).
Defined.

Lemma area_of_nonempty_view_is_offered_witness :
  filtered_chunks scenario1_store "Science" "Level 2" ≠ []
  ∧ "Science" ∈ learning_areas scenario1_store.
Proof.
  assert (filtered_chunks scenario1_store "Science" "Level 2" ≠ []) as H
    by (vm_compute; discriminate).
  split; [exact H |].
  exact (area_of_nonempty_view_is_offered scenario1_store "Science" "Level 2" H).
Defined.

(** Two lines of text with white space between them, and a library that
    rejects the bold tag the second line leaves open: with and without the
    blank lines the same exception is raised. *)
Lemma blank_lines_change_nothing_witness :
  Forall (λ line, strip line = "") (split_lines ("  " +:+ nl +:+ ""))
  ∧ create_pdf_story (strict_markup_app three_chunk_world)
      ("Water them." +:+ String newline
         (("  " +:+ nl +:+ "") +:+ String newline "Give <b>them light."))
    = create_pdf_story (strict_markup_app three_chunk_world)
        ("Water them." +:+ String newline "Give <b>them light.")
  ∧ create_pdf_story (strict_markup_app three_chunk_world)
      ("Water them." +:+ String newline "Give <b>them light.")
    = ([], inl (Error "Parse error: saw </para> instead of expected </b>")).
Proof.
  assert (Forall (λ line, strip line = "") (split_lines ("  " +:+ nl +:+ ""))) as H
    by (repeat constructor).
  split; [exact H |]. split; [| vm_compute; reflexivity].
  exact (blank_lines_change_nothing (strict_markup_app three_chunk_world)
           "Water them." ("  " +:+ nl +:+ "") "Give <b>them light." H).
Defined.

(** Two lines of text: one body paragraph with a library that constructs
    it, and the exception of the library with an open bold tag. *)
Lemma plain_text_is_one_paragraph_witness :
  forallb is_plain_line (split_lines ("Water them." +:+ nl +:+ nl +:+ " Give them light. "))
  = true
  ∧ create_pdf_story (friendly_app three_chunk_world)
      ("Water them." +:+ nl +:+ nl +:+ " Give them light. ")
    = ([], inr [curriculum_note; Spacer 1 12;
                Paragraph "Water them.<br/>Give them light." body_style])
  ∧ forallb is_plain_line (split_lines "<b>unclosed") = true
  ∧ create_pdf_story (strict_markup_app three_chunk_world) "<b>unclosed"
    = ([], inl (Error "Parse error: saw </para> instead of expected </b>")).
Proof.
  assert (forallb is_plain_line
            (split_lines ("Water them." +:+ nl +:+ nl +:+ " Give them light. ")) = true)
    as H1 by (vm_compute; reflexivity).
  assert (forallb is_plain_line (split_lines "<b>unclosed") = true) as H2
    by (vm_compute; reflexivity).
  split; [exact H1 |]. split; [| split; [exact H2 |]].
  - exact (plain_text_is_one_paragraph (friendly_app three_chunk_world) _ H1).
  - exact (plain_text_is_one_paragraph (strict_markup_app three_chunk_world) _ H2).
Defined.

(** A heading after a pending line, and a heading with a bold tag left open. *)
Lemma heading_line_gives_its_text_witness :
  " ### Plants " ∈ split_lines (" ### Plants " +:+ nl +:+ "Water them.")
  ∧ startswith (strip " ### Plants ") "### " = true
  ∧ (∃ title, strip " ### Plants " = "### " +:+ title ∧ title ≠ ""
       ∧ story_step (friendly_app three_chunk_world)
           ([curriculum_note], ["pending"]) " ### Plants "
         = (flushed ← flush_section (friendly_app three_chunk_world)
                        [curriculum_note] ["pending"];
            heading ← new_paragraph (friendly_app three_chunk_world) title title_style;
            mret ((flushed ++ [heading; Spacer 1 12])%list, []))
       ∧ (∀ flushed,
            flush_section (friendly_app three_chunk_world) [curriculum_note] ["pending"]
            = ([], inr flushed) →
            story_step (friendly_app three_chunk_world)
              ([curriculum_note], ["pending"]) " ### Plants "
            = ([], match paragraph_raises (friendly_app three_chunk_world)
                                          title title_style with
                   | Some e => inl e
                   | None =>
                       inr ((flushed ++ [Paragraph title title_style; Spacer 1 12])%list,
                            [])
                   end)))
  ∧ story_step (friendly_app three_chunk_world) ([curriculum_note], ["pending"])
      " ### Plants "
    = ([], inr ([curriculum_note; Paragraph "pending" body_style;
                 Paragraph "Plants" title_style; Spacer 1 12], []))
  ∧ story_step (strict_markup_app three_chunk_world) ([curriculum_note], [])
      "### <b>x"
    = ([], inl (Error "Parse error: saw </para> instead of expected </b>")).
Proof.
  assert (" ### Plants " ∈ split_lines (" ### Plants " +:+ nl +:+ "Water them.")) as H1
    by apply list_elem_of_here.
  assert (startswith (strip " ### Plants ") "### " = true) as H2
    by (vm_compute; reflexivity).
  split; [exact H1 |]. split; [exact H2 |].
  split; [| split; vm_compute; reflexivity].
  exact (heading_line_gives_its_text (friendly_app three_chunk_world) _ _
           [curriculum_note] ["pending"] H1 H2).
Defined.

(** The footer line of the page, and a footer with an italic tag left open
    in a library that rejects it. *)
Lemma footer_line_gives_its_text_witness :
  strip " **Complete your activity!** " = "**" +:+ "Complete your activity!" +:+ "**"
  ∧ has_byte "*" "Complete your activity!" = false
  ∧ (story_step (friendly_app three_chunk_world) ([curriculum_note], ["pending"])
       " **Complete your activity!** "
     = (flushed ← flush_section (friendly_app three_chunk_world)
                    [curriculum_note] ["pending"];
        closing ← new_paragraph (friendly_app three_chunk_world)
                    "Complete your activity!" footer_style;
        mret ((flushed ++ [closing])%list, []))
     ∧ (∀ flushed,
          flush_section (friendly_app three_chunk_world) [curriculum_note] ["pending"]
          = ([], inr flushed) →
          story_step (friendly_app three_chunk_world) ([curriculum_note], ["pending"])
            " **Complete your activity!** "
          = ([], match paragraph_raises (friendly_app three_chunk_world)
                                        "Complete your activity!" footer_style with
                 | Some e => inl e
                 | None =>
                     inr ((flushed ++ [Paragraph "Complete your activity!" footer_style])%list,
                          [])
                 end)))
  ∧ story_step (friendly_app three_chunk_world) ([curriculum_note], ["pending"])
      " **Complete your activity!** "
    = ([], inr ([curriculum_note; Paragraph "pending" body_style;
                 Paragraph "Complete your activity!" footer_style], []))
  ∧ story_step (strict_markup_app three_chunk_world) ([curriculum_note], [])
      "**<b>x**"
    = ([], inl (Error "Parse error: saw </para> instead of expected </b>")).
Proof.
  assert (strip " **Complete your activity!** "
          = "**" +:+ "Complete your activity!" +:+ "**") as H1
    by (vm_compute; reflexivity).
  assert (has_byte "*" "Complete your activity!" = false) as H2
    by (vm_compute; reflexivity).
  split; [exact H1 |]. split; [exact H2 |].
  split; [| split; vm_compute; reflexivity].
  exact (footer_line_gives_its_text (friendly_app three_chunk_world) _ _
           [curriculum_note] ["pending"] H1 H2).
Defined.

Lemma ollama_failure_offers_llama3_witness :
  ((∃ e, ollama_list (offline_app three_chunk_world)
           (default "localhost:11434" (getenv (offline_app three_chunk_world) "OLLAMA_HOST"))
         = inl e)
   ∨ (∃ response e,
        ollama_list (offline_app three_chunk_world)
          (default "localhost:11434" (getenv (offline_app three_chunk_world) "OLLAMA_HOST"))
        = inr response
        ∧ inl e ∈ dict_get response "models" []))
  ∧ (get_ollama_models (offline_app three_chunk_world)).2 = inr ["llama3"]
  ∧ length (List.filter is_page_error (get_ollama_models (offline_app three_chunk_world)).1)
    = 1%nat.
Proof.
  assert ((∃ e, ollama_list (offline_app three_chunk_world)
                  (default "localhost:11434"
                           (getenv (offline_app three_chunk_world) "OLLAMA_HOST"))
                = inl e)
          ∨ (∃ response e,
               ollama_list (offline_app three_chunk_world)
                 (default "localhost:11434"
                          (getenv (offline_app three_chunk_world) "OLLAMA_HOST"))
               = inr response
               ∧ inl e ∈ dict_get response "models" [])) as H
    by (left; eexists; reflexivity).
  split; [exact H |]. exact (ollama_failure_offers_llama3 _ H).
Defined.

Lemma ollama_models_are_the_listed_names_witness :
  ollama_list (friendly_app three_chunk_world)
    (default "localhost:11434" (getenv (friendly_app three_chunk_world) "OLLAMA_HOST"))
  = inr {["models" := [inr "llama3.2"; inr "mistral"]]}
  ∧ dict_get ({["models" := [inr "llama3.2"; inr "mistral"]]}
               : gmap string (list (exn + string))) "models" []
    = map inr ["llama3.2"; "mistral"]
  ∧ get_ollama_models (friendly_app three_chunk_world)
    = ([EvOllamaList "localhost:11434"], inr ["llama3.2"; "mistral"]).
Proof.
  assert (dict_get ({["models" := [inr "llama3.2"; inr "mistral"]]}
                     : gmap string (list (exn + string))) "models" []
          = map inr ["llama3.2"; "mistral"]) as H by (vm_compute; reflexivity).
  split; [reflexivity |]. split; [exact H |].
  exact (ollama_models_are_the_listed_names (friendly_app three_chunk_world)
           _ ["llama3.2"; "mistral"] eq_refl H).
Defined.

Lemma pdf_file_name_has_no_space_witness :
  has_byte " " "Story" = false ∧ has_byte " " (pdf_file_name "Story" "Year 10") = false.
Proof.
  assert (has_byte " " "Story" = false) as H by (vm_compute; reflexivity).
  split; [exact H |]. exact (pdf_file_name_has_no_space "Story" "Year 10" H).
Defined.

Lemma fixed_activities_never_retrieve_witness :
  "Maths" ≠ "Custom"
  ∧ Forall (λ ev, is_retrieval ev = false)
           (generate_activity (friendly_app three_chunk_world) three_chunk_store
                              "Maths" "Year 2" "" "llama3.2" "").1.
Proof.
  assert ("Maths" ≠ "Custom") as H by discriminate.
  split; [exact H |].
  exact (fixed_activities_never_retrieve (friendly_app three_chunk_world)
           three_chunk_store "Maths" "Year 2" "" "llama3.2" "" H).
Defined.

(** The gate rejects CPU for Science: the redirect prompt, after a retrieval
    that found two excerpts. *)
Lemma custom_prompt_follows_the_gate_witness :
  "Custom" = "Custom" ∧ "CPU" ≠ ""
  ∧ (query_graph_rag (rag (friendly_app three_chunk_world)) three_chunk_store
                     "CPU" "Science" "Year 2" 3).2
    = inr [excerpt_of seasons; excerpt_of plants]
  ∧ ∃ rest,
      (generate_activity (friendly_app three_chunk_world) three_chunk_store
                         "Custom" "Year 2" "Science" "llama3.2" "CPU").1
      = (EvSpinner "Generating your activity..."
         :: map EvRetrieval
              (query_graph_rag (rag (friendly_app three_chunk_world)) three_chunk_store
                               "CPU" "Science" "Year 2" 3).1
         ++ EvOllamaGenerate "llama3.2"
              (if is_query_relevant "CPU" "Science"
               then grounded_prompt "Science" "Year 2" "CPU"
                      (retrieval_context [excerpt_of seasons; excerpt_of plants])
               else redirect_prompt "Science" "Year 2" "CPU")
         :: rest)%list.
Proof.
  assert ("CPU" ≠ "") as H2 by discriminate.
  assert ((query_graph_rag (rag (friendly_app three_chunk_world)) three_chunk_store
                           "CPU" "Science" "Year 2" 3).2
          = inr [excerpt_of seasons; excerpt_of plants]) as H3
    by (vm_compute; reflexivity).
  split; [reflexivity |]. split; [exact H2 |]. split; [exact H3 |].
  exact (custom_prompt_follows_the_gate (friendly_app three_chunk_world)
           three_chunk_store "Custom" "Year 2" "Science" "llama3.2" "CPU" _
           eq_refl H2 H3).
Defined.

(** No Ollama server, and a library that constructs every paragraph. *)
Lemma generation_failure_shows_fallback_witness :
  ("Story" = "Custom" → "" ≠ "")
  ∧ (choose_prompt (offline_app three_chunk_world) three_chunk_store
                   "Story" "Year 2" "" "").2
    = inr (Some (story_prompt "Year 2" (fixed_context "Story" "Year 2")))
  ∧ ollama_generate (offline_app three_chunk_world) "llama3"
      (story_prompt "Year 2" (fixed_context "Story" "Year 2"))
    = inl (Error "connection refused")
  ∧ (generate_activity (offline_app three_chunk_world) three_chunk_store
                       "Story" "Year 2" "" "llama3" "").1
    = (EvSpinner "Generating your activity..."
       :: (choose_prompt (offline_app three_chunk_world) three_chunk_store
                         "Story" "Year 2" "" "").1
       ++ [EvOllamaGenerate "llama3"
             (story_prompt "Year 2" (fixed_context "Story" "Year 2"));
           EvError ("Error generating activity: "
                    +:+ exn_str (Error "connection refused"));
           EvMarkdown (activity_heading "Story" "Year 2");
           EvWrite fallback_response; EvMarkdown "---";
           EvWrite "**Complete your activity!**"]
       ++ match paragraph_raises (offline_app three_chunk_world)
                                 curriculum_note_text note_style,
                paragraph_raises (offline_app three_chunk_world)
                                 fallback_response body_style with
          | None, None =>
              EvDocBuild [curriculum_note; Spacer 1 12;
                          Paragraph fallback_response body_style]
              :: match doc_build (offline_app three_chunk_world)
                         [curriculum_note; Spacer 1 12;
                          Paragraph fallback_response body_style] with
                 | inr data =>
                     [EvDownloadButton "Download as PDF" data
                                       (pdf_file_name "Story" "Year 2") "application/pdf"]
                 | inl _ => []
                 end
          | _, _ => []
          end)%list.
Proof.
  assert ("Story" = "Custom" → "" ≠ "") as H1 by discriminate.
  split; [exact H1 |]. split; [reflexivity |]. split; [reflexivity |].
  exact (generation_failure_shows_fallback (offline_app three_chunk_world)
           three_chunk_store "Story" "Year 2" "" "llama3" "" _ _
           H1 eq_refl eq_refl).
Defined.


(** No embedding model: the retriever shows its diagnostic, the gate accepts
    the query, the generator gets the no-data sentence as context. *)
Lemma failed_retrieval_still_generates_witness :
  "plant growth" ≠ ""
  ∧ collaborator_fails (rag (friendly_app no_model_world)) three_chunk_store
                       "plant growth" "Science" "Year 2" 3
  ∧ ∃ rest,
      (generate_activity (friendly_app no_model_world) three_chunk_store
                         "Custom" "Year 2" "Science" "llama3.2" "plant growth").1
      = (EvSpinner "Generating your activity..."
         :: map EvRetrieval
              (query_graph_rag (rag (friendly_app no_model_world)) three_chunk_store
                               "plant growth" "Science" "Year 2" 3).1
         ++ EvOllamaGenerate "llama3.2"
              (if is_query_relevant "plant growth" "Science"
               then grounded_prompt "Science" "Year 2" "plant growth"
                      "No curriculum data found, but I’ll provide a response!"
               else redirect_prompt "Science" "Year 2" "plant growth")
         :: rest)%list.
Proof.
  assert ("plant growth" ≠ "") as H1 by discriminate.
  assert (collaborator_fails (rag (friendly_app no_model_world)) three_chunk_store
                             "plant growth" "Science" "Year 2" 3) as H2
    by (left; eexists; reflexivity).
  split; [exact H1 |]. split; [exact H2 |].
  exact (failed_retrieval_still_generates (friendly_app no_model_world)
           three_chunk_store "Year 2" "Science" "llama3.2" "plant growth" H1 H2).
Defined.
